(** * Real-time messaging and presence: the Socket.IO handlers of [main.py]
      and the store methods of [db.py] they call.

    The handlers are embedded as state-passing functions over a [world]
    (the SQLite store, the process-wide [ONLINE_USER_IDS] set, the room
    directory and the log of emitted events).  Python values that arrive in
    an event payload are kept dynamically typed ([pyval]); the builtins the
    handlers apply to them ([int], truthiness, [str.split], [sorted],
    f-string formatting of integers) are embedded next to them. *)

From Stdlib Require Import ZArith List String Ascii DecimalString Bool Lia Sorted.
From stdpp Require Import base option gmap strings list fin_maps fin_sets.

Local Open Scope string_scope.
Local Open Scope list_scope.
Local Open Scope Z_scope.

#[local] Set Warnings "-clear-no-such-hyp".

(** ** Python values and builtins

    Strings are byte strings: payload text is taken to be ASCII, so the
    non-ASCII digits and spaces Python's [int] also accepts are outside
    this model.  The integers of a payload are decoded from decimal text
    and so stay under the limit on the length of such text. *)

Module Python.

(** A binary float: [Finite m e] is [m * 2^e]. *)
Inductive pyfloat :=
| Finite (m e : Z)
| NaN
| Inf (negative : bool).

(** The values a JSON payload field can hold.  Lists and dicts are kept
    only up to their truthiness ([Container true] is a non-empty one): the
    handlers never look inside them. *)
Inductive pyval :=
| VNone
| VBool (b : bool)
| VInt (z : Z)
| VFloat (f : pyfloat)
| VStr (s : string)
| Container (nonempty : bool).

Inductive pyexn :=
| TypeError
| ValueError
| OverflowError
| AttributeError
| SqliteBindError
| SqliteIntegrityError.

(** Evaluation of a call that may raise. *)
Inductive result (A : Type) :=
| Ok (a : A)
| Exn (e : pyexn).
Arguments Ok {A} a.
Arguments Exn {A} e.

(** [bool(v)], as used by [if v], [not v] and [or]. *)
Definition truthy (v : pyval) : bool :=
  match v with
  | VNone => false
  | VBool b => b
  | VInt z => negb (z =? 0)
  | VFloat (Finite m _) => negb (m =? 0)
  | VFloat _ => true
  | VStr s => negb (String.eqb s "")
  | Container b => b
  end.

(** [a or b]. *)
Definition py_or (a b : pyval) : pyval := if truthy a then a else b.

(** [v == s] for a string literal [s]. *)
Definition eq_str (v : pyval) (s : string) : bool :=
  match v with
  | VStr t => String.eqb t s
  | _ => false
  end.

(** [str.isspace] on an ASCII character: the characters [str.strip]
    removes, the separators [0x1c] to [0x1f] among them. *)
Definition isspace (c : ascii) : bool :=
  let n := nat_of_ascii c in
  ((9 <=? n) && (n <=? 13) || (28 <=? n) && (n <=? 32))%nat.

(** The blanks [int] skips around the digits of an ASCII string: tab, line
    feed, vertical tab, form feed, carriage return and space, and not the
    separators [0x1c] to [0x1f]. *)
Definition int_space (c : ascii) : bool :=
  let n := nat_of_ascii c in
  ((9 <=? n) && (n <=? 13) || (n =? 32))%nat.

Definition digit_of (c : ascii) : option Z :=
  let n := nat_of_ascii c in
  if ((48 <=? n) && (n <=? 57))%nat then Some (Z.of_nat n - 48) else None.

(** Decimal digits with single underscores allowed between digits. *)
Fixpoint digits (after_digit : bool) (acc : Z) (l : list ascii) : option Z :=
  match l with
  | [] => if after_digit then Some acc else None
  | c :: r =>
      match digit_of c with
      | Some d => digits true (10 * acc + d) r
      | None =>
          if Ascii.eqb c "_" && after_digit then digits false acc r else None
      end
  end.

(** Removing the characters [blank] accepts from the left, and from both
    ends. *)
Fixpoint lstrip (blank : ascii -> bool) (l : list ascii) : list ascii :=
  match l with
  | c :: r => if blank c then lstrip blank r else l
  | [] => []
  end.

Definition strip (blank : ascii -> bool) (l : list ascii) : list ascii :=
  rev (lstrip blank (rev (lstrip blank l))).

(** The most digits [int] converts ([sys.int_info.default_max_str_digits]);
    a longer literal is a [ValueError]. *)
Definition max_str_digits : Z := 4300.

Definition count_digits (l : list ascii) : Z :=
  Z.of_nat (length (List.filter (fun c => bool_decide (is_Some (digit_of c))) l)).

(** [int(s)] for a string, base 10: [None] stands for [ValueError]. *)
Definition int_of_str (s : string) : option Z :=
  let l := strip int_space (list_ascii_of_string s) in
  if max_str_digits <? count_digits l then None else
  match l with
  | "+"%char :: r => digits false 0 r
  | "-"%char :: r => option_map Z.opp (digits false 0 r)
  | l => digits false 0 l
  end.

(** [int(f)] for a float: truncation toward zero. *)
Definition int_of_float (f : pyfloat) : result Z :=
  match f with
  | Finite m e => Ok (if 0 <=? e then m * 2 ^ e else Z.quot m (2 ^ (- e)))
  | NaN => Exn ValueError
  | Inf _ => Exn OverflowError
  end.

(** The builtin [int(v)]. *)
Definition int (v : pyval) : result Z :=
  match v with
  | VNone => Exn TypeError
  | VBool b => Ok (if b then 1 else 0)
  | VInt z => Ok z
  | VFloat f => int_of_float f
  | VStr s => match int_of_str s with Some z => Ok z | None => Exn ValueError end
  | Container _ => Exn TypeError
  end.

(** [str(z)], the formatting an f-string applies to an integer. *)
Definition str_of_int (z : Z) : string := NilZero.string_of_int (Z.to_int z).

(** [s.split(':')]. *)
Fixpoint split_colon (s : string) : list string :=
  match s with
  | EmptyString => [EmptyString]
  | String c r =>
      if Ascii.eqb c ":" then EmptyString :: split_colon r
      else match split_colon r with
           | h :: t => String c h :: t
           | [] => [String c EmptyString]
           end
  end.

(** [sorted] on a list of integers (stable insertion sort). *)
Fixpoint insert_sorted (x : Z) (l : list Z) : list Z :=
  match l with
  | [] => [x]
  | y :: r => if y <=? x then y :: insert_sorted x r else x :: l
  end.

Definition sorted (l : list Z) : list Z := fold_left (fun acc x => insert_sorted x acc) l [].

End Python.

(** ** The store: [db.py], class [Database] *)

Module Db.
Import Python.

(** Rows of the tables the handlers touch, with the columns they read. *)
Record user_row := { user_id : Z; user_name : string }.

Record channel_row := { channel_id : Z; channel_admin : option Z }.

Record member_row := { member_chat : Z; member_user : Z }.

(** What a [content] column holds and a [SELECT] gives back as a [str].
    The column is declared [TEXT]: SQLite converts a number stored there to
    text, an integer to its decimal digits and a real by its own
    formatting routine, which is not reproduced here: [RealText f] stands
    for the text SQLite writes for the real [f]. *)
Inductive stored_text :=
| Text (s : string)
| RealText (f : pyfloat).

(** One row of [personal_messages], [chat_messages] or [channel_messages]:
    [msg_target] is the [to_user_id], [chat_id] or [channel_id] column. *)
Record message_row := {
  msg_id : Z;
  msg_sender : option Z;
  msg_target : Z;
  msg_content : stored_text;
  msg_timestamp : string
}.

(** The tables, in rowid order, and the value SQLite's [CURRENT_TIMESTAMP]
    default takes at the next insertion. *)
Record Database := {
  users : list user_row;
  channels : list channel_row;
  chat_members : list member_row;
  personal_messages : list message_row;
  chat_messages : list message_row;
  channel_messages : list message_row;
  CURRENT_TIMESTAMP : string
}.

(** An [INTEGER] parameter must fit SQLite's signed 64 bits; the driver
    raises [OverflowError] otherwise, before the statement runs. *)
Definition sqlite_int (z : Z) : bool := (- 2 ^ 63 <=? z) && (z <? 2 ^ 63).

(** Binding one Python value as a statement parameter. *)
Definition bind (v : pyval) : result unit :=
  match v with
  | VInt z => if sqlite_int z then Ok tt else Exn OverflowError
  | Container _ => Exn SqliteBindError
  | _ => Ok tt
  end.

Definition bind_int (z : Z) : result unit := bind (VInt z).

(** The parameter of a [content] column, which is [TEXT NOT NULL], and
    what the column then holds.  [None] binds as NULL, and so does a NaN
    (SQLite has no NaN): the statement then fails on the constraint.  A
    [bool] binds as the integer 1 or 0. *)
Definition bind_content (v : pyval) : result stored_text :=
  match v with
  | VNone => Exn SqliteIntegrityError
  | VBool b => Ok (Text (if b then "1" else "0"))
  | VInt z => if sqlite_int z then Ok (Text (str_of_int z)) else Exn OverflowError
  | VFloat NaN => Exn SqliteIntegrityError
  | VFloat f => Ok (RealText f)
  | VStr s => Ok (Text s)
  | Container _ => Exn SqliteBindError
  end.

Definition bind_opt_int (o : option Z) : result unit :=
  match o with
  | Some z => bind_int z
  | None => Ok tt
  end.

(** [lastrowid] of an insertion into a rowid table. *)
Definition next_rowid (rows : list message_row) : Z :=
  1 + fold_right Z.max 0 (map msg_id rows).

(** [WHERE id = ? AND sender_id = ?]. *)
Definition owned_by (message_id owner_id : Z) (r : message_row) : bool :=
  (msg_id r =? message_id) &&
  match msg_sender r with
  | Some s => s =? owner_id
  | None => false
  end.

(** [INSERT INTO <messages> (..., content) VALUES (?, ?, ?)]: the new table
    and [lastrowid]. *)
Definition insert_message (rows : list message_row) (sender : option Z)
    (target : Z) (content : stored_text) (now : string) : list message_row * Z :=
  let new_id := next_rowid rows in
  (rows ++ [ {| msg_id := new_id; msg_sender := sender; msg_target := target;
                msg_content := content; msg_timestamp := now |} ], new_id).

(** [DELETE FROM <messages> WHERE id = ? AND sender_id = ?]: the remaining
    rows and [rowcount]. *)
Definition delete_owned (rows : list message_row) (message_id owner_id : Z)
    : list message_row * nat :=
  (List.filter (fun r => negb (owned_by message_id owner_id r)) rows,
   length (List.filter (owned_by message_id owner_id) rows)).

Definition set_personal_messages (db : Database) (rows : list message_row) : Database :=
  {| users := users db; channels := channels db; chat_members := chat_members db;
     personal_messages := rows; chat_messages := chat_messages db;
     channel_messages := channel_messages db;
     CURRENT_TIMESTAMP := CURRENT_TIMESTAMP db |}.

Definition set_chat_messages (db : Database) (rows : list message_row) : Database :=
  {| users := users db; channels := channels db; chat_members := chat_members db;
     personal_messages := personal_messages db; chat_messages := rows;
     channel_messages := channel_messages db;
     CURRENT_TIMESTAMP := CURRENT_TIMESTAMP db |}.

Definition set_channel_messages (db : Database) (rows : list message_row) : Database :=
  {| users := users db; channels := channels db; chat_members := chat_members db;
     personal_messages := personal_messages db; chat_messages := chat_messages db;
     channel_messages := rows;
     CURRENT_TIMESTAMP := CURRENT_TIMESTAMP db |}.

(** [get_user_id(name)]: [None] as a name is bound as NULL and matches no
    row. *)
Definition get_user_id (db : Database) (name : option string) : option Z :=
  match name with
  | Some n => user_id <$> List.find (fun r => String.eqb (user_name r) n) (users db)
  | None => None
  end.

Definition is_user_chat_member (db : Database) (chat_id user_id : Z) : result bool :=
  match bind_int chat_id, bind_int user_id with
  | Ok _, Ok _ =>
      Ok (existsb (fun r => (member_chat r =? chat_id) && (member_user r =? user_id))
            (chat_members db))
  | Exn e, _ | _, Exn e => Exn e
  end.

Definition is_user_channel_admin (db : Database) (user_id channel_id : Z) : result bool :=
  match bind_int channel_id with
  | Ok _ =>
      Ok match List.find (fun r => Db.channel_id r =? channel_id) (channels db) with
         | Some r => match channel_admin r with
                     | Some a => a =? user_id
                     | None => false
                     end
         | None => false
         end
  | Exn e => Exn e
  end.

Definition create_personal_message (db : Database) (sender_id : option Z)
    (to_user_id : Z) (content : pyval) : result (Z * Database) :=
  match bind_opt_int sender_id, bind_int to_user_id, bind_content content with
  | Ok _, Ok _, Ok content =>
      let '(rows, id) := insert_message (personal_messages db) sender_id
                           to_user_id content (CURRENT_TIMESTAMP db) in
      Ok (id, set_personal_messages db rows)
  | Exn e, _, _ | _, Exn e, _ | _, _, Exn e => Exn e
  end.

Definition create_chat_message (db : Database) (chat_id sender_id : Z)
    (content : pyval) : result (Z * Database) :=
  match bind_int chat_id, bind_int sender_id, bind_content content with
  | Ok _, Ok _, Ok content =>
      let '(rows, id) := insert_message (chat_messages db) (Some sender_id)
                           chat_id content (CURRENT_TIMESTAMP db) in
      Ok (id, set_chat_messages db rows)
  | Exn e, _, _ | _, Exn e, _ | _, _, Exn e => Exn e
  end.

Definition create_channel_message (db : Database) (channel_id sender_id : Z)
    (content : pyval) : result (Z * Database) :=
  match bind_int channel_id, bind_int sender_id, bind_content content with
  | Ok _, Ok _, Ok content =>
      let '(rows, id) := insert_message (channel_messages db) (Some sender_id)
                           channel_id content (CURRENT_TIMESTAMP db) in
      Ok (id, set_channel_messages db rows)
  | Exn e, _, _ | _, Exn e, _ | _, _, Exn e => Exn e
  end.

Definition delete_personal_message (db : Database) (message_id owner_id : Z)
    : result (bool * Database) :=
  match bind_int message_id, bind_int owner_id with
  | Ok _, Ok _ =>
      let '(rows, rowcount) := delete_owned (personal_messages db) message_id owner_id in
      Ok ((0 <? rowcount)%nat, set_personal_messages db rows)
  | Exn e, _ | _, Exn e => Exn e
  end.

Definition delete_chat_message (db : Database) (message_id owner_id : Z)
    : result (bool * Database) :=
  match bind_int message_id, bind_int owner_id with
  | Ok _, Ok _ =>
      let '(rows, rowcount) := delete_owned (chat_messages db) message_id owner_id in
      Ok ((0 <? rowcount)%nat, set_chat_messages db rows)
  | Exn e, _ | _, Exn e => Exn e
  end.

Definition delete_channel_message (db : Database) (message_id owner_id : Z)
    : result (bool * Database) :=
  match bind_int message_id, bind_int owner_id with
  | Ok _, Ok _ =>
      let '(rows, rowcount) := delete_owned (channel_messages db) message_id owner_id in
      Ok ((0 <? rowcount)%nat, set_channel_messages db rows)
  | Exn e, _ | _, Exn e => Exn e
  end.

(** [SELECT timestamp FROM <messages> WHERE id = ?] followed by
    [fetchone()], as the handlers run it on [db.cursor]. *)
Definition select_timestamp (rows : list message_row) (message_id : Z) : option string :=
  msg_timestamp <$> List.find (fun r => msg_id r =? message_id) rows.

#[global] Arguments get_user_id : simpl never.
#[global] Arguments is_user_chat_member : simpl never.
#[global] Arguments is_user_channel_admin : simpl never.
#[global] Arguments create_personal_message : simpl never.
#[global] Arguments create_chat_message : simpl never.
#[global] Arguments create_channel_message : simpl never.
#[global] Arguments delete_personal_message : simpl never.
#[global] Arguments delete_chat_message : simpl never.
#[global] Arguments delete_channel_message : simpl never.
#[global] Arguments select_timestamp : simpl never.

End Db.

(** ** The event handlers: [main.py] *)

Module Main.
Import Python Db.

(** What a handler reads from its request context: the Socket.IO session id
    of the connection and the [username] key of the Flask session. *)
Record ctx := { sid : nat; session_username : option string }.

(** Where an emitted event goes: to one connection, to the members of a
    room, to every connected client, or (with [include_self=False]) to the
    members of a room other than the connection being served; the room of
    such an event is the value of the payload as it came. *)
Inductive target :=
| ToSid (s : nat)
| ToRoom (room : string)
| ToAll
| ToOthers (room : pyval) (skip_sid : nat).

Record emission := {
  event : string;
  payload : list (string * pyval);
  to : target
}.

(** The state the handlers share: the store, the module-level set
    [ONLINE_USER_IDS], the room directory (which connection joined which
    room) and the events emitted so far, oldest first. *)
Record world := {
  store : Database;
  ONLINE_USER_IDS : gset Z;
  room_members : gset (nat * string);
  emitted : list emission
}.

(** A handler runs to completion on the world and either returns or
    raises; what it did before raising stays done. *)
Definition handler (A : Type) : Type := world -> result A * world.

#[global] Instance handler_ret : MRet handler := fun A a w => (Ok a, w).

#[global] Instance handler_bind : MBind handler := fun A B f m w =>
  match m w with
  | (Ok a, w') => f a w'
  | (Exn e, w') => (Exn e, w')
  end.

Definition raise {A} (e : pyexn) : handler A := fun w => (Exn e, w).

(** Run a store method that only reads. *)
Definition query {A} (q : Database -> result A) : handler A := fun w =>
  (q (store w), w).

(** Run a store method that writes (and commits) unless it raises. *)
Definition execute {A} (q : Database -> result (A * Database)) : handler A := fun w =>
  match q (store w) with
  | Ok (a, db) =>
      (Ok a, {| store := db; ONLINE_USER_IDS := ONLINE_USER_IDS w;
                room_members := room_members w; emitted := emitted w |})
  | Exn e => (Exn e, w)
  end.

Definition send (e : emission) : handler unit := fun w =>
  (Ok tt, {| store := store w; ONLINE_USER_IDS := ONLINE_USER_IDS w;
             room_members := room_members w; emitted := emitted w ++ [e] |}).

(** [flask_socketio.emit(event, payload)]: without [to], the event goes to
    the connection being served. *)
Definition emit (c : ctx) (ev : string) (p : list (string * pyval))
    (room : option string) : handler unit :=
  send {| event := ev; payload := p;
          to := match room with Some r => ToRoom r | None => ToSid (sid c) end |}.

(** [sio.emit(event, payload)]: without [to], the event goes to everyone. *)
Definition sio_emit (ev : string) (p : list (string * pyval))
    (room : option string) : handler unit :=
  send {| event := ev; payload := p;
          to := match room with Some r => ToRoom r | None => ToAll end |}.

Definition join_room (c : ctx) (room : string) : handler unit := fun w =>
  (Ok tt, {| store := store w; ONLINE_USER_IDS := ONLINE_USER_IDS w;
             room_members := {[ (sid c, room) ]} ∪ room_members w;
             emitted := emitted w |}).

(** [ONLINE_USER_IDS.add(user_id)]. *)
Definition online_add (u : Z) : handler unit := fun w =>
  (Ok tt, {| store := store w; ONLINE_USER_IDS := {[ u ]} ∪ ONLINE_USER_IDS w;
             room_members := room_members w; emitted := emitted w |}).

(** [ONLINE_USER_IDS.discard(user_id)]. *)
Definition online_discard (u : Z) : handler unit := fun w =>
  (Ok tt, {| store := store w; ONLINE_USER_IDS := ONLINE_USER_IDS w ∖ {[ u ]};
             room_members := room_members w; emitted := emitted w |}).

(** [user_id in ONLINE_USER_IDS]. *)
Definition online_mem (u : Z) : handler bool := fun w =>
  (Ok (bool_decide (u ∈ ONLINE_USER_IDS w)), w).

(** [get_db().get_user_id(username)]. *)
Definition db_get_user_id (username : option string) : handler (option Z) :=
  query (fun db => Ok (get_user_id db username)).

(** The session's [username], as a Python value. *)
Definition of_name (o : option string) : pyval :=
  match o with Some s => VStr s | None => VNone end.

(** A user id, as a Python value. *)
Definition of_id (o : option Z) : pyval :=
  match o with Some z => VInt z | None => VNone end.

(** [data.get(key)]. *)
Definition get (data : gmap string pyval) (key : string) : pyval :=
  default VNone (data !! key).

(** [try: int(v)] with [except (TypeError, ValueError)] yielding [None];
    any other exception propagates. *)
Definition try_int (v : pyval) : handler (option Z) :=
  match int v with
  | Ok z => mret (Some z)
  | Exn TypeError | Exn ValueError => mret None
  | Exn e => raise e
  end.

(** [try: int(s)] with [except ValueError] yielding [None]. *)
Definition try_int_str (s : string) : handler (option Z) :=
  match int (VStr s) with
  | Ok z => mret (Some z)
  | Exn ValueError => mret None
  | Exn e => raise e
  end.

(** The id that passes [if user_id:], if any: neither [None] nor [0]. *)
Definition truthy_id (o : option Z) : option Z :=
  match o with
  | Some z => if truthy (VInt z) then Some z else None
  | None => None
  end.

(** [self_id == user1_id]. *)
Definition id_eq (o : option Z) (z : Z) : bool :=
  match o with
  | Some u => u =? z
  | None => false
  end.

(** [a, b = sorted([int(u), int(p)])] and [f"{a}:{b}"]. *)
Definition pair_room (u p : Z) : string :=
  match sorted [u; p] with
  | [a; b] => str_of_int a +:+ ":" +:+ str_of_int b
  | _ => ""
  end.

(** [@sio.on('connect')].  Returning [False] refuses the connection. *)
Definition handle_connect (c : ctx) : handler pyval :=
  let username := session_username c in
  if negb (truthy (of_name username)) then mret (VBool false) else
  user_id ← db_get_user_id username;
  match truthy_id user_id with
  | Some user_id =>
      online_add user_id;;
      join_room c ("user:" +:+ str_of_int user_id);;
      sio_emit "presence" [("user_id", VInt user_id); ("online", VBool true)] None
  | None => mret tt
  end;;
  emit c "system" [("message", VStr (default "" username +:+ " connected"))] None;;
  mret VNone.

(** [@sio.on('disconnect')].  (Forgetting the rooms of the closed connection
    is the framework's doing, after the handler; it is not modelled.) *)
Definition handle_disconnect (c : ctx) : handler unit :=
  let username := session_username c in
  if negb (truthy (of_name username)) then mret tt else
  user_id ← db_get_user_id username;
  match truthy_id user_id with
  | Some user_id =>
      online ← online_mem user_id;
      if online : bool then
        online_discard user_id;;
        sio_emit "presence" [("user_id", VInt user_id); ("online", VBool false)] None
      else mret tt
  | None => mret tt
  end.

(** [@sio.on('typing')].  The [typing] event goes out before the room is
    looked at; whatever the [try] block raises (a room that is no [str],
    that does not split in two, or whose parts are no integers) ends the
    handler there. *)
Definition handle_typing (c : ctx) (data : gmap string pyval) : handler unit :=
  let username := session_username c in
  if negb (truthy (of_name username)) then mret tt else
  let room := get data "room" in
  if negb (truthy room) then mret tt else
  user_id ← db_get_user_id username;
  send {| event := "typing"; payload := [("user_id", of_id user_id)];
          to := ToOthers room (sid c) |};;
  match room with
  | VStr room =>
      match split_colon room with
      | [uid1_str; uid2_str] =>
          match int (VStr uid1_str), int (VStr uid2_str) with
          | Ok uid1, Ok uid2 =>
              let recipient_id := if id_eq user_id uid1 then uid2 else uid1 in
              sio_emit "typing_presence" [("user_id", of_id user_id)]
                (Some ("user:" +:+ str_of_int recipient_id))
          | _, _ => mret tt
          end
      | _ => mret tt
      end
  | _ => mret tt
  end.

(** [@sio.on('delete_message')]. *)
Definition delete_message (c : ctx) (data : gmap string pyval) : handler unit :=
  let username := session_username c in
  if negb (truthy (of_name username)) then mret tt else
  user_id ← db_get_user_id username;
  match truthy_id user_id with
  | None => mret tt
  | Some user_id =>
  let scope := get data "scope" in
  msg_id ← try_int (py_or (get data "id") (get data "message_id"));
  match msg_id with
  | None => mret tt
  | Some msg_id =>
      if eq_str scope "personal" then
        peer_id ← try_int (get data "peer_id");
        ok ← execute (fun db => delete_personal_message db msg_id user_id);
        if ok : bool then
          match truthy_id peer_id with
          | Some peer_id =>
              let room := pair_room user_id peer_id in
              sio_emit "message_deleted" [("id", VInt msg_id)] (Some room)
          | None =>
              sio_emit "message_deleted" [("id", VInt msg_id)] None
          end
        else mret tt
      else if eq_str scope "chat" then
        chat_id_int ← try_int (get data "chat_id");
        match chat_id_int with
        | None => mret tt
        | Some chat_id_int =>
            ok ← execute (fun db => delete_chat_message db msg_id user_id);
            if ok : bool then
              sio_emit "message_deleted" [("id", VInt msg_id)]
                (Some ("chat:" +:+ str_of_int chat_id_int))
            else mret tt
        end
      else if eq_str scope "channel" then
        channel_id_int ← try_int (get data "channel_id");
        match channel_id_int with
        | None => mret tt
        | Some channel_id_int =>
            ok ← execute (fun db => delete_channel_message db msg_id user_id);
            if ok : bool then
              sio_emit "message_deleted" [("id", VInt msg_id)]
                (Some ("channel:" +:+ str_of_int channel_id_int))
            else mret tt
        end
      else mret tt
  end
  end.

(** [@sio.on('personal_message')].  The unpacking of [room.split(':')]
    stands outside the [try]: a room that is no [str], or that does not
    split into two parts, makes the handler raise. *)
Definition personal_message (c : ctx) (data : gmap string pyval) : handler unit :=
  let username := session_username c in
  self_id ← db_get_user_id username;
  let text := get data "text" in
  let room := get data "room" in
  if negb (truthy text) || negb (truthy (of_name username)) || negb (truthy room)
  then mret tt else
  match room with
  | VStr room =>
      match split_colon room with
      | [user1; user2] =>
          user1_id ← try_int_str user1;
          match user1_id with
          | None => mret tt
          | Some user1_id =>
          user2_id ← try_int_str user2;
          match user2_id with
          | None => mret tt
          | Some user2_id =>
              let other_user_id := if id_eq self_id user1_id then user2_id else user1_id in
              message_id ← execute (fun db =>
                create_personal_message db self_id other_user_id text);
              row ← query (fun db =>
                Ok (select_timestamp (personal_messages db) message_id));
              let ts := of_name row in
              let payload := [("id", VInt message_id); ("username", of_name username);
                              ("text", text); ("ts", ts)] in
              emit c "personal_message" payload (Some room)
          end
          end
      | _ => raise ValueError
      end
  | _ => raise AttributeError
  end.

(** [@sio.on('chat_message')].  The guard [not text or not chat_id or not
    user_id] is tested in two steps; its tests have no effect. *)
Definition chat_message (c : ctx) (data : gmap string pyval) : handler unit :=
  let username := session_username c in
  user_id ← db_get_user_id username;
  let text := get data "text" in
  let chat_id := get data "chat_id" in
  match truthy_id user_id with
  | None => mret tt
  | Some user_id =>
  if negb (truthy text) || negb (truthy chat_id) then mret tt else
  chat_id ← try_int chat_id;
  match chat_id with
  | None => mret tt
  | Some chat_id =>
      member ← query (fun db => is_user_chat_member db chat_id user_id);
      if negb member then mret tt else
      message_id ← execute (fun db => create_chat_message db chat_id user_id text);
      row ← query (fun db => Ok (select_timestamp (chat_messages db) message_id));
      let ts := of_name row in
      emit c "chat_message"
        [("id", VInt message_id); ("username", of_name username);
         ("text", text); ("ts", ts)]
        (Some ("chat:" +:+ str_of_int chat_id))
  end
  end.

(** [@sio.on('channel_message')], with the same guard in two steps. *)
Definition channel_message (c : ctx) (data : gmap string pyval) : handler unit :=
  let username := session_username c in
  user_id ← db_get_user_id username;
  let text := get data "text" in
  let channel_id := get data "channel_id" in
  match truthy_id user_id with
  | None => mret tt
  | Some user_id =>
  if negb (truthy text) || negb (truthy channel_id) then mret tt else
  channel_id ← try_int channel_id;
  match channel_id with
  | None => mret tt
  | Some channel_id =>
      admin ← query (fun db => is_user_channel_admin db user_id channel_id);
      if negb admin then mret tt else
      message_id ← execute (fun db => create_channel_message db channel_id user_id text);
      row ← query (fun db => Ok (select_timestamp (channel_messages db) message_id));
      let ts := of_name row in
      emit c "channel_message"
        [("id", VInt message_id); ("username", of_name username);
         ("text", text); ("ts", ts)]
        (Some ("channel:" +:+ str_of_int channel_id))
  end
  end.

End Main.

(** ** Properties stated by the specification, over the embedding *)

Module Spec.
Import Python Db Main.

(** The row [r] has id [message_id] and was sent by [owner_id]. *)
Definition row_of (message_id owner_id : Z) (r : message_row) : Prop :=
  msg_id r = message_id /\ msg_sender r = Some owner_id.

(** What [delete_*_message(message_id, owner_id)] owes its caller, for the
    table it works on: it returns; it returns true exactly when a row of
    the owner with that id existed; afterwards the table holds the rows it
    held before except those; a row of another sender stays; and a false
    return leaves the whole store as it was. *)
Definition delete_if_owner (table : Database -> list message_row)
    (delete : Database -> Z -> Z -> result (bool * Database))
    (db : Database) (message_id owner_id : Z) : Prop :=
  exists ok db',
    delete db message_id owner_id = Ok (ok, db') /\
    (ok = true <-> exists r, In r (table db) /\ row_of message_id owner_id r) /\
    (forall r, In r (table db') <-> In r (table db) /\ ~ row_of message_id owner_id r) /\
    (forall r, In r (table db) -> msg_sender r <> Some owner_id -> In r (table db')) /\
    (ok = false -> db' = db).

(** The canonical pair room of the data model: [<min(u1,u2)>:<max(u1,u2)>]. *)
Definition canonical_pair (u1 u2 : Z) : string :=
  str_of_int (Z.min u1 u2) +:+ ":" +:+ str_of_int (Z.max u1 u2).

(** The world once a handler has run on it. *)
Definition after {A} (h : handler A) (w : world) : world := snd (h w).

(** The world [w] with further events emitted, nothing else touched. *)
Definition emits (w : world) (es : list emission) : world :=
  {| store := store w; ONLINE_USER_IDS := ONLINE_USER_IDS w;
     room_members := room_members w; emitted := emitted w ++ es |}.

(** The world [w] over another store. *)
Definition with_store (w : world) (db : Database) : world :=
  {| store := db; ONLINE_USER_IDS := ONLINE_USER_IDS w;
     room_members := room_members w; emitted := emitted w |}.

(** The outbound events [presence {user_id, online}], sent to everyone,
    [system {message}] for a new connection, and [message_deleted {id}]. *)
Definition presence (u : Z) (online : bool) : emission :=
  {| event := "presence"; payload := [("user_id", VInt u); ("online", VBool online)];
     to := ToAll |}.

Definition connected_notice (c : ctx) (username : string) : emission :=
  {| event := "system"; payload := [("message", VStr (username +:+ " connected"))];
     to := ToSid (sid c) |}.

Definition message_deleted (message_id : Z) (t : target) : emission :=
  {| event := "message_deleted"; payload := [("id", VInt message_id)]; to := t |}.

Definition personal_message_event (message_id : Z) (username : string)
    (text : pyval) (ts : string) (room : string) : emission :=
  {| event := "personal_message";
     payload := [("id", VInt message_id); ("username", VStr username);
                 ("text", text); ("ts", VStr ts)];
     to := ToRoom room |}.

(** The room of a [personal_message] parses as a pair of user ids: a string
    of the form [<int>:<int>]. *)
Definition room_pair (room : pyval) : option (Z * Z) :=
  match room with
  | VStr r =>
      match split_colon r with
      | [s1; s2] =>
          match int_of_str s1, int_of_str s2 with
          | Some a, Some b => Some (a, b)
          | _, _ => None
          end
      | _ => None
      end
  | _ => None
  end.

(** The row an accepted message adds to its table: the store assigns the
    id and the timestamp. *)
Definition new_row (rows : list message_row) (db : Database) (sender : option Z)
    (target : Z) (content : stored_text) : message_row :=
  {| msg_id := next_rowid rows; msg_sender := sender; msg_target := target;
     msg_content := content; msg_timestamp := CURRENT_TIMESTAMP db |}.

(** The [typing] notice: to the room as the event named it, the sender
    left out. *)
Definition typing_notice (c : ctx) (user_id : option Z) (room : pyval) : emission :=
  {| event := "typing"; payload := [("user_id", of_id user_id)];
     to := ToOthers room (sid c) |}.

(** An event is dropped: the handler leaves the world as it found it, so
    nothing is persisted, nothing is emitted (to a room, to everyone or to
    the sender) and neither registry nor room directory changes. *)
Definition dropped {A} (h : handler A) (w : world) : Prop := after h w = w.

(** The sender of the event is a ChatMembership of the chat it names. *)
Definition chat_sender_is_member (w : world) (c : ctx)
    (data : gmap string pyval) : bool :=
  match get_user_id (store w) (session_username c), int (get data "chat_id") with
  | Some u, Ok chat =>
      existsb (fun m => (member_chat m =? chat) && (member_user m =? u))
        (chat_members (store w))
  | _, _ => false
  end.

(** The sender of the event is the admin of the channel it names. *)
Definition channel_sender_is_admin (w : world) (c : ctx)
    (data : gmap string pyval) : bool :=
  match get_user_id (store w) (session_username c), int (get data "channel_id") with
  | Some u, Ok channel =>
      existsb (fun r => (Db.channel_id r =? channel) &&
                        match channel_admin r with
                        | Some a => a =? u
                        | None => false
                        end)
        (channels (store w))
  | _, _ => false
  end.

(** The peer id a personal-scope deletion can use to name a room: present,
    parseable and not zero. *)
Definition usable_peer (data : gmap string pyval) : option Z :=
  match int (get data "peer_id") with
  | Ok p => if p =? 0 then None else Some p
  | Exn _ => None
  end.

(** Where the notice of a personal-scope deletion goes: to the pair room
    of the requester and the peer when the event carries a usable peer id,
    to every connected client otherwise. *)
Definition personal_notice_target (u : Z) (data : gmap string pyval) : target :=
  match usable_peer data with
  | Some p => ToRoom (pair_room u p)
  | None => ToAll
  end.

(** The session of [c] belongs to the existing user [u] named [n]. *)
Definition logged_in (w : world) (c : ctx) (n : string) (u : Z) : Prop :=
  session_username c = Some n /\ n <> "" /\
  get_user_id (store w) (Some n) = Some u /\ u <> 0.

End Spec.

(** ** Concrete stores, connections and payloads used to run the handlers *)

Module Scenario.
Import Python Db Main Spec.

Definition alice : user_row := {| user_id := 1; user_name := "alice" |}.
Definition bob : user_row := {| user_id := 2; user_name := "bob" |}.
Definition carol : user_row := {| user_id := 3; user_name := "carol" |}.

(** Alice wrote message 5 to Bob; Alice is the only member of chat 7;
    Carol is the admin of channel 9. *)
Definition db0 : Database := {|
  users := [alice; bob; carol];
  channels := [ {| channel_id := 9; channel_admin := Some 3 |} ];
  chat_members := [ {| member_chat := 7; member_user := 1 |} ];
  personal_messages :=
    [ {| msg_id := 5; msg_sender := Some 1; msg_target := 2;
         msg_content := Text "hello"; msg_timestamp := "2024-05-01 10:00:00" |} ];
  chat_messages :=
    [ {| msg_id := 1; msg_sender := Some 1; msg_target := 7;
         msg_content := Text "welcome"; msg_timestamp := "2024-05-01 10:05:00" |} ];
  channel_messages :=
    [ {| msg_id := 1; msg_sender := Some 3; msg_target := 9;
         msg_content := Text "announce"; msg_timestamp := "2024-05-01 10:06:00" |} ];
  CURRENT_TIMESTAMP := "2024-05-01 12:00:00"
|}.

Definition w0 : world := {|
  store := db0;
  ONLINE_USER_IDS := ∅;
  room_members := ∅;
  emitted := []
|}.

Definition conn (s : nat) (name : string) : ctx :=
  {| sid := s; session_username := Some name |}.

(** A payload dict from its items. *)
Definition dict (items : list (string * pyval)) : gmap string pyval :=
  list_to_map items.

(** Alice connects from two tabs, then closes the first. *)
Definition alice1 : ctx := conn 1 "alice".
Definition alice2 : ctx := conn 2 "alice".

Definition both_open : world :=
  after (handle_connect alice2) (after (handle_connect alice1) w0).

Definition one_closed : world := after (handle_disconnect alice1) both_open.

(** Carol writes into the room of Alice and Bob. *)
Definition carol1 : ctx := conn 3 "carol".


(** Alice writes to Bob, naming the room with the larger id first. *)
Definition reversed_room_message : gmap string pyval :=
  dict [("room", VStr "2:1"); ("text", VStr "hi")].

(** Bob is neither a member of chat 7 nor the admin of channel 9. *)
Definition bob1 : ctx := conn 5 "bob".

Definition unauthorized_post : gmap string pyval :=
  dict [("chat_id", VInt 7); ("channel_id", VInt 9); ("text", VStr "x")].


Definition delete_no_peer : gmap string pyval :=
  dict [("scope", VStr "personal"); ("id", VInt 5)].

Definition delete_bad_peer : gmap string pyval :=
  dict [("scope", VStr "personal"); ("id", VInt 5); ("peer_id", VStr "abc")].



(** Payloads whose identifiers do not parse. *)
Definition bad_room_message : gmap string pyval :=
  dict [("room", VStr "lobby"); ("text", VStr "hi")].

Definition bad_chat_post : gmap string pyval :=
  dict [("chat_id", VStr "seven"); ("channel_id", VStr "nine"); ("text", VStr "x")].

Definition bad_message_id : gmap string pyval :=
  dict [("scope", VStr "personal"); ("id", VStr "five"); ("peer_id", VInt 2)].

Definition bad_chat_deletion : gmap string pyval :=
  dict [("scope", VStr "chat"); ("id", VInt 1); ("chat_id", VStr "seven")].

Definition bad_channel_deletion : gmap string pyval :=
  dict [("scope", VStr "channel"); ("id", VInt 1); ("channel_id", VStr "nine")].

(** A deletion whose peer id is an infinite float, and a typing event in a
    room that is no pair. *)
Definition overflowing_peer : gmap string pyval :=
  dict [("scope", VStr "personal"); ("id", VInt 5); ("peer_id", VFloat (Inf false))].

Definition bad_room_typing : gmap string pyval :=
  dict [("room", VStr "lobby")].

End Scenario.

(** ** The rest of [db.py]: the methods on the tables above *)

Module DbMore.
Import Python Db.

Definition set_users (db : Database) (rows : list user_row) : Database :=
  {| users := rows; channels := channels db; chat_members := chat_members db;
     personal_messages := personal_messages db; chat_messages := chat_messages db;
     channel_messages := channel_messages db;
     CURRENT_TIMESTAMP := CURRENT_TIMESTAMP db |}.

Definition set_chat_members (db : Database) (rows : list member_row) : Database :=
  {| users := users db; channels := channels db; chat_members := rows;
     personal_messages := personal_messages db; chat_messages := chat_messages db;
     channel_messages := channel_messages db;
     CURRENT_TIMESTAMP := CURRENT_TIMESTAMP db |}.

(** [col = ?] in a [WHERE] clause: a NULL on either side is no match. *)
Definition sql_eq (col param : option Z) : bool :=
  match col, param with
  | Some a, Some b => a =? b
  | _, _ => false
  end.

(** [result[0] == user_id], the comparison of Python values the admin
    checks make: [None == None] holds. *)
Definition py_eq_id (a b : option Z) : bool :=
  match a, b with
  | Some x, Some y => x =? y
  | None, None => true
  | _, _ => false
  end.

(** [get_all_usernames()]. *)
Definition get_all_usernames (db : Database) : list string :=
  map user_name (users db).

(** [get_all_users()]. *)
Definition get_all_users (db : Database) : list (Z * string) :=
  map (fun r => (user_id r, user_name r)) (users db).

(** [get_username(user_id)]. *)
Definition get_username (db : Database) (uid : option Z) : result (option string) :=
  match bind_opt_int uid with
  | Ok _ => Ok (user_name <$> List.find (fun r => sql_eq (Some (user_id r)) uid) (users db))
  | Exn e => Exn e
  end.

(** [check_user_exists(name)]. *)
Definition check_user_exists (db : Database) (name : string) : bool :=
  existsb (fun r => String.eqb (user_name r) name) (users db).

(** The rowid of the next row of [users]. *)
Definition next_user_id (rows : list user_row) : Z :=
  1 + fold_right Z.max 0 (map user_id rows).

(** [signup(name, password, password2)]: [True], or the text of the error.
    The hash of the password goes to the [password] column, which like
    [status] is read by [signin] only and is not part of [user_row]. *)
Definition signup (db : Database) (name password password2 : string)
    : pyval * Database :=
  if existsb (String.eqb name) (get_all_usernames db) then
    (VStr "Username already exists", db)
  else if (String.length password <? 4)%nat then
    (VStr "Password must be at least 4 characters long", db)
  else if negb (String.eqb password password2) then
    (VStr "Passwords do not match", db)
  else
    (VBool true,
     set_users db (users db ++ [ {| user_id := next_user_id (users db);
                                    user_name := name |} ])).

(** [ORDER BY timestamp ASC]: timestamps are compared as byte strings; rows
    with equal timestamps stay in the order of the scan. *)
Fixpoint insert_by_timestamp (r : message_row) (l : list message_row)
    : list message_row :=
  match l with
  | [] => [r]
  | x :: l' =>
      if String.leb (msg_timestamp x) (msg_timestamp r)
      then x :: insert_by_timestamp r l'
      else r :: l
  end.

Definition order_by_timestamp (l : list message_row) : list message_row :=
  fold_left (fun acc r => insert_by_timestamp r acc) l [].

(** [WHERE (sender_id = ? AND to_user_id = ?) OR (sender_id = ? AND
    to_user_id = ?)] with the parameters [(u1, u2, u2, u1)]. *)
Definition between (u1 u2 : option Z) (r : message_row) : bool :=
  (sql_eq (msg_sender r) u1 && sql_eq (Some (msg_target r)) u2) ||
  (sql_eq (msg_sender r) u2 && sql_eq (Some (msg_target r)) u1).

(** [get_personal_messages(user1_id, user2_id)]: the rows
    [(id, sender_id, content, timestamp)]. *)
Definition get_personal_messages (db : Database) (user1_id user2_id : option Z)
    : result (list (Z * option Z * stored_text * string)) :=
  match bind_opt_int user1_id, bind_opt_int user2_id with
  | Ok _, Ok _ =>
      Ok (map (fun r => (msg_id r, msg_sender r, msg_content r, msg_timestamp r))
            (order_by_timestamp
               (List.filter (between user1_id user2_id) (personal_messages db))))
  | Exn e, _ | _, Exn e => Exn e
  end.

(** [JOIN users u ON cm.sender_id = u.id] for one message: the rows
    [(id, sender_id, content, timestamp, name)]. *)
Definition join_sender (db : Database) (m : message_row)
    : list (Z * Z * stored_text * string * string) :=
  match msg_sender m with
  | Some s =>
      map (fun u => (msg_id m, s, msg_content m, msg_timestamp m, user_name u))
        (List.filter (fun u => user_id u =? s) (users db))
  | None => []
  end.

(** [get_chat_messages(chat_id)]. *)
Definition get_chat_messages (db : Database) (chat_id : Z)
    : result (list (Z * Z * stored_text * string * string)) :=
  match bind_int chat_id with
  | Ok _ =>
      Ok (flat_map (join_sender db)
            (order_by_timestamp
               (List.filter (fun m => msg_target m =? chat_id) (chat_messages db))))
  | Exn e => Exn e
  end.

(** [get_channel_messages(channel_id)]. *)
Definition get_channel_messages (db : Database) (channel_id : Z)
    : result (list (Z * Z * stored_text * string * string)) :=
  match bind_int channel_id with
  | Ok _ =>
      Ok (flat_map (join_sender db)
            (order_by_timestamp
               (List.filter (fun m => msg_target m =? channel_id)
                  (channel_messages db))))
  | Exn e => Exn e
  end.

(** [get_owned_channel_ids(user_id)]: a Python set. *)
Definition get_owned_channel_ids (db : Database) (uid : option Z)
    : result (gset Z) :=
  match bind_opt_int uid with
  | Ok _ =>
      Ok (list_to_set
            (map Db.channel_id
               (List.filter (fun r => sql_eq (channel_admin r) uid) (channels db))))
  | Exn e => Exn e
  end.

(** [is_user_channel_admin(user_id, channel_id)] for a [user_id] that may
    be [None], as the HTTP routes pass it. *)
Definition is_user_channel_admin_of (db : Database) (uid : option Z)
    (channel_id : Z) : result bool :=
  match uid with
  | Some u => is_user_channel_admin db u channel_id
  | None =>
      match bind_int channel_id with
      | Ok _ =>
          Ok match List.find (fun r => Db.channel_id r =? channel_id) (channels db) with
             | Some r => py_eq_id (channel_admin r) None
             | None => false
             end
      | Exn e => Exn e
      end
  end.

(** [delete_channel(channel_id, owner_id)]: the messages of the channel go
    first, then the channel; the result is the [rowcount] of the last
    statement. *)
Definition delete_channel (db : Database) (channel_id : Z) (owner_id : option Z)
    : result (bool * Database) :=
  match is_user_channel_admin_of db owner_id channel_id with
  | Exn e => Exn e
  | Ok false => Ok (false, db)
  | Ok true =>
      let messages :=
        List.filter (fun m => negb (msg_target m =? channel_id)) (channel_messages db) in
      let rowcount :=
        length (List.filter (fun r => Db.channel_id r =? channel_id) (channels db)) in
      let remaining :=
        List.filter (fun r => negb (Db.channel_id r =? channel_id)) (channels db) in
      Ok ((0 <? rowcount)%nat,
          {| users := users db; channels := remaining;
             chat_members := chat_members db;
             personal_messages := personal_messages db;
             chat_messages := chat_messages db;
             channel_messages := messages;
             CURRENT_TIMESTAMP := CURRENT_TIMESTAMP db |})
  end.

(** [get_chat_online_members_count(chat_id, online_user_ids,
    exclude_user_id)]. *)
Definition get_chat_online_members_count (db : Database) (chat_id : Z)
    (online_user_ids : gset Z) (exclude_user_id : option Z) : result nat :=
  match bind_int chat_id with
  | Ok _ =>
      let member_ids : gset Z :=
        list_to_set
          (map member_user
             (List.filter (fun r => member_chat r =? chat_id) (chat_members db))) in
      let online_ids := member_ids ∩ online_user_ids in
      let online_ids :=
        match exclude_user_id with
        | Some x => if bool_decide (x ∈ online_ids) then online_ids ∖ {[ x ]}
                    else online_ids
        | None => online_ids
        end in
      Ok (size online_ids)
  | Exn e => Exn e
  end.

(** [delete_*_message(message_id, owner_id)] for an [owner_id] that may be
    [None], as the HTTP route passes it: [sender_id = NULL] matches no row. *)
Definition delete_as (delete : Database -> Z -> Z -> result (bool * Database))
    (db : Database) (message_id : Z) (owner_id : option Z)
    : result (bool * Database) :=
  match owner_id with
  | Some o => delete db message_id o
  | None =>
      match bind_int message_id with
      | Ok _ => Ok (false, db)
      | Exn e => Exn e
      end
  end.

End DbMore.

(** ** The [chats] table and its methods in [db.py] *)

Module Chats.
Import Python Db DbMore.

Record chat_row := { chat_id : Z; chat_admin : option Z; chat_name : string }.

(** The store together with its [chats] table, which no Socket.IO handler
    reads. *)
Record Store := { base : Database; chats : list chat_row }.

Definition next_chat_id (rows : list chat_row) : Z :=
  1 + fold_right Z.max 0 (map chat_id rows).

(** [create_chat(admin_id, name)]. *)
Definition create_chat (s : Store) (admin_id : option Z) (name : string)
    : result (Z * Store) :=
  match bind_opt_int admin_id with
  | Ok _ =>
      let id := next_chat_id (chats s) in
      Ok (id, {| base := base s;
                 chats := chats s ++ [ {| chat_id := id; chat_admin := admin_id;
                                          chat_name := name |} ] |})
  | Exn e => Exn e
  end.

(** [get_chat_name(chat_id)]. *)
Definition get_chat_name (s : Store) (cid : Z) : result (option string) :=
  match bind_int cid with
  | Ok _ => Ok (chat_name <$> List.find (fun r => chat_id r =? cid) (chats s))
  | Exn e => Exn e
  end.

(** [get_owned_chat_ids(user_id)]: a Python set. *)
Definition get_owned_chat_ids (s : Store) (uid : option Z) : result (gset Z) :=
  match bind_opt_int uid with
  | Ok _ =>
      Ok (list_to_set
            (map chat_id (List.filter (fun r => sql_eq (chat_admin r) uid) (chats s))))
  | Exn e => Exn e
  end.

(** [is_user_chat_admin(user_id, chat_id)]. *)
Definition is_user_chat_admin (s : Store) (uid : option Z) (cid : Z) : result bool :=
  match bind_int cid with
  | Ok _ =>
      Ok match List.find (fun r => chat_id r =? cid) (chats s) with
         | Some r => py_eq_id (chat_admin r) uid
         | None => false
         end
  | Exn e => Exn e
  end.

(** [delete_chat(chat_id, owner_id)]: messages, then memberships, then the
    chat itself; the result is the [rowcount] of the last statement. *)
Definition delete_chat (s : Store) (cid : Z) (owner_id : option Z)
    : result (bool * Store) :=
  match is_user_chat_admin s owner_id cid with
  | Exn e => Exn e
  | Ok false => Ok (false, s)
  | Ok true =>
      let messages :=
        List.filter (fun m => negb (msg_target m =? cid)) (chat_messages (base s)) in
      let members :=
        List.filter (fun m => negb (member_chat m =? cid)) (chat_members (base s)) in
      let rowcount := length (List.filter (fun r => chat_id r =? cid) (chats s)) in
      Ok ((0 <? rowcount)%nat,
          {| base := set_chat_members (set_chat_messages (base s) messages) members;
             chats := List.filter (fun r => negb (chat_id r =? cid)) (chats s) |})
  end.

(** [update_chat_name(chat_id, new_name, admin_id)]. *)
Definition update_chat_name (s : Store) (cid : Z) (new_name : string)
    (admin_id : option Z) : result (bool * Store) :=
  match is_user_chat_admin s admin_id cid with
  | Exn e => Exn e
  | Ok false => Ok (false, s)
  | Ok true =>
      let rowcount := length (List.filter (fun r => chat_id r =? cid) (chats s)) in
      Ok ((0 <? rowcount)%nat,
          {| base := base s;
             chats := map (fun r => if chat_id r =? cid
                                    then {| chat_id := chat_id r;
                                            chat_admin := chat_admin r;
                                            chat_name := new_name |}
                                    else r) (chats s) |})
  end.

End Chats.

(** ** The HTTP routes of [main.py] that delete and rename *)

Module Http.
Import Python Db DbMore Chats Main.

(** What a route reads from its request: the [username] and [chat_id] keys
    of the session, and the form fields, which are strings. *)
Record request := {
  username : option string;
  session_chat_id : option Z;
  form : gmap string string
}.

(** [redirect(url_for(endpoint, **values))]. *)
Inductive response :=
| Redirect (endpoint : string) (values : list (string * Z)).

(** [request.form.get(key)]. *)
Definition form_get (rq : request) (key : string) : pyval :=
  of_name (form rq !! key).

(** [session.get('chat_id')]. *)
Definition session_get_chat_id (rq : request) : pyval :=
  match session_chat_id rq with
  | Some c => VInt c
  | None => VNone
  end.

(** The [try] block of [delete_msg] that finds the peer of a personal
    room; any exception leaves [None]. *)
Definition other_of_room (user_id : option Z) (room : string) : option Z :=
  match split_colon room with
  | [u1; u2] =>
      match int (VStr u1), int (VStr u2) with
      | Ok u1, Ok u2 => Some (if id_eq user_id u1 then u2 else u1)
      | _, _ => None
      end
  | _ => None
  end.

(** [@app.route('/delete_msg/<int:id>', methods=['POST'])]. *)
Definition delete_msg (rq : request) (id : Z) : handler response :=
  let session_username := username rq in
  if negb (truthy (of_name session_username)) then mret (Redirect "signin" []) else
  user_id ← db_get_user_id session_username;
  let scope := form_get rq "scope" in
  let scope :=
    if negb (truthy scope) then
      if truthy (session_get_chat_id rq) then VStr "chat" else VStr "personal"
    else scope in
  let message_id := id in
  if eq_str scope "personal" then
    let room := form rq !! "room" in
    let other_id :=
      match room with
      | Some r => if truthy (VStr r) then other_of_room user_id r else None
      | None => None
      end in
    ok ← execute (fun db => delete_as delete_personal_message db message_id user_id);
    match room with
    | Some r =>
        if (ok : bool) && truthy (VStr r) then
          sio_emit "message_deleted"
            [("id", VInt message_id); ("scope", VStr "personal")] (Some r)
        else mret tt
    | None => mret tt
    end;;
    match truthy_id other_id with
    | Some other_id => mret (Redirect "home_user" [("user_id", other_id)])
    | None => mret (Redirect "home_users" [])
    end
  else if eq_str scope "chat" then
    let chat_id := py_or (form_get rq "chat_id") (session_get_chat_id rq) in
    chat_id_int ← try_int chat_id;
    match chat_id_int with
    | None => mret (Redirect "home_chats" [])
    | Some chat_id_int =>
        ok ← execute (fun db => delete_as delete_chat_message db message_id user_id);
        (if ok : bool then
           sio_emit "message_deleted"
             [("id", VInt message_id); ("scope", VStr "chat")]
             (Some ("chat:" +:+ str_of_int chat_id_int))
         else mret tt);;
        mret (Redirect "home_chat" [("chat_id", chat_id_int)])
    end
  else if eq_str scope "channel" then
    let channel_id := form_get rq "channel_id" in
    channel_id_int ← try_int channel_id;
    match channel_id_int with
    | None => mret (Redirect "home_channels" [])
    | Some channel_id_int =>
        ok ← execute (fun db => delete_as delete_channel_message db message_id user_id);
        (if ok : bool then
           sio_emit "message_deleted"
             [("id", VInt message_id); ("scope", VStr "channel")]
             (Some ("channel:" +:+ str_of_int channel_id_int))
         else mret tt);;
        mret (Redirect "home_channel" [("channel_id", channel_id_int)])
    end
  else mret (Redirect "home" []).

(** [@app.route('/delete_channel', methods=['POST'])]. *)
Definition delete_channel (rq : request) : handler response :=
  let session_username := username rq in
  if negb (truthy (of_name session_username)) then mret (Redirect "signin" []) else
  self_id ← db_get_user_id session_username;
  let channel_id := form_get rq "channel_id" in
  channel_id_int ← try_int channel_id;
  match channel_id_int with
  | None => mret (Redirect "home_channels" [])
  | Some channel_id_int =>
      deleted ← execute (fun db => DbMore.delete_channel db channel_id_int self_id);
      (if deleted : bool then
         sio_emit "system"
           [("message", VStr "channel_deleted"); ("channel_id", VInt channel_id_int)]
           (Some ("channel:" +:+ str_of_int channel_id_int))
       else mret tt);;
      mret (Redirect "home_channels" [])
  end.

(** The state the routes on chats work on: the world of the handlers and
    the [chats] table. *)
Record site := { io : world; chat_table : list chat_row }.

Definition store_of (s : site) : Store :=
  {| base := store (io s); chats := chat_table s |}.

(** The site over another store, with further events emitted. *)
Definition update_site (s : site) (st : Store) (es : list emission) : site :=
  {| io := {| store := base st; ONLINE_USER_IDS := ONLINE_USER_IDS (io s);
              room_members := room_members (io s);
              emitted := emitted (io s) ++ es |};
     chat_table := chats st |}.

(** [try: int(v)] with [except (TypeError, ValueError)], outside the
    handler monad. *)
Definition parse_id (v : pyval) : result (option Z) :=
  match int v with
  | Ok z => Ok (Some z)
  | Exn TypeError | Exn ValueError => Ok None
  | Exn e => Exn e
  end.

(** [@app.route('/delete_chat', methods=['POST'])]. *)
Definition delete_chat (rq : request) (s : site) : result response * site :=
  let session_username := username rq in
  if negb (truthy (of_name session_username)) then (Ok (Redirect "signin" []), s) else
  let self_id := get_user_id (store (io s)) session_username in
  let chat_id := form_get rq "chat_id" in
  match parse_id chat_id with
  | Exn e => (Exn e, s)
  | Ok None => (Ok (Redirect "home_chats" []), s)
  | Ok (Some chat_id_int) =>
      match Chats.delete_chat (store_of s) chat_id_int self_id with
      | Exn e => (Exn e, s)
      | Ok (true, st) =>
          (Ok (Redirect "home_chats" []),
           update_site s st
             [ {| event := "system";
                  payload := [("message", VStr "chat_deleted");
                              ("chat_id", VInt chat_id_int)];
                  to := ToRoom ("chat:" +:+ str_of_int chat_id_int) |} ])
      | Ok (false, st) => (Ok (Redirect "home_chats" []), update_site s st [])
      end
  end.

(** [new_name.strip()]. *)
Definition str_strip (s : string) : string :=
  string_of_list_ascii (strip isspace (list_ascii_of_string s)).

(** [@app.route('/edit_chat', methods=['POST'])]. *)
Definition edit_chat (rq : request) (s : site) : result response * site :=
  let session_username := username rq in
  if negb (truthy (of_name session_username)) then (Ok (Redirect "signin" []), s) else
  let self_id := get_user_id (store (io s)) session_username in
  let chat_id := form_get rq "chat_id" in
  let new_name := form rq !! "new_name" in
  match parse_id chat_id with
  | Exn e => (Exn e, s)
  | Ok None => (Ok (Redirect "home_chats" []), s)
  | Ok (Some chat_id_int) =>
      match new_name with
      | None => (Ok (Redirect "home_chats" []), s)
      | Some new_name =>
          if negb (truthy (VStr new_name)) ||
             (String.length (str_strip new_name) =? 0)%nat
          then (Ok (Redirect "home_chats" []), s) else
          match update_chat_name (store_of s) chat_id_int (str_strip new_name) self_id with
          | Exn e => (Exn e, s)
          | Ok (true, st) =>
              (Ok (Redirect "home_chats" []),
               update_site s st
                 [ {| event := "system";
                      payload := [("message", VStr "chat_updated");
                                  ("chat_id", VInt chat_id_int);
                                  ("new_name", VStr (str_strip new_name))];
                      to := ToRoom ("chat:" +:+ str_of_int chat_id_int) |} ])
          | Ok (false, st) => (Ok (Redirect "home_chats" []), update_site s st [])
          end
      end
  end.

End Http.

(** ** Further statements and inputs *)

Module More.
Import Python Db DbMore Chats Main Http Spec Scenario.

(** The ids of a message table are pairwise distinct. *)
Definition unique_ids (rows : list message_row) : Prop :=
  List.NoDup (map msg_id rows).

(** The row of a message log as the pages list it. *)
Definition listed (r : message_row) : Z * option Z * stored_text * string :=
  (msg_id r, msg_sender r, msg_content r, msg_timestamp r).

(** Posts of a member of chat 7 and of the admin of channel 9. *)
Definition chat_post : gmap string pyval :=
  dict [("chat_id", VInt 7); ("text", VStr "x")].

Definition channel_post : gmap string pyval :=
  dict [("channel_id", VInt 9); ("text", VStr "news")].

(** Messages whose text is the number 5: to Bob, and to chat 7. *)
Definition number_message : gmap string pyval :=
  dict [("room", VStr "1:2"); ("text", VInt 5)].

Definition number_post : gmap string pyval :=
  dict [("chat_id", VInt 7); ("text", VInt 5)].

(** A second connection of Carol, and a connection without a session. *)
Definition carol2 : ctx := conn 6 "carol".


(** Chat 7 is Alice's. *)
Definition chats0 : list chat_row :=
  [ {| chat_id := 7; chat_admin := Some 1; chat_name := "team" |} ].

Definition site0 : site := {| io := w0; chat_table := chats0 |}.

(** A request of a signed-in user with the given form, and one without a
    session. *)
Definition request_of (name : string) (items : list (string * string)) : request :=
  {| username := Some name; session_chat_id := None; form := list_to_map items |}.


(** What a handler leaves alone: the accounts, channels and memberships of
    the store; the registry and the room directory; the events already
    emitted. *)
Definition same_accounts (db db' : Database) : Prop :=
  users db' = users db /\ channels db' = channels db /\
  chat_members db' = chat_members db.

Definition same_presence (w w' : world) : Prop :=
  ONLINE_USER_IDS w' = ONLINE_USER_IDS w /\ room_members w' = room_members w.

Definition log_extended (w w' : world) : Prop :=
  exists es, emitted w' = emitted w ++ es.

(** The number of online members of a chat shown to a viewer, as the
    chats page computes it from the store and the registry. *)
Definition online_count (w : world) (chat : Z) (viewer : option Z) : result nat :=
  get_chat_online_members_count (store w) chat (ONLINE_USER_IDS w) viewer.

(** A membership row links the user to the chat. *)
Definition member_of (db : Database) (chat u : Z) : bool :=
  existsb (fun m => (member_chat m =? chat) && (member_user m =? u)) (chat_members db).

(** The ids [get_chat_online_members_count] counts, as one set. *)
Definition counted (db : Database) (chat : Z) (online : gset Z) (viewer : option Z)
    : gset Z :=
  (list_to_set (map member_user
                  (List.filter (fun r => member_chat r =? chat) (chat_members db)))
   ∩ online) ∖ (match viewer with Some x => {[ x ]} | None => ∅ end).

(** The notices of the routes that delete and rename. *)
Definition channel_deleted_notice (cid : Z) : emission :=
  {| event := "system";
     payload := [("message", VStr "channel_deleted"); ("channel_id", VInt cid)];
     to := ToRoom ("channel:" +:+ str_of_int cid) |}.

Definition chat_deleted_notice (cid : Z) : emission :=
  {| event := "system";
     payload := [("message", VStr "chat_deleted"); ("chat_id", VInt cid)];
     to := ToRoom ("chat:" +:+ str_of_int cid) |}.

Definition chat_updated_notice (cid : Z) (new_name : string) : emission :=
  {| event := "system";
     payload := [("message", VStr "chat_updated"); ("chat_id", VInt cid);
                 ("new_name", VStr new_name)];
     to := ToRoom ("chat:" +:+ str_of_int cid) |}.

(** The scope [delete_msg] works with: the form's, or else [chat] when the
    session holds a chat id and [personal] when it does not. *)
Definition scope_of (rq : request) : pyval :=
  if truthy (form_get rq "scope") then form_get rq "scope"
  else if truthy (session_get_chat_id rq) then VStr "chat" else VStr "personal".

(** The notice of [delete_msg]: it names the scope. *)
Definition message_deleted_in (scope : string) (message_id : Z) (room : string)
    : emission :=
  {| event := "message_deleted";
     payload := [("id", VInt message_id); ("scope", VStr scope)];
     to := ToRoom room |}.

(** The id under which a log lists a message. *)
Definition listed_id (x : Z * option Z * stored_text * string) : Z := x.1.1.1.

(** [UPDATE chats SET name = ? WHERE id = ?] on one row. *)
Definition renamed (cid : Z) (new_name : string) (r : chat_row) : chat_row :=
  if chat_id r =? cid
  then {| chat_id := chat_id r; chat_admin := chat_admin r; chat_name := new_name |}
  else r.

(** Ascending timestamps. *)
Definition by_timestamp (x y : message_row) : Prop :=
  String.leb (msg_timestamp x) (msg_timestamp y) = true.

End More.

(** ** The store methods *)

Section Store.
Import Python Db Spec.

Lemma owned_by_row_of message_id owner_id r :
  owned_by message_id owner_id r = true <-> row_of message_id owner_id r.
Proof.
  unfold owned_by, row_of.
  destruct (msg_sender r) as [s|]; rewrite andb_true_iff, ?Z.eqb_eq.
  - split; intros [H1 H2]; split; congruence.
  - split; intros [_ H]; discriminate.
Qed.

Lemma rowcount_positive rows message_id owner_id :
  (0 <? length (List.filter (owned_by message_id owner_id) rows))%nat = true <->
  exists r, In r rows /\ row_of message_id owner_id r.
Proof.
  rewrite Nat.ltb_lt. split.
  - intros Hlen.
    destruct (List.filter (owned_by message_id owner_id) rows) as [|r l] eqn:E;
      [simpl in Hlen; lia|].
    assert (Hin : In r (List.filter (owned_by message_id owner_id) rows))
      by (rewrite E; now left).
    apply filter_In in Hin as [Hin Ho].
    exists r. split; [assumption | now apply owned_by_row_of].
  - intros (r & Hin & Hr).
    assert (Hf : In r (List.filter (owned_by message_id owner_id) rows)).
    { apply filter_In. split; [assumption | now apply owned_by_row_of]. }
    destruct (List.filter (owned_by message_id owner_id) rows); [destruct Hf | simpl; lia].
Qed.

(** Nothing to delete: the [DELETE] leaves the table as it is. *)
Lemma delete_owned_none rows message_id owner_id :
  (0 <? snd (delete_owned rows message_id owner_id))%nat = false ->
  fst (delete_owned rows message_id owner_id) = rows.
Proof.
  unfold delete_owned. simpl. induction rows as [|r rows IH]; simpl; [reflexivity|].
  destruct (owned_by message_id owner_id r); simpl.
  - intros H. apply Nat.ltb_ge in H. lia.
  - intros H. f_equal. now apply IH.
Qed.

Lemma delete_owned_rows rows message_id owner_id r :
  In r (fst (delete_owned rows message_id owner_id)) <->
  In r rows /\ ~ row_of message_id owner_id r.
Proof.
  unfold delete_owned. simpl. rewrite filter_In, negb_true_iff.
  rewrite <- owned_by_row_of.
  destruct (owned_by message_id owner_id r); intuition congruence.
Qed.

Lemma set_personal_messages_id db : set_personal_messages db (personal_messages db) = db.
Proof. now destruct db. Qed.

Lemma set_chat_messages_id db : set_chat_messages db (chat_messages db) = db.
Proof. now destruct db. Qed.

Lemma set_channel_messages_id db : set_channel_messages db (channel_messages db) = db.
Proof. now destruct db. Qed.

(** The three delete methods are one statement run on three tables. *)
Lemma delete_if_owner_table table set (delete : Database -> Z -> Z -> result (bool * Database)) db message_id owner_id :
  (forall rows, table (set db rows) = rows) ->
  set db (table db) = db ->
  delete db message_id owner_id =
    Ok ((0 <? snd (delete_owned (table db) message_id owner_id))%nat,
        set db (fst (delete_owned (table db) message_id owner_id))) ->
  delete_if_owner table delete db message_id owner_id.
Proof.
  intros Hget Hset Hdel. unfold delete_if_owner.
  eexists _, _. split; [exact Hdel|]. rewrite Hget.
  split; [apply rowcount_positive|].
  split; [apply delete_owned_rows|].
  split.
  - intros r Hin Hs. apply delete_owned_rows. split; [assumption|].
    intros [_ Hr]. contradiction.
  - intros Hno. now rewrite (delete_owned_none _ _ _ Hno).
Qed.

(** A delete that reports nothing deleted leaves the store as it was. *)
Lemma delete_personal_message_false db m o db' :
  delete_personal_message db m o = Ok (false, db') -> db' = db.
Proof.
  unfold delete_personal_message.
  destruct (bind_int m), (bind_int o); try discriminate.
  pose proof (delete_owned_none (personal_messages db) m o) as H.
  destruct (delete_owned _ _ _) as [rows k]. simpl in H. intros [= Hk <-].
  rewrite (H Hk). apply set_personal_messages_id.
Qed.

Lemma delete_chat_message_false db m o db' :
  delete_chat_message db m o = Ok (false, db') -> db' = db.
Proof.
  unfold delete_chat_message.
  destruct (bind_int m), (bind_int o); try discriminate.
  pose proof (delete_owned_none (chat_messages db) m o) as H.
  destruct (delete_owned _ _ _) as [rows k]. simpl in H. intros [= Hk <-].
  rewrite (H Hk). apply set_chat_messages_id.
Qed.

Lemma delete_channel_message_false db m o db' :
  delete_channel_message db m o = Ok (false, db') -> db' = db.
Proof.
  unfold delete_channel_message.
  destruct (bind_int m), (bind_int o); try discriminate.
  pose proof (delete_owned_none (channel_messages db) m o) as H.
  destruct (delete_owned _ _ _) as [rows k]. simpl in H. intros [= Hk <-].
  rewrite (H Hk). apply set_channel_messages_id.
Qed.

(** A fresh rowid is above every id in the table. *)
Lemma next_rowid_fresh rows r : In r rows -> msg_id r < next_rowid rows.
Proof.
  unfold next_rowid. induction rows as [|x rows IH]; simpl; [tauto|].
  intros [->|Hin]; [lia|]. specialize (IH Hin). lia.
Qed.

(** Reading the timestamp back by the id just assigned finds the new row. *)
Lemma select_timestamp_new rows sender target content now :
  select_timestamp
    (rows ++ [ {| msg_id := next_rowid rows; msg_sender := sender;
                  msg_target := target; msg_content := content;
                  msg_timestamp := now |} ])
    (next_rowid rows) = Some now.
Proof.
  unfold select_timestamp.
  pose proof (next_rowid_fresh rows) as Hfresh.
  generalize dependent (next_rowid rows). intros k Hfresh.
  induction rows as [|x rows IH]; simpl.
  - now rewrite Z.eqb_refl.
  - destruct (Z.eqb_spec (msg_id x) k) as [E|_].
    + specialize (Hfresh x (or_introl eq_refl)). lia.
    + apply IH. intros r Hr. apply Hfresh. now right.
Qed.

Lemma create_personal_message_ok db sender to_user content id db' :
  create_personal_message db sender to_user content = Ok (id, db') ->
  exists kept,
    bind_content content = Ok kept /\
    id = next_rowid (personal_messages db) /\
    db' = set_personal_messages db
            (personal_messages db ++
               [new_row (personal_messages db) db sender to_user kept]).
Proof.
  unfold create_personal_message.
  destruct (bind_opt_int sender), (bind_int to_user),
    (bind_content content) as [kept|]; try discriminate.
  simpl. intros [= <- <-]. exists kept. repeat split; reflexivity.
Qed.

Lemma create_chat_message_ok db chat sender content id db' :
  create_chat_message db chat sender content = Ok (id, db') ->
  exists kept,
    bind_content content = Ok kept /\
    id = next_rowid (chat_messages db) /\
    db' = set_chat_messages db
            (chat_messages db ++
               [new_row (chat_messages db) db (Some sender) chat kept]).
Proof.
  unfold create_chat_message.
  destruct (bind_int chat), (bind_int sender),
    (bind_content content) as [kept|]; try discriminate.
  simpl. intros [= <- <-]. exists kept. repeat split; reflexivity.
Qed.

Lemma create_channel_message_ok db channel sender content id db' :
  create_channel_message db channel sender content = Ok (id, db') ->
  exists kept,
    bind_content content = Ok kept /\
    id = next_rowid (channel_messages db) /\
    db' = set_channel_messages db
            (channel_messages db ++
               [new_row (channel_messages db) db (Some sender) channel kept]).
Proof.
  unfold create_channel_message.
  destruct (bind_int channel), (bind_int sender),
    (bind_content content) as [kept|]; try discriminate.
  simpl. intros [= <- <-]. exists kept. repeat split; reflexivity.
Qed.

(** With parameters SQLite can bind, the insertion goes through. *)
Lemma create_personal_message_bound db sender to_user content kept :
  sqlite_int sender = true -> sqlite_int to_user = true ->
  bind_content content = Ok kept ->
  create_personal_message db (Some sender) to_user content =
    Ok (next_rowid (personal_messages db),
        set_personal_messages db
          (personal_messages db ++
             [new_row (personal_messages db) db (Some sender) to_user kept])).
Proof.
  intros Hs Ht Hc. unfold create_personal_message, bind_opt_int, bind_int, bind.
  now rewrite Hs, Ht, Hc.
Qed.

End Store.

(** C5. For every message id and owner id (SQLite integers), each of
    [delete_personal_message], [delete_chat_message] and
    [delete_channel_message] returns true iff a row with that id and
    [sender_id] equal to the owner existed in its table, and the rows it
    removes are exactly those: it never deletes a row of a different
    sender, and when it returns false the store is unchanged. *)
Theorem delete_message_iff_owner (db : Db.Database) (message_id owner_id : Z) :
  Db.sqlite_int message_id = true ->
  Db.sqlite_int owner_id = true ->
  Spec.delete_if_owner Db.personal_messages Db.delete_personal_message db message_id owner_id /\
  Spec.delete_if_owner Db.chat_messages Db.delete_chat_message db message_id owner_id /\
  Spec.delete_if_owner Db.channel_messages Db.delete_channel_message db message_id owner_id.
Proof.
  intros Hm Ho.
  split; [|split].
  - apply (delete_if_owner_table _ Db.set_personal_messages);
      [reflexivity | apply set_personal_messages_id |].
    unfold Db.delete_personal_message, Db.bind_int, Db.bind. now rewrite Hm, Ho.
  - apply (delete_if_owner_table _ Db.set_chat_messages);
      [reflexivity | apply set_chat_messages_id |].
    unfold Db.delete_chat_message, Db.bind_int, Db.bind. now rewrite Hm, Ho.
  - apply (delete_if_owner_table _ Db.set_channel_messages);
      [reflexivity | apply set_channel_messages_id |].
    unfold Db.delete_channel_message, Db.bind_int, Db.bind. now rewrite Hm, Ho.
Qed.

(** ** Room names *)

Section Rooms.
Import Python Main Spec.

Lemma sorted_pair u v : sorted [u; v] = if u <=? v then [u; v] else [v; u].
Proof. reflexivity. Qed.

Lemma pair_room_canonical u v : pair_room u v = canonical_pair u v.
Proof.
  unfold pair_room, canonical_pair. rewrite sorted_pair.
  destruct (Z.leb_spec u v).
  - now rewrite Z.min_l, Z.max_r by lia.
  - now rewrite Z.min_r, Z.max_l by lia.
Qed.

End Rooms.

(** C8. The canonical-pair room derived from [(u, v)] equals the one
    derived from [(v, u)], for all user ids (in particular for [u <> v]):
    the derivation sorts the two ids, giving [<min>:<max>]. *)
Theorem pair_room_symmetric (u v : Z) :
  Main.pair_room u v = Main.pair_room v u /\
  Main.pair_room u v =
    Python.str_of_int (Z.min u v) +:+ ":" +:+ Python.str_of_int (Z.max u v).
Proof.
  split.
  - rewrite !pair_room_canonical. unfold Spec.canonical_pair.
    now rewrite Z.min_comm, Z.max_comm.
  - apply pair_room_canonical.
Qed.

(** ** Running a handler

    [run] unfolds the monad and the primitive effects in the goal, [run_in]
    in a hypothesis; the store methods stay folded. *)

Ltac run :=
  unfold Spec.after, mbind, Main.handler_bind, mret, Main.handler_ret,
    Main.db_get_user_id, Main.query, Main.execute, Main.send, Main.emit,
    Main.sio_emit, Main.join_room, Main.online_add, Main.online_discard,
    Main.online_mem, Main.raise; simpl.

Ltac run_in H :=
  unfold mbind, Main.handler_bind, mret, Main.handler_ret, Main.db_get_user_id,
    Main.query, Main.execute, Main.send, Main.emit, Main.sio_emit, Main.raise in H;
  simpl in H.

(** ** Connections and presence *)

Section Presence.
Import Python Db Main Spec.

Lemma truthy_name n : n <> "" -> truthy (of_name (Some n)) = true.
Proof.
  intros Hn. simpl. destruct (String.eqb_spec n ""); [contradiction | reflexivity].
Qed.

Lemma truthy_id_some u : u <> 0 -> truthy_id (Some u) = Some u.
Proof.
  intros Hu. unfold truthy_id. simpl.
  destruct (Z.eqb_spec u 0); [contradiction | reflexivity].
Qed.

(** A connection of an existing user: the id enters the set, the
    connection joins [user:<id>], presence-online goes to everyone and the
    connection is greeted. *)
Lemma handle_connect_user c w n u :
  logged_in w c n u ->
  handle_connect c w =
    (Ok VNone,
     {| store := store w;
        ONLINE_USER_IDS := {[ u ]} ∪ ONLINE_USER_IDS w;
        room_members := {[ (sid c, "user:" +:+ str_of_int u) ]} ∪ room_members w;
        emitted := (emitted w ++ [presence u true]) ++ [connected_notice c n] |}).
Proof.
  intros (Hs & Hn & Hu & Hz). unfold handle_connect.
  rewrite Hs, (truthy_name _ Hn). run. rewrite Hu, (truthy_id_some _ Hz).
  reflexivity.
Qed.

Lemma handle_disconnect_online c w n u :
  logged_in w c n u -> u ∈ ONLINE_USER_IDS w ->
  handle_disconnect c w =
    (Ok tt,
     {| store := store w;
        ONLINE_USER_IDS := ONLINE_USER_IDS w ∖ {[ u ]};
        room_members := room_members w;
        emitted := emitted w ++ [presence u false] |}).
Proof.
  intros (Hs & Hn & Hu & Hz) Hin. unfold handle_disconnect.
  rewrite Hs, (truthy_name _ Hn). run. rewrite Hu, (truthy_id_some _ Hz).
  now rewrite bool_decide_eq_true_2.
Qed.

Lemma handle_disconnect_offline c w n u :
  logged_in w c n u -> u ∉ ONLINE_USER_IDS w ->
  handle_disconnect c w = (Ok tt, w).
Proof.
  intros (Hs & Hn & Hu & Hz) Hin. unfold handle_disconnect.
  rewrite Hs, (truthy_name _ Hn). run. rewrite Hu, (truthy_id_some _ Hz).
  now rewrite bool_decide_eq_false_2.
Qed.

End Presence.

(** C10. A connect event with a valid session whose username resolves to
    no user id is accepted (the handler does not return [False]) and the
    connection is sent the system notice [<username> connected]; the
    registry and the room directory stay as they were and no presence
    event is emitted. *)
Theorem connect_unknown_user (c : Main.ctx) (w : Main.world) (n : string) :
  Main.session_username c = Some n ->
  n <> "" ->
  Db.get_user_id (Main.store w) (Some n) = None ->
  Main.handle_connect c w = (Python.Ok Python.VNone, Spec.emits w [Spec.connected_notice c n]).
Proof.
  intros Hs Hn Hu. unfold Main.handle_connect.
  rewrite Hs, (truthy_name _ Hn).
  unfold mbind, Main.handler_bind, Main.db_get_user_id, Main.query. simpl.
  rewrite Hu. reflexivity.
Qed.

(** Witness of [connect_unknown_user]: nobody is called dave. *)
Lemma connect_unknown_user_witness :
  Main.handle_connect (Scenario.conn 4 "dave") Scenario.w0 =
    (Python.Ok Python.VNone,
     Spec.emits Scenario.w0 [Spec.connected_notice (Scenario.conn 4 "dave") "dave"]).
Proof.
  apply (connect_unknown_user (Scenario.conn 4 "dave") Scenario.w0 "dave");
    [reflexivity | discriminate | reflexivity].
Defined.

(** C1, as stated, fails: with two connections of Alice open, closing the
    first one removes her from the registry and broadcasts
    presence-offline, although the second connection is still live. *)
Lemma presence_two_connections_counterexample :
  (1 ∈ Main.ONLINE_USER_IDS Scenario.both_open) /\
  (1 ∉ Main.ONLINE_USER_IDS Scenario.one_closed) /\
  Main.ONLINE_USER_IDS Scenario.one_closed <> Main.ONLINE_USER_IDS Scenario.both_open /\
  Main.emitted Scenario.one_closed =
    Main.emitted Scenario.both_open ++ [Spec.presence 1 false].
Proof.
  assert (Hin : 1 ∈ Main.ONLINE_USER_IDS Scenario.both_open)
    by (apply (bool_decide_unpack _); vm_compute; exact I).
  assert (Hout : 1 ∉ Main.ONLINE_USER_IDS Scenario.one_closed)
    by (apply (bool_decide_unpack _); vm_compute; exact I).
  repeat split; try assumption.
  intros Heq. apply Hout. now rewrite Heq.
Qed.

(** C1, amended. For a user with two simultaneous connections the registry
    holds the user exactly once while both are open (the second connect
    leaves the set as the first made it); the first disconnect, of either
    connection, removes the user from the registry and broadcasts
    presence-offline although the other connection is still open; the
    second disconnect changes nothing and emits nothing. *)
Theorem presence_two_connections (w : Main.world) (c1 c2 : Main.ctx)
    (n : string) (u : Z) (first second : Main.ctx) :
  Spec.logged_in w c1 n u ->
  Spec.logged_in w c2 n u ->
  (first = c1 /\ second = c2) \/ (first = c2 /\ second = c1) ->
  let w1 := Spec.after (Main.handle_connect c1) w in
  let w2 := Spec.after (Main.handle_connect c2) w1 in
  let w3 := Spec.after (Main.handle_disconnect first) w2 in
  let w4 := Spec.after (Main.handle_disconnect second) w3 in
  Main.ONLINE_USER_IDS w1 = {[ u ]} ∪ Main.ONLINE_USER_IDS w /\
  Main.ONLINE_USER_IDS w2 = Main.ONLINE_USER_IDS w1 /\
  count_occ Z.eq_dec (elements (Main.ONLINE_USER_IDS w2)) u = 1%nat /\
  Main.ONLINE_USER_IDS w3 = Main.ONLINE_USER_IDS w2 ∖ {[ u ]} /\
  (u ∉ Main.ONLINE_USER_IDS w3) /\
  Main.emitted w3 = Main.emitted w2 ++ [Spec.presence u false] /\
  w4 = w3.
Proof.
  intros H1 H2 Horder. cbv zeta. unfold Spec.after.
  rewrite (handle_connect_user _ _ _ _ H1). cbn [snd].
  match goal with |- context [Main.handle_connect c2 ?x] => set (w1 := x) end.
  assert (L1 : Spec.logged_in w1 c2 n u) by exact H2.
  rewrite (handle_connect_user _ _ _ _ L1). cbn [snd].
  match goal with |- context [Main.handle_disconnect first ?x] => set (w2 := x) end.
  assert (O2 : Main.ONLINE_USER_IDS w2 = Main.ONLINE_USER_IDS w1)
    by (subst w2 w1; simpl; clear; set_solver).
  assert (Hin : u ∈ Main.ONLINE_USER_IDS w2) by (subst w2; simpl; clear; set_solver).
  assert (L2 : Spec.logged_in w2 first n u /\ Spec.logged_in w2 second n u)
    by (destruct Horder as [[-> ->] | [-> ->]]; split; assumption).
  destruct L2 as [Lf Ls].
  rewrite (handle_disconnect_online _ _ _ _ Lf Hin). cbn [snd].
  match goal with |- context [Main.handle_disconnect second ?x] => set (w3 := x) end.
  assert (Hout : u ∉ Main.ONLINE_USER_IDS w3) by (subst w3; simpl; clear; set_solver).
  assert (L3 : Spec.logged_in w3 second n u) by exact Ls.
  rewrite (handle_disconnect_offline _ _ _ _ L3 Hout).
  repeat split; try assumption.
  apply NoDup_count_occ'; [apply NoDup_ListNoDup, NoDup_elements|].
  apply list_elem_of_In, elem_of_elements, Hin.
Qed.

(** ** Personal messages *)

Section PersonalMessages.
Import Python Db Main Spec.

(** The handler either leaves the world as it found it (it returned early,
    or raised before writing), or it ran to its end: the room parsed as a
    pair, one row was appended and one event sent to the room as given. *)
Lemma personal_message_cases c data w :
  after (personal_message c data) w = w \/
  exists n r a b kept,
    session_username c = Some n /\ get data "room" = VStr r /\
    room_pair (VStr r) = Some (a, b) /\
    bind_content (get data "text") = Ok kept /\
    let self_id := get_user_id (store w) (Some n) in
    let other := if id_eq self_id a then b else a in
    let row := new_row (personal_messages (store w)) (store w) self_id other kept in
    personal_message c data w =
      (Ok tt,
       emits (with_store w (set_personal_messages (store w)
                              (personal_messages (store w) ++ [row])))
         [personal_message_event (msg_id row) n (get data "text")
            (msg_timestamp row) r]).
Proof.
  unfold personal_message. run.
  destruct (session_username c) as [n|] eqn:Hs;
    [|left; simpl; now rewrite orb_true_r].
  destruct (negb (truthy (get data "text")) || negb (truthy (of_name (Some n)))
            || negb (truthy (get data "room"))) eqn:Hg; [now left|].
  destruct (get data "room") as [| | | |r|] eqn:Hr; try (now left).
  unfold room_pair.
  destruct (split_colon r) as [|s1 [|s2 [|]]] eqn:Hsp; try (now left).
  unfold try_int_str. simpl.
  destruct (int_of_str s1) as [a|] eqn:H1; [|now left]. simpl.
  destruct (int_of_str s2) as [b|] eqn:H2; [|now left]. simpl.
  destruct (create_personal_message _ _ _ _) as [[id db']|e] eqn:Hc; [|now left].
  apply create_personal_message_ok in Hc as (kept & Hk & -> & ->).
  right. exists n, r, a, b, kept. repeat split; [now rewrite Hsp, H1, H2 | exact Hk |].
  cbn [store personal_messages set_personal_messages]. unfold new_row.
  rewrite select_timestamp_new. reflexivity.
Qed.

Lemma room_pair_nonempty r a b : room_pair (VStr r) = Some (a, b) -> r <> "".
Proof. intros H ->. discriminate H. Qed.

(** The accepting path, run: a session, a text SQLite can store, a room
    that parses and a sender the store knows. *)
Lemma personal_message_runs c data w n r a b u kept :
  session_username c = Some n -> n <> "" ->
  truthy (get data "text") = true -> bind_content (get data "text") = Ok kept ->
  get data "room" = VStr r -> room_pair (VStr r) = Some (a, b) ->
  get_user_id (store w) (Some n) = Some u -> sqlite_int u = true ->
  sqlite_int (if u =? a then b else a) = true ->
  let row := new_row (personal_messages (store w)) (store w) (Some u)
               (if u =? a then b else a) kept in
  personal_message c data w =
    (Ok tt,
     emits (with_store w (set_personal_messages (store w)
                            (personal_messages (store w) ++ [row])))
       [personal_message_event (msg_id row) n (get data "text")
          (msg_timestamp row) r]).
Proof.
  intros Hs Hn Ht Hb Hr Hp Hu Hsu Hso row. subst row.
  pose proof (room_pair_nonempty _ _ _ Hp) as Hne.
  unfold room_pair in Hp.
  destruct (split_colon r) as [|s1 [|s2 [|]]] eqn:Hsp; try discriminate.
  destruct (int_of_str s1) as [a'|] eqn:H1; [|discriminate].
  destruct (int_of_str s2) as [b'|] eqn:H2; [|discriminate].
  injection Hp as -> ->.
  unfold personal_message. run. rewrite Hs, Hr, Ht. simpl.
  destruct (String.eqb_spec n ""); [contradiction|].
  destruct (String.eqb_spec r ""); [contradiction|]. simpl.
  rewrite Hsp. unfold try_int_str. simpl. rewrite H1, H2. simpl. rewrite Hu. simpl.
  rewrite (create_personal_message_bound _ _ _ _ _ Hsu Hso Hb).
  cbn [store personal_messages set_personal_messages]. unfold new_row.
  rewrite select_timestamp_new. reflexivity.
Qed.

End PersonalMessages.




(** C3, as stated, fails: Alice (id 1) names the room [2:1]; the message is
    broadcast to [2:1], which is not the canonical pair room [1:2]. *)
Lemma personal_message_room_counterexample :
  Spec.room_pair (Python.VStr "2:1") = Some (2, 1) /\
  map Main.to
    (Main.emitted (Spec.after (Main.personal_message Scenario.alice1
                                 Scenario.reversed_room_message) Scenario.w0)) =
    [Main.ToRoom "2:1"] /\
  Main.pair_room 2 1 = "1:2" /\
  Main.ToRoom "2:1" <> Main.ToRoom (Main.pair_room 2 1).
Proof. vm_compute. repeat split. discriminate. Qed.

(** C3, amended. Every [personal_message] event that is accepted, that is,
    that changes the world at all, has a room that parses as a pair, adds
    one row to [personal_messages] and emits one [personal_message] event,
    delivered to the room string the client supplied, as supplied (the
    canonical pair room only if the client named it so); the payload
    carries the id and the timestamp the store assigned to the new row. *)
Theorem personal_message_delivery (c : Main.ctx) (data : gmap string Python.pyval)
    (w w' : Main.world) (res : Python.result unit) :
  Main.personal_message c data w = (res, w') ->
  w' <> w ->
  exists n r a b row,
    Main.session_username c = Some n /\
    Main.get data "room" = Python.VStr r /\
    Spec.room_pair (Python.VStr r) = Some (a, b) /\
    res = Python.Ok tt /\
    Db.personal_messages (Main.store w') =
      Db.personal_messages (Main.store w) ++ [row] /\
    Db.msg_id row = Db.next_rowid (Db.personal_messages (Main.store w)) /\
    Db.msg_timestamp row = Db.CURRENT_TIMESTAMP (Main.store w) /\
    Main.emitted w' =
      Main.emitted w ++
        [Spec.personal_message_event (Db.msg_id row) n (Main.get data "text")
           (Db.msg_timestamp row) r].
Proof.
  intros Hrun Hch.
  destruct (personal_message_cases c data w)
    as [Hsame | (n & r & a & b & kept & Hs & Hr & Hp & _ & H)].
  - unfold Spec.after in Hsame. rewrite Hrun in Hsame. contradiction.
  - cbv zeta in H. rewrite Hrun in H. injection H as -> ->.
    eexists n, r, a, b, _. repeat split; try eassumption; reflexivity.
Qed.

(** Witness of [personal_message_delivery]: Alice and the room [2:1]. *)
Lemma personal_message_delivery_witness :
  exists n r a b row,
    Main.session_username Scenario.alice1 = Some n /\
    Main.get Scenario.reversed_room_message "room" = Python.VStr r /\
    Spec.room_pair (Python.VStr r) = Some (a, b) /\
    Python.Ok tt = Python.Ok tt /\
    Db.personal_messages
      (Main.store (Spec.after (Main.personal_message Scenario.alice1
                                 Scenario.reversed_room_message) Scenario.w0)) =
      Db.personal_messages (Main.store Scenario.w0) ++ [row] /\
    Db.msg_id row = Db.next_rowid (Db.personal_messages (Main.store Scenario.w0)) /\
    Db.msg_timestamp row = Db.CURRENT_TIMESTAMP (Main.store Scenario.w0) /\
    Main.emitted (Spec.after (Main.personal_message Scenario.alice1
                                Scenario.reversed_room_message) Scenario.w0) =
      Main.emitted Scenario.w0 ++
        [Spec.personal_message_event (Db.msg_id row) n
           (Main.get Scenario.reversed_room_message "text")
           (Db.msg_timestamp row) r].
Proof.
  apply (personal_message_delivery Scenario.alice1 Scenario.reversed_room_message
           Scenario.w0).
  - reflexivity.
  - intros H. apply (f_equal Main.emitted) in H. vm_compute in H. discriminate H.
Defined.

(** ** Chat and channel messages *)

Section GroupMessages.
Import Python Db Main Spec.

Lemma truthy_id_inv o u : truthy_id o = Some u -> o = Some u /\ u <> 0.
Proof.
  destruct o as [z|]; [|discriminate]. unfold truthy_id. simpl.
  destruct (Z.eqb_spec z 0); [discriminate|]. intros [= <-]. now split.
Qed.

(** A chat message has an effect only if the sender resolves, the chat id
    parses and the store finds the membership row; then one row is appended
    to [chat_messages] and one event goes to [chat:<id>]. *)
Lemma chat_message_cases c data w :
  dropped (chat_message c data) w \/
  exists u chat kept,
    get_user_id (store w) (session_username c) = Some u /\
    int (get data "chat_id") = Ok chat /\
    is_user_chat_member (store w) chat u = Ok true /\
    bind_content (get data "text") = Ok kept /\
    let row := new_row (chat_messages (store w)) (store w) (Some u) chat kept in
    chat_message c data w =
      (Ok tt,
       emits (with_store w (set_chat_messages (store w)
                              (chat_messages (store w) ++ [row])))
         [ {| event := "chat_message";
              payload := [("id", VInt (msg_id row));
                          ("username", of_name (session_username c));
                          ("text", get data "text");
                          ("ts", VStr (msg_timestamp row))];
              to := ToRoom ("chat:" +:+ str_of_int chat) |} ]).
Proof.
  unfold dropped, after.
  remember (chat_message c data w) as out eqn:Hout.
  unfold chat_message in Hout. run_in Hout.
  destruct (truthy_id _) as [u|] eqn:Hu; [|subst out; now left].
  apply truthy_id_inv in Hu as [Hu _].
  destruct (negb (truthy (get data "text")) || negb (truthy (get data "chat_id")));
    [subst out; now left|].
  unfold try_int in Hout. destruct (int (get data "chat_id")) as [chat|e] eqn:Hc;
    [|subst out; destruct e; now left]. simpl in Hout.
  destruct (is_user_chat_member (store w) chat u) as [[|]|e] eqn:Hm;
    [|subst out; now left|subst out; now left]. simpl in Hout.
  destruct (create_chat_message _ _ _ _) as [[id db']|e] eqn:Hcr;
    [|subst out; now left].
  apply create_chat_message_ok in Hcr as (kept & Hk & -> & ->).
  right. exists u, chat, kept. do 4 (split; [first [assumption | reflexivity]|]).
  subst out. cbn [store chat_messages set_chat_messages]. unfold new_row.
  rewrite select_timestamp_new. reflexivity.
Qed.

Lemma channel_message_cases c data w :
  dropped (channel_message c data) w \/
  exists u channel kept,
    get_user_id (store w) (session_username c) = Some u /\
    int (get data "channel_id") = Ok channel /\
    is_user_channel_admin (store w) u channel = Ok true /\
    bind_content (get data "text") = Ok kept /\
    let row := new_row (channel_messages (store w)) (store w) (Some u) channel
                 kept in
    channel_message c data w =
      (Ok tt,
       emits (with_store w (set_channel_messages (store w)
                              (channel_messages (store w) ++ [row])))
         [ {| event := "channel_message";
              payload := [("id", VInt (msg_id row));
                          ("username", of_name (session_username c));
                          ("text", get data "text");
                          ("ts", VStr (msg_timestamp row))];
              to := ToRoom ("channel:" +:+ str_of_int channel) |} ]).
Proof.
  unfold dropped, after.
  remember (channel_message c data w) as out eqn:Hout.
  unfold channel_message in Hout. run_in Hout.
  destruct (truthy_id _) as [u|] eqn:Hu; [|subst out; now left].
  apply truthy_id_inv in Hu as [Hu _].
  destruct (negb (truthy (get data "text")) || negb (truthy (get data "channel_id")));
    [subst out; now left|].
  unfold try_int in Hout.
  destruct (int (get data "channel_id")) as [channel|e] eqn:Hc;
    [|subst out; destruct e; now left]. simpl in Hout.
  destruct (is_user_channel_admin (store w) u channel) as [[|]|e] eqn:Hm;
    [|subst out; now left|subst out; now left]. simpl in Hout.
  destruct (create_channel_message _ _ _ _) as [[id db']|e] eqn:Hcr;
    [|subst out; now left].
  apply create_channel_message_ok in Hcr as (kept & Hk & -> & ->).
  right. exists u, channel, kept. do 4 (split; [first [assumption | reflexivity]|]).
  subst out. cbn [store channel_messages set_channel_messages]. unfold new_row.
  rewrite select_timestamp_new. reflexivity.
Qed.

Lemma is_user_chat_member_true db chat u :
  is_user_chat_member db chat u = Ok true ->
  existsb (fun m => (member_chat m =? chat) && (member_user m =? u))
    (chat_members db) = true.
Proof.
  unfold is_user_chat_member.
  destruct (bind_int chat), (bind_int u); congruence.
Qed.

Lemma is_user_channel_admin_true db u channel :
  is_user_channel_admin db u channel = Ok true ->
  existsb (fun r => (Db.channel_id r =? channel) &&
                    match channel_admin r with
                    | Some a => a =? u
                    | None => false
                    end) (channels db) = true.
Proof.
  unfold is_user_channel_admin. destruct (bind_int channel); [|discriminate].
  destruct (List.find _ _) as [r|] eqn:Hf; [|discriminate].
  intros [= Ha]. apply find_some in Hf as [Hin Hid].
  apply existsb_exists. exists r. split; [assumption|]. now rewrite Hid, Ha.
Qed.

End GroupMessages.

(** C4. A [chat_message] whose sender is not a ChatMembership of the named
    chat, and a [channel_message] whose sender is not the admin of the
    named channel, are dropped: the world is left as it was, so no message
    row is persisted and no broadcast is emitted. *)
Theorem unauthorized_post_dropped (c : Main.ctx) (data : gmap string Python.pyval)
    (w : Main.world) :
  (Spec.chat_sender_is_member w c data = false ->
   Spec.dropped (Main.chat_message c data) w) /\
  (Spec.channel_sender_is_admin w c data = false ->
   Spec.dropped (Main.channel_message c data) w).
Proof.
  split; intros Hno.
  - destruct (chat_message_cases c data w)
      as [H | (u & chat & kept & Hu & Hc & Hm & _)]; [exact H|].
    unfold Spec.chat_sender_is_member in Hno. rewrite Hu, Hc in Hno.
    apply is_user_chat_member_true in Hm. congruence.
  - destruct (channel_message_cases c data w)
      as [H | (u & ch & kept & Hu & Hc & Hm & _)]; [exact H|].
    unfold Spec.channel_sender_is_admin in Hno. rewrite Hu, Hc in Hno.
    apply is_user_channel_admin_true in Hm. congruence.
Qed.

(** ** Deleting messages *)

Section Deletion.
Import Python Db Main Spec.

(** A deletion event has an effect only on one path per scope: the session
    resolves to a user, the message id parses, the id naming the room (for
    chat and channel) parses, and the store reports a row deleted; then the
    store is the one the delete method left and one [message_deleted]
    notice is emitted. *)
Lemma delete_message_cases c data w :
  dropped (delete_message c data) w \/
  exists n u mid,
    session_username c = Some n /\
    get_user_id (store w) (Some n) = Some u /\ u <> 0 /\
    int (py_or (get data "id") (get data "message_id")) = Ok mid /\
    ((eq_str (get data "scope") "personal" = true /\
      exists db',
        delete_personal_message (store w) mid u = Ok (true, db') /\
        delete_message c data w =
          (Ok tt, emits (with_store w db')
                    [message_deleted mid
                       match usable_peer data with
                       | Some p => ToRoom (pair_room u p)
                       | None => ToAll
                       end])) \/
     (eq_str (get data "scope") "chat" = true /\
      exists chat db',
        int (get data "chat_id") = Ok chat /\
        delete_chat_message (store w) mid u = Ok (true, db') /\
        delete_message c data w =
          (Ok tt, emits (with_store w db')
                    [message_deleted mid (ToRoom ("chat:" +:+ str_of_int chat))])) \/
     (eq_str (get data "scope") "channel" = true /\
      exists channel db',
        int (get data "channel_id") = Ok channel /\
        delete_channel_message (store w) mid u = Ok (true, db') /\
        delete_message c data w =
          (Ok tt, emits (with_store w db')
                    [message_deleted mid
                       (ToRoom ("channel:" +:+ str_of_int channel))]))).
Proof.
  unfold dropped, after, usable_peer.
  remember (delete_message c data w) as out eqn:Hout.
  unfold delete_message in Hout.
  destruct (session_username c) as [n|] eqn:Hs; [|subst out; now left].
  destruct (negb (truthy (of_name (Some n)))); [subst out; now left|].
  run_in Hout.
  destruct (truthy_id _) as [u|] eqn:Hu; [|subst out; now left].
  apply truthy_id_inv in Hu as [Hu Hz].
  unfold try_int at 1 in Hout.
  destruct (int (py_or _ _)) as [mid|e] eqn:Hm; [|subst out; destruct e; now left].
  simpl in Hout.
  destruct (eq_str (get data "scope") "personal") eqn:Hp.
  { unfold try_int in Hout.
    destruct (int (get data "peer_id")) as [p|e] eqn:Hpeer;
      [|destruct e; try (subst out; now left)];
      simpl in Hout;
      (destruct (delete_personal_message (store w) mid u) as [[[|] db']|e'] eqn:Hd;
       [ right; exists n, u, mid;
         do 4 (split; [first [reflexivity | assumption]|]); left; split; [reflexivity|];
         exists db'; split; [assumption|]; subst out;
         try (destruct (p =? 0)); reflexivity
       | apply delete_personal_message_false in Hd as ->; subst out; left;
         now destruct w
       | subst out; now left ]). }
  destruct (eq_str (get data "scope") "chat") eqn:Hc.
  { unfold try_int in Hout.
    destruct (int (get data "chat_id")) as [chat|e] eqn:Hid;
      [|subst out; destruct e; now left]. simpl in Hout.
    destruct (delete_chat_message (store w) mid u) as [[[|] db']|e] eqn:Hd.
    - right. exists n, u, mid.
      do 4 (split; [first [reflexivity | assumption]|]). right. left. split; [reflexivity|].
      exists chat, db'. now subst out.
    - apply delete_chat_message_false in Hd as ->. subst out. left. now destruct w.
    - subst out. now left. }
  destruct (eq_str (get data "scope") "channel") eqn:Hch; [|subst out; now left].
  unfold try_int in Hout.
  destruct (int (get data "channel_id")) as [channel|e] eqn:Hid;
    [|subst out; destruct e; now left]. simpl in Hout.
  destruct (delete_channel_message (store w) mid u) as [[[|] db']|e] eqn:Hd.
  - right. exists n, u, mid.
    do 4 (split; [first [reflexivity | assumption]|]). right. right. split; [reflexivity|].
    exists channel, db'. now subst out.
  - apply delete_channel_message_false in Hd as ->. subst out. left. now destruct w.
  - subst out. now left.
Qed.

Lemma eq_str_unique v s1 s2 : eq_str v s1 = true -> eq_str v s2 = true -> s1 = s2.
Proof.
  destruct v; try discriminate. simpl. rewrite !String.eqb_eq. congruence.
Qed.

(** [int] raises nothing but these three. *)
Lemma int_raises v e :
  int v = Exn e -> e = TypeError \/ e = ValueError \/ e = OverflowError.
Proof.
  destruct v as [| | |[| |]| |]; simpl; try discriminate;
    try (intros [= <-]; tauto).
  destruct (int_of_str s); [discriminate | intros [= <-]; tauto].
Qed.

Lemma get_delete_ne (data : gmap string pyval) k k' :
  k <> k' -> get (delete k data) k' = get data k'.
Proof. intros Hne. unfold get. now rewrite lookup_delete_ne. Qed.

(** A peer id on which [int] raises [TypeError] or [ValueError] counts as
    no peer id: the handler runs as on the payload without the field. *)
Lemma delete_message_peer_ignored c (data : gmap string pyval) w e :
  int (get data "peer_id") = Exn e -> e <> OverflowError ->
  delete_message c data w = delete_message c (delete "peer_id" data) w.
Proof.
  intros He Hno. unfold delete_message.
  rewrite (get_delete_ne data "peer_id" "id"),
    (get_delete_ne data "peer_id" "message_id"),
    (get_delete_ne data "peer_id" "scope"),
    (get_delete_ne data "peer_id" "chat_id"),
    (get_delete_ne data "peer_id" "channel_id") by discriminate.
  assert (Hpeer : try_int (get data "peer_id") =
                  try_int (get (delete "peer_id" data) "peer_id")).
  { unfold try_int, get at 2. rewrite lookup_delete_eq, He. simpl.
    destruct (int_raises _ _ He) as [-> | [-> | ->]];
      [reflexivity | reflexivity | contradiction]. }
  now rewrite Hpeer.
Qed.

(** The handler, run on an authenticated request whose message id parses,
    scope by scope. *)
Lemma delete_message_personal c data w n u mid ok db' :
  logged_in w c n u ->
  int (py_or (get data "id") (get data "message_id")) = Ok mid ->
  eq_str (get data "scope") "personal" = true ->
  int (get data "peer_id") <> Exn OverflowError ->
  delete_personal_message (store w) mid u = Ok (ok, db') ->
  delete_message c data w =
    (Ok tt,
     if ok then emits (with_store w db')
                  [message_deleted mid (personal_notice_target u data)]
     else w).
Proof.
  intros (Hs & Hn & Hu & Hz) Hm Hp Hno Hd. unfold delete_message.
  rewrite Hs, (truthy_name _ Hn).
  unfold mbind, handler_bind, db_get_user_id, query. simpl.
  rewrite Hu, (truthy_id_some _ Hz). unfold try_int at 1. rewrite Hm. simpl.
  rewrite Hp. unfold personal_notice_target, usable_peer, try_int.
  destruct (int (get data "peer_id")) as [p|e] eqn:Hpeer.
  - simpl. unfold execute. rewrite Hd. destruct ok.
    + unfold truthy_id. simpl. now destruct (p =? 0).
    + apply delete_personal_message_false in Hd as ->. now destruct w.
  - destruct (int_raises _ _ Hpeer) as [-> | [-> | ->]]; [| |contradiction];
      (simpl; unfold execute; rewrite Hd; destruct ok;
       [reflexivity
       |apply delete_personal_message_false in Hd as ->; now destruct w]).
Qed.




(** A peer id on which [int] raises [OverflowError] stops a personal-scope
    deletion before the store is asked to delete. *)
Lemma delete_message_peer_overflow c (data : gmap string pyval) w :
  eq_str (get data "scope") "personal" = true ->
  int (get data "peer_id") = Exn OverflowError ->
  dropped (delete_message c data) w.
Proof.
  intros Hp Ho. unfold dropped, after, delete_message.
  destruct (session_username c) as [n|]; [|reflexivity].
  destruct (negb (truthy (of_name (Some n)))); [reflexivity|].
  run. destruct (truthy_id _) as [u|]; [|reflexivity].
  unfold try_int at 1.
  destruct (int (py_or _ _)) as [mid|e]; [|destruct e; reflexivity].
  simpl. rewrite Hp. unfold try_int. rewrite Ho. reflexivity.
Qed.

(** A [typing] event in a room that is no pair of ids: the notice has gone
    to the room before the parse fails. *)
Lemma handle_typing_unparsed c (data : gmap string pyval) w n r :
  session_username c = Some n -> n <> "" ->
  get data "room" = VStr r -> r <> "" ->
  room_pair (VStr r) = None ->
  handle_typing c data w =
    (Ok tt, emits w [typing_notice c (get_user_id (store w) (Some n)) (VStr r)]).
Proof.
  intros Hs Hn Hr Hne Hp. unfold handle_typing.
  rewrite Hs, (truthy_name _ Hn), Hr. simpl.
  destruct (String.eqb_spec r ""); [contradiction|]. simpl.
  unfold room_pair in Hp. run.
  destruct (split_colon r) as [|s1 [|s2 [|]]]; try reflexivity.
  destruct (int_of_str s1); [|reflexivity].
  destruct (int_of_str s2); [discriminate | reflexivity].
Qed.

End Deletion.

(** C6, as stated, fails for the peer id: Alice deletes her message 5 with
    a peer id that is no number; the event is not dropped, the row is
    removed and the notice goes to every connected client. *)
Lemma unparseable_peer_counterexample :
  Python.int (Main.get Scenario.delete_bad_peer "peer_id") = Python.Exn Python.ValueError /\
  Db.personal_messages Scenario.db0 <> [] /\
  Db.personal_messages
    (Main.store (Spec.after (Main.delete_message Scenario.alice1
                               Scenario.delete_bad_peer) Scenario.w0)) = [] /\
  Main.emitted (Spec.after (Main.delete_message Scenario.alice1
                              Scenario.delete_bad_peer) Scenario.w0) =
    [Spec.message_deleted 5 Main.ToAll].
Proof. vm_compute. repeat split. discriminate. Qed.

(** C6, amended. An event whose room ([personal_message]), chat id
    ([chat_message], chat-scope [delete_message]), channel id
    ([channel_message], channel-scope [delete_message]) or message id
    ([delete_message]) fails to parse is dropped: the world is left as it
    was, so nothing is persisted and nothing is emitted, to a room or to
    the sender (the handler returns, or raises before doing anything).
    Two identifiers are not treated so.  The peer id of a personal-scope
    [delete_message]: when [int] raises [TypeError] or [ValueError] on it
    the event is not dropped, the deletion runs as if the field were
    absent; only when [int] raises [OverflowError] (an infinite float) does
    the handler stop, raising before the deletion and leaving the world as
    it was.  The room of a [typing] event: for an authenticated sender and
    a non-empty room string that is no pair of ids, the [typing] notice has
    gone to that room, the sender left out, before the parse fails; only
    the [typing_presence] notice to the recipient is left out. *)
Theorem unparseable_identifier_dropped :
  (forall c data w,
     Spec.room_pair (Main.get data "room") = None ->
     Spec.dropped (Main.personal_message c data) w) /\
  (forall c data w e,
     Python.int (Main.get data "chat_id") = Python.Exn e ->
     Spec.dropped (Main.chat_message c data) w) /\
  (forall c data w e,
     Python.int (Main.get data "channel_id") = Python.Exn e ->
     Spec.dropped (Main.channel_message c data) w) /\
  (forall c data w e,
     Python.int (Python.py_or (Main.get data "id") (Main.get data "message_id"))
       = Python.Exn e ->
     Spec.dropped (Main.delete_message c data) w) /\
  (forall c data w e,
     Python.eq_str (Main.get data "scope") "chat" = true ->
     Python.int (Main.get data "chat_id") = Python.Exn e ->
     Spec.dropped (Main.delete_message c data) w) /\
  (forall c data w e,
     Python.eq_str (Main.get data "scope") "channel" = true ->
     Python.int (Main.get data "channel_id") = Python.Exn e ->
     Spec.dropped (Main.delete_message c data) w) /\
  (forall c (data : gmap string Python.pyval) w e,
     Python.int (Main.get data "peer_id") = Python.Exn e ->
     e <> Python.OverflowError ->
     Main.delete_message c data w =
       Main.delete_message c (delete "peer_id" data) w) /\
  (forall c (data : gmap string Python.pyval) w,
     Python.eq_str (Main.get data "scope") "personal" = true ->
     Python.int (Main.get data "peer_id") = Python.Exn Python.OverflowError ->
     Spec.dropped (Main.delete_message c data) w) /\
  (forall c (data : gmap string Python.pyval) w n r,
     Main.session_username c = Some n -> n <> "" ->
     Main.get data "room" = Python.VStr r -> r <> "" ->
     Spec.room_pair (Python.VStr r) = None ->
     Main.handle_typing c data w =
       (Python.Ok tt,
        Spec.emits w
          [Spec.typing_notice c (Db.get_user_id (Main.store w) (Some n))
             (Python.VStr r)])).
Proof.
  repeat split.
  - intros c data w Hno.
    destruct (personal_message_cases c data w)
      as [H | (n & r & a & b & kept & _ & Hr & Hp & _)]; [exact H|].
    rewrite Hr in Hno. congruence.
  - intros c data w e He.
    destruct (chat_message_cases c data w) as [H | (u & chat & kept & _ & Hc & _)];
      [exact H | congruence].
  - intros c data w e He.
    destruct (channel_message_cases c data w) as [H | (u & ch & kept & _ & Hc & _)];
      [exact H | congruence].
  - intros c data w e He.
    destruct (delete_message_cases c data w)
      as [H | (n & u & mid & _ & _ & _ & Hm & _)]; [exact H | congruence].
  - intros c data w e Hs He.
    destruct (delete_message_cases c data w)
      as [H | (n & u & mid & _ & _ & _ & _ &
               [[Hp _] | [[_ (chat & db' & Hc & _)] | [Hch _]]])];
      [exact H | | congruence |].
    + discriminate (eq_str_unique _ _ _ Hs Hp).
    + discriminate (eq_str_unique _ _ _ Hs Hch).
  - intros c data w e Hs He.
    destruct (delete_message_cases c data w)
      as [H | (n & u & mid & _ & _ & _ & _ &
               [[Hp _] | [[Hc _] | [_ (ch & db' & Hch & _)]]])];
      [exact H | | | congruence].
    + discriminate (eq_str_unique _ _ _ Hs Hp).
    + discriminate (eq_str_unique _ _ _ Hs Hc).
  - intros c data w e. apply delete_message_peer_ignored.
  - intros c data w. apply delete_message_peer_overflow.
  - intros c data w n r. apply handle_typing_unparsed.
Qed.

(** Witness of [unparseable_identifier_dropped]: one event for each
    identifier. *)
Lemma unparseable_identifier_dropped_witness :
  Spec.dropped (Main.personal_message Scenario.alice1 Scenario.bad_room_message)
    Scenario.w0 /\
  Spec.dropped (Main.chat_message Scenario.alice1 Scenario.bad_chat_post) Scenario.w0 /\
  Spec.dropped (Main.channel_message Scenario.carol1 Scenario.bad_chat_post)
    Scenario.w0 /\
  Spec.dropped (Main.delete_message Scenario.alice1 Scenario.bad_message_id)
    Scenario.w0 /\
  Spec.dropped (Main.delete_message Scenario.alice1 Scenario.bad_chat_deletion)
    Scenario.w0 /\
  Spec.dropped (Main.delete_message Scenario.carol1 Scenario.bad_channel_deletion)
    Scenario.w0 /\
  Main.delete_message Scenario.alice1 Scenario.delete_bad_peer Scenario.w0 =
    Main.delete_message Scenario.alice1 (delete "peer_id" Scenario.delete_bad_peer)
      Scenario.w0 /\
  Spec.dropped (Main.delete_message Scenario.alice1 Scenario.overflowing_peer)
    Scenario.w0 /\
  Main.handle_typing Scenario.alice1 Scenario.bad_room_typing Scenario.w0 =
    (Python.Ok tt,
     Spec.emits Scenario.w0
       [Spec.typing_notice Scenario.alice1 (Some 1) (Python.VStr "lobby")]).
Proof.
  destruct unparseable_identifier_dropped
    as (H1 & H2 & H3 & H4 & H5 & H6 & H7 & H8 & H9).
  split; [apply H1; reflexivity|].
  split; [apply (H2 _ _ _ Python.ValueError); reflexivity|].
  split; [apply (H3 _ _ _ Python.ValueError); reflexivity|].
  split; [apply (H4 _ _ _ Python.ValueError); reflexivity|].
  split; [apply (H5 _ _ _ Python.ValueError); reflexivity|].
  split; [apply (H6 _ _ _ Python.ValueError); reflexivity|].
  split; [apply (H7 _ _ _ Python.ValueError); [reflexivity | discriminate]|].
  split; [apply H8; reflexivity|].
  apply (H9 Scenario.alice1 Scenario.bad_room_typing Scenario.w0 "alice" "lobby");
    first [reflexivity | discriminate].
Defined.




(** C9. A personal-scope [delete_message] event that succeeds at the store
    (a row is gone) but carries no usable peer id (the field is missing,
    does not parse, or is zero) emits its [message_deleted] notice to every
    connected client, not to a room. *)
Theorem personal_deletion_without_peer_is_global (c : Main.ctx)
    (data : gmap string Python.pyval) (w : Main.world) :
  Python.eq_str (Main.get data "scope") "personal" = true ->
  Spec.usable_peer data = None ->
  Main.store (Spec.after (Main.delete_message c data) w) <> Main.store w ->
  exists mid,
    Python.int (Python.py_or (Main.get data "id") (Main.get data "message_id"))
      = Python.Ok mid /\
    Main.emitted (Spec.after (Main.delete_message c data) w) =
      Main.emitted w ++ [Spec.message_deleted mid Main.ToAll].
Proof.
  intros Hs Hpeer Hch.
  destruct (delete_message_cases c data w)
    as [H | (n & u & mid & _ & _ & _ & Hm &
             [[_ (db' & _ & Hrun)] | [[Hc _] | [Hc _]]])].
  - unfold Spec.dropped in H. rewrite H in Hch. contradiction.
  - exists mid. split; [assumption|]. unfold Spec.after. rewrite Hrun, Hpeer.
    reflexivity.
  - discriminate (eq_str_unique _ _ _ Hs Hc).
  - discriminate (eq_str_unique _ _ _ Hs Hc).
Qed.

(** Witness of [personal_deletion_without_peer_is_global]: Alice deletes
    her message 5 without naming the peer. *)
Lemma personal_deletion_without_peer_is_global_witness :
  exists mid,
    Python.int (Python.py_or (Main.get Scenario.delete_no_peer "id")
                  (Main.get Scenario.delete_no_peer "message_id")) = Python.Ok mid /\
    Main.emitted (Spec.after (Main.delete_message Scenario.alice1
                                Scenario.delete_no_peer) Scenario.w0) =
      Main.emitted Scenario.w0 ++ [Spec.message_deleted mid Main.ToAll].
Proof.
  apply (personal_deletion_without_peer_is_global Scenario.alice1
           Scenario.delete_no_peer Scenario.w0).
  - reflexivity.
  - reflexivity.
  - intros H. apply (f_equal Db.personal_messages) in H. vm_compute in H.
    discriminate H.
Defined.

(** Witness of [unauthorized_post_dropped]: Bob posts to chat 7 and to
    channel 9. *)
Lemma unauthorized_post_dropped_witness :
  Spec.dropped (Main.chat_message Scenario.bob1 Scenario.unauthorized_post)
    Scenario.w0 /\
  Spec.dropped (Main.channel_message Scenario.bob1 Scenario.unauthorized_post)
    Scenario.w0.
Proof.
  destruct (unauthorized_post_dropped Scenario.bob1 Scenario.unauthorized_post
              Scenario.w0) as [H1 H2].
  split; [apply H1 | apply H2]; reflexivity.
Defined.

(** Witness of [delete_message_iff_owner]: message 5 and its sender. *)
Lemma delete_message_iff_owner_witness :
  Spec.delete_if_owner Db.personal_messages Db.delete_personal_message
    Scenario.db0 5 1 /\
  Spec.delete_if_owner Db.chat_messages Db.delete_chat_message Scenario.db0 5 1 /\
  Spec.delete_if_owner Db.channel_messages Db.delete_channel_message
    Scenario.db0 5 1.
Proof. apply (delete_message_iff_owner Scenario.db0 5 1); reflexivity. Defined.

(** Witness of [presence_two_connections]: Alice's two connections, the
    first one closing first. *)
Lemma presence_two_connections_witness :
  Main.ONLINE_USER_IDS Scenario.one_closed =
    Main.ONLINE_USER_IDS Scenario.both_open ∖ {[ 1 ]} /\
  Spec.after (Main.handle_disconnect Scenario.alice2) Scenario.one_closed =
    Scenario.one_closed.
Proof.
  assert (La : forall s, Spec.logged_in Scenario.w0 (Scenario.conn s "alice") "alice" 1)
    by (intros s; repeat split; first [reflexivity | discriminate]).
  pose proof (presence_two_connections Scenario.w0 Scenario.alice1 Scenario.alice2
                "alice" 1 Scenario.alice1 Scenario.alice2 (La 1%nat) (La 2%nat)
                (or_introl (conj eq_refl eq_refl))) as H.
  cbv zeta in H. destruct H as (_ & _ & _ & H3 & _ & _ & H4).
  split; [exact H3 | exact H4].
Defined.

(** ** The scenarios of the specification, run *)

Section Scenarios.
Import Python Db Main Spec Scenario.

(** Alice (id 1) sends [personal_message] with room [1:2] and text [hi]: a
    row from 1 to 2 is persisted and the message is broadcast to [1:2]. *)
Example alice_writes_to_bob :
  personal_message alice1 (dict [("room", VStr "1:2"); ("text", VStr "hi")]) w0 =
    (Ok tt,
     emits (with_store w0 (set_personal_messages db0
                             (personal_messages db0 ++
                                [ {| msg_id := 6; msg_sender := Some 1; msg_target := 2;
                                     msg_content := Text "hi";
                                     msg_timestamp := "2024-05-01 12:00:00" |} ])))
       [personal_message_event 6 "alice" (VStr "hi") "2024-05-01 12:00:00" "1:2"]).
Proof. reflexivity. Qed.

(** Alice, a member of chat 7, posts there. *)
Example alice_posts_to_chat :
  chat_message alice1 (dict [("chat_id", VInt 7); ("text", VStr "x")]) w0 =
    (Ok tt,
     emits (with_store w0 (set_chat_messages db0
                             (chat_messages db0 ++
                                [ {| msg_id := 2; msg_sender := Some 1; msg_target := 7;
                                     msg_content := Text "x";
                                     msg_timestamp := "2024-05-01 12:00:00" |} ])))
       [ {| event := "chat_message";
            payload := [("id", VInt 2); ("username", VStr "alice");
                        ("text", VStr "x"); ("ts", VStr "2024-05-01 12:00:00")];
            to := ToRoom "chat:7" |} ]).
Proof. reflexivity. Qed.

(** Carol (id 3), admin of channel 9, announces there. *)
Example carol_announces :
  channel_message carol1 (dict [("channel_id", VInt 9); ("text", VStr "announce")]) w0 =
    (Ok tt,
     emits (with_store w0 (set_channel_messages db0
                             (channel_messages db0 ++
                                [ {| msg_id := 2; msg_sender := Some 3; msg_target := 9;
                                     msg_content := Text "announce";
                                     msg_timestamp := "2024-05-01 12:00:00" |} ])))
       [ {| event := "channel_message";
            payload := [("id", VInt 2); ("username", VStr "carol");
                        ("text", VStr "announce"); ("ts", VStr "2024-05-01 12:00:00")];
            to := ToRoom "channel:9" |} ]).
Proof. reflexivity. Qed.

(** A room that does not split in two makes [personal_message] raise, with
    nothing done. *)
Example room_without_colon_raises :
  personal_message alice1 bad_room_message w0 = (Exn ValueError, w0).
Proof. reflexivity. Qed.

(** An infinite float as peer id makes [delete_message] raise before the
    store is asked to delete. *)
Example infinite_peer_raises :
  delete_message alice1
    (dict [("scope", VStr "personal"); ("id", VInt 5);
           ("peer_id", VFloat (Inf false))]) w0 = (Exn OverflowError, w0).
Proof. reflexivity. Qed.

End Scenarios.

(** ** Message tables: ids, insertion and deletion together *)

Section MessageTables.
Import Python Db DbMore Spec More.

Lemma bind_int_ok z : bind_int z = Ok tt \/ bind_int z = Exn OverflowError.
Proof. unfold bind_int, bind. destruct (sqlite_int z); auto. Qed.

Lemma bind_int_sqlite z u : bind_int z = Ok u -> sqlite_int z = true.
Proof. unfold bind_int, bind. now destruct (sqlite_int z). Qed.

Lemma owned_by_id m o r : owned_by m o r = true -> msg_id r = m.
Proof. intros H. now apply owned_by_row_of in H as [H _]. Qed.

(** The rows a new row is appended to are not touched by deleting it. *)
Lemma delete_owned_appended rows sender target content now :
  delete_owned
    (rows ++ [ {| msg_id := next_rowid rows; msg_sender := Some sender;
                  msg_target := target; msg_content := content;
                  msg_timestamp := now |} ]) (next_rowid rows) sender = (rows, 1%nat).
Proof.
  unfold delete_owned. rewrite !List.filter_app. simpl.
  assert (Hold : forall r, In r rows -> owned_by (next_rowid rows) sender r = false).
  { intros r Hr. destruct (owned_by _ _ r) eqn:E; [|reflexivity].
    apply owned_by_id in E. pose proof (next_rowid_fresh _ _ Hr). lia. }
  assert (Hnew : owned_by (next_rowid rows) sender
                   {| msg_id := next_rowid rows; msg_sender := Some sender;
                      msg_target := target; msg_content := content;
                      msg_timestamp := now |} = true)
    by (unfold owned_by; simpl; now rewrite !Z.eqb_refl).
  assert (Hkeep : List.filter (fun r => negb (owned_by (next_rowid rows) sender r)) rows
                  = rows).
  { apply forallb_filter_id, forallb_forall. intros r Hr. now rewrite (Hold _ Hr). }
  assert (Hnone : List.filter (owned_by (next_rowid rows) sender) rows = []).
  { destruct (List.filter (owned_by (next_rowid rows) sender) rows) as [|r l] eqn:E;
      [reflexivity|].
    assert (Hin : In r (List.filter (owned_by (next_rowid rows) sender) rows))
      by (rewrite E; now left).
    apply filter_In in Hin as [Hin Ho]. now rewrite (Hold _ Hin) in Ho. }
  rewrite Hnew, Hkeep, Hnone. simpl. now rewrite app_nil_r.
Qed.

(** After a delete, no row it would match is left. *)
Lemma delete_owned_again rows m o :
  delete_owned (fst (delete_owned rows m o)) m o = (fst (delete_owned rows m o), 0%nat).
Proof.
  unfold delete_owned. simpl. f_equal.
  - apply forallb_filter_id. apply forallb_forall. intros r Hr.
    now apply filter_In in Hr as [_ Hr].
  - apply List.length_zero_iff_nil.
    destruct (List.filter (owned_by m o) _) as [|r l] eqn:E; [reflexivity|].
    assert (Hin : In r (List.filter (owned_by m o)
                          (List.filter (fun r => negb (owned_by m o r)) rows)))
      by (rewrite E; now left).
    apply filter_In in Hin as [Hin Ho]. apply filter_In in Hin as [_ Hn].
    now rewrite Ho in Hn.
Qed.

Lemma unique_ids_filter p rows : unique_ids rows -> unique_ids (List.filter p rows).
Proof.
  unfold unique_ids. induction rows as [|r rows IH]; simpl; [trivial|].
  intros Hnd. apply List.NoDup_cons_iff in Hnd as [Hnot Hnd].
  destruct (p r); [|now apply IH]. simpl. constructor; [|now apply IH].
  intros Hin. apply Hnot. apply in_map_iff in Hin as (x & Hx & Hin).
  apply filter_In in Hin as [Hin _]. apply in_map_iff. now exists x.
Qed.

Lemma unique_ids_appended rows sender target content now :
  unique_ids rows ->
  unique_ids (rows ++ [ {| msg_id := next_rowid rows; msg_sender := sender;
                           msg_target := target; msg_content := content;
                           msg_timestamp := now |} ]).
Proof.
  unfold unique_ids. intros Hnd. rewrite map_app. simpl.
  apply List.NoDup_app; [assumption | repeat constructor; intros [] |].
  intros x Hx [<-|[]]. apply in_map_iff in Hx as (r & Hid & Hr).
  pose proof (next_rowid_fresh _ _ Hr). lia.
Qed.

(** With distinct ids a delete matches one row at most. *)
Lemma delete_owned_one rows m o :
  unique_ids rows -> (snd (delete_owned rows m o) <= 1)%nat.
Proof.
  unfold unique_ids, delete_owned. simpl.
  induction rows as [|r rows IH]; simpl; [lia|].
  intros Hnd. apply List.NoDup_cons_iff in Hnd as [Hnot Hnd].
  destruct (owned_by m o r) eqn:Hr; [|now apply IH]. simpl.
  assert (Hnone : List.filter (owned_by m o) rows = []).
  { destruct (List.filter (owned_by m o) rows) as [|x l] eqn:E; [reflexivity|].
    assert (Hin : In x (List.filter (owned_by m o) rows)) by (rewrite E; now left).
    apply filter_In in Hin as [Hin Hx]. exfalso. apply Hnot.
    apply owned_by_id in Hr, Hx. rewrite Hr, <- Hx. now apply in_map. }
  rewrite Hnone. simpl. lia.
Qed.

Lemma delete_owned_lengths rows m o :
  (length (fst (delete_owned rows m o)) + snd (delete_owned rows m o))%nat = length rows.
Proof.
  unfold delete_owned. simpl. induction rows as [|r rows IH]; simpl; [reflexivity|].
  destruct (owned_by m o r); simpl; lia.
Qed.

End MessageTables.

Section MessageMethods.
Import Python Db DbMore Spec More.

(** What each delete method computes, when it returns. *)
Lemma delete_personal_message_inv db m o ok db' :
  delete_personal_message db m o = Ok (ok, db') ->
  sqlite_int m = true /\ sqlite_int o = true /\
  ok = (0 <? snd (delete_owned (personal_messages db) m o))%nat /\
  db' = set_personal_messages db (fst (delete_owned (personal_messages db) m o)).
Proof.
  unfold delete_personal_message.
  destruct (bind_int m) eqn:Hm, (bind_int o) eqn:Ho; try discriminate.
  destruct (delete_owned _ _ _) as [rows k]. intros [= <- <-].
  repeat split; eauto using bind_int_sqlite.
Qed.

Lemma delete_chat_message_inv db m o ok db' :
  delete_chat_message db m o = Ok (ok, db') ->
  sqlite_int m = true /\ sqlite_int o = true /\
  ok = (0 <? snd (delete_owned (chat_messages db) m o))%nat /\
  db' = set_chat_messages db (fst (delete_owned (chat_messages db) m o)).
Proof.
  unfold delete_chat_message.
  destruct (bind_int m) eqn:Hm, (bind_int o) eqn:Ho; try discriminate.
  destruct (delete_owned _ _ _) as [rows k]. intros [= <- <-].
  repeat split; eauto using bind_int_sqlite.
Qed.

Lemma delete_channel_message_inv db m o ok db' :
  delete_channel_message db m o = Ok (ok, db') ->
  sqlite_int m = true /\ sqlite_int o = true /\
  ok = (0 <? snd (delete_owned (channel_messages db) m o))%nat /\
  db' = set_channel_messages db (fst (delete_owned (channel_messages db) m o)).
Proof.
  unfold delete_channel_message.
  destruct (bind_int m) eqn:Hm, (bind_int o) eqn:Ho; try discriminate.
  destruct (delete_owned _ _ _) as [rows k]. intros [= <- <-].
  repeat split; eauto using bind_int_sqlite.
Qed.

Lemma bind_int_of_sqlite z : sqlite_int z = true -> bind_int z = Ok tt.
Proof. unfold bind_int, bind. now intros ->. Qed.

End MessageMethods.

(** X1. A message just created can be taken back: deleting it by the id
    the store returned, as its sender, succeeds and leaves the store
    exactly as it was before the insertion, for each of the three logs. *)
Theorem create_then_delete_restores :
  (forall db db1 sender target id content,
     Db.sqlite_int id = true ->
     Db.create_personal_message db (Some sender) target content = Python.Ok (id, db1) ->
     Db.delete_personal_message db1 id sender = Python.Ok (true, db)) /\
  (forall db db1 sender target id content,
     Db.sqlite_int id = true ->
     Db.create_chat_message db target sender content = Python.Ok (id, db1) ->
     Db.delete_chat_message db1 id sender = Python.Ok (true, db)) /\
  (forall db db1 sender target id content,
     Db.sqlite_int id = true ->
     Db.create_channel_message db target sender content = Python.Ok (id, db1) ->
     Db.delete_channel_message db1 id sender = Python.Ok (true, db)).
Proof.
  split; [|split]; intros db db1 sender target id content Hid Hc.
  - assert (Hs : Db.sqlite_int sender = true).
    { unfold Db.create_personal_message, Db.bind_opt_int in Hc.
      destruct (Db.bind_int sender) eqn:E; [|discriminate].
      eapply bind_int_sqlite, E. }
    apply create_personal_message_ok in Hc as (kept & _ & -> & ->).
    unfold Db.delete_personal_message.
    rewrite !bind_int_of_sqlite by assumption.
    cbn [Db.personal_messages Db.set_personal_messages]. unfold Spec.new_row.
    rewrite delete_owned_appended. now destruct db.
  - assert (Hs : Db.sqlite_int sender = true).
    { unfold Db.create_chat_message in Hc.
      destruct (Db.bind_int target), (Db.bind_int sender) eqn:E; try discriminate.
      eapply bind_int_sqlite, E. }
    apply create_chat_message_ok in Hc as (kept & _ & -> & ->).
    unfold Db.delete_chat_message.
    rewrite !bind_int_of_sqlite by assumption.
    cbn [Db.chat_messages Db.set_chat_messages]. unfold Spec.new_row.
    rewrite delete_owned_appended. now destruct db.
  - assert (Hs : Db.sqlite_int sender = true).
    { unfold Db.create_channel_message in Hc.
      destruct (Db.bind_int target), (Db.bind_int sender) eqn:E; try discriminate.
      eapply bind_int_sqlite, E. }
    apply create_channel_message_ok in Hc as (kept & _ & -> & ->).
    unfold Db.delete_channel_message.
    rewrite !bind_int_of_sqlite by assumption.
    cbn [Db.channel_messages Db.set_channel_messages]. unfold Spec.new_row.
    rewrite delete_owned_appended. now destruct db.
Qed.

(** X2. Deleting twice is deleting once: after any delete that returned,
    the same call returns false and leaves the store alone. *)
Theorem delete_again_finds_nothing :
  (forall db m o ok db',
     Db.delete_personal_message db m o = Python.Ok (ok, db') ->
     Db.delete_personal_message db' m o = Python.Ok (false, db')) /\
  (forall db m o ok db',
     Db.delete_chat_message db m o = Python.Ok (ok, db') ->
     Db.delete_chat_message db' m o = Python.Ok (false, db')) /\
  (forall db m o ok db',
     Db.delete_channel_message db m o = Python.Ok (ok, db') ->
     Db.delete_channel_message db' m o = Python.Ok (false, db')).
Proof.
  split; [|split]; intros db m o ok db' Hd.
  - apply delete_personal_message_inv in Hd as (Hm & Ho & _ & ->).
    unfold Db.delete_personal_message. rewrite !bind_int_of_sqlite by assumption.
    cbn [Db.personal_messages Db.set_personal_messages].
    rewrite delete_owned_again. now destruct db.
  - apply delete_chat_message_inv in Hd as (Hm & Ho & _ & ->).
    unfold Db.delete_chat_message. rewrite !bind_int_of_sqlite by assumption.
    cbn [Db.chat_messages Db.set_chat_messages].
    rewrite delete_owned_again. now destruct db.
  - apply delete_channel_message_inv in Hd as (Hm & Ho & _ & ->).
    unfold Db.delete_channel_message. rewrite !bind_int_of_sqlite by assumption.
    cbn [Db.channel_messages Db.set_channel_messages].
    rewrite delete_owned_again. now destruct db.
Qed.

(** X3. The ids of a log stay pairwise distinct under insertion, and the id
    an insertion returns is one no row of the log had. *)
Theorem created_id_is_fresh :
  (forall db sender target content id db',
     More.unique_ids (Db.personal_messages db) ->
     Db.create_personal_message db sender target content = Python.Ok (id, db') ->
     More.unique_ids (Db.personal_messages db') /\
     ~ In id (map Db.msg_id (Db.personal_messages db))) /\
  (forall db chat sender content id db',
     More.unique_ids (Db.chat_messages db) ->
     Db.create_chat_message db chat sender content = Python.Ok (id, db') ->
     More.unique_ids (Db.chat_messages db') /\
     ~ In id (map Db.msg_id (Db.chat_messages db))) /\
  (forall db channel sender content id db',
     More.unique_ids (Db.channel_messages db) ->
     Db.create_channel_message db channel sender content = Python.Ok (id, db') ->
     More.unique_ids (Db.channel_messages db') /\
     ~ In id (map Db.msg_id (Db.channel_messages db))).
Proof.
  assert (Hfresh : forall rows, ~ In (Db.next_rowid rows) (map Db.msg_id rows)).
  { intros rows Hin. apply in_map_iff in Hin as (r & Hid & Hr).
    pose proof (next_rowid_fresh _ _ Hr). lia. }
  split; [|split]; intros db a b c id db' Hu Hc.
  - apply create_personal_message_ok in Hc as (kept & _ & -> & ->). split; [|apply Hfresh].
    cbn [Db.personal_messages Db.set_personal_messages].
    now apply unique_ids_appended.
  - apply create_chat_message_ok in Hc as (kept & _ & -> & ->). split; [|apply Hfresh].
    cbn [Db.chat_messages Db.set_chat_messages]. now apply unique_ids_appended.
  - apply create_channel_message_ok in Hc as (kept & _ & -> & ->). split; [|apply Hfresh].
    cbn [Db.channel_messages Db.set_channel_messages]. now apply unique_ids_appended.
Qed.

(** X4. While the ids of a log are pairwise distinct, a delete that
    succeeds removes exactly one row, and the ids stay distinct. *)
Theorem delete_removes_one_row :
  (forall db m o ok db',
     More.unique_ids (Db.personal_messages db) ->
     Db.delete_personal_message db m o = Python.Ok (ok, db') ->
     More.unique_ids (Db.personal_messages db') /\
     (ok = true ->
      S (length (Db.personal_messages db')) = length (Db.personal_messages db))) /\
  (forall db m o ok db',
     More.unique_ids (Db.chat_messages db) ->
     Db.delete_chat_message db m o = Python.Ok (ok, db') ->
     More.unique_ids (Db.chat_messages db') /\
     (ok = true ->
      S (length (Db.chat_messages db')) = length (Db.chat_messages db))) /\
  (forall db m o ok db',
     More.unique_ids (Db.channel_messages db) ->
     Db.delete_channel_message db m o = Python.Ok (ok, db') ->
     More.unique_ids (Db.channel_messages db') /\
     (ok = true ->
      S (length (Db.channel_messages db')) = length (Db.channel_messages db))).
Proof.
  assert (Hone : forall rows m o, More.unique_ids rows ->
            More.unique_ids (fst (Db.delete_owned rows m o)) /\
            ((0 <? snd (Db.delete_owned rows m o))%nat = true ->
             S (length (fst (Db.delete_owned rows m o))) = length rows)).
  { intros rows m o Hu. split; [now apply unique_ids_filter|].
    intros Hpos. apply Nat.ltb_lt in Hpos.
    pose proof (delete_owned_one rows m o Hu).
    pose proof (delete_owned_lengths rows m o). lia. }
  split; [|split]; intros db m o ok db' Hu Hd.
  - apply delete_personal_message_inv in Hd as (_ & _ & -> & ->).
    cbn [Db.personal_messages Db.set_personal_messages]. now apply Hone.
  - apply delete_chat_message_inv in Hd as (_ & _ & -> & ->).
    cbn [Db.chat_messages Db.set_chat_messages]. now apply Hone.
  - apply delete_channel_message_inv in Hd as (_ & _ & -> & ->).
    cbn [Db.channel_messages Db.set_channel_messages]. now apply Hone.
Qed.

(** Witness of [create_then_delete_restores]: one new message per log. *)
Lemma create_then_delete_restores_witness :
  Db.delete_personal_message
    (Db.set_personal_messages Scenario.db0
       (Db.personal_messages Scenario.db0 ++
          [Spec.new_row (Db.personal_messages Scenario.db0) Scenario.db0
             (Some 1) 2 (Db.Text "hi")])) 6 1 = Python.Ok (true, Scenario.db0) /\
  Db.delete_chat_message
    (Db.set_chat_messages Scenario.db0
       (Db.chat_messages Scenario.db0 ++
          [Spec.new_row (Db.chat_messages Scenario.db0) Scenario.db0
             (Some 1) 7 (Db.Text "x")])) 2 1 = Python.Ok (true, Scenario.db0) /\
  Db.delete_channel_message
    (Db.set_channel_messages Scenario.db0
       (Db.channel_messages Scenario.db0 ++
          [Spec.new_row (Db.channel_messages Scenario.db0) Scenario.db0
             (Some 3) 9 (Db.Text "news")])) 2 3 = Python.Ok (true, Scenario.db0).
Proof.
  destruct create_then_delete_restores as (H1 & H2 & H3).
  split; [|split].
  - apply (H1 Scenario.db0 _ 1 2 6 (Python.VStr "hi")); reflexivity.
  - apply (H2 Scenario.db0 _ 1 7 2 (Python.VStr "x")); reflexivity.
  - apply (H3 Scenario.db0 _ 3 9 2 (Python.VStr "news")); reflexivity.
Defined.

(** Witness of [delete_again_finds_nothing]: message 5, and message 1 of
    chat 7 and of channel 9. *)
Lemma delete_again_finds_nothing_witness :
  Db.delete_personal_message (Db.set_personal_messages Scenario.db0 []) 5 1 =
    Python.Ok (false, Db.set_personal_messages Scenario.db0 []) /\
  Db.delete_chat_message (Db.set_chat_messages Scenario.db0 []) 1 1 =
    Python.Ok (false, Db.set_chat_messages Scenario.db0 []) /\
  Db.delete_channel_message (Db.set_channel_messages Scenario.db0 []) 1 3 =
    Python.Ok (false, Db.set_channel_messages Scenario.db0 []).
Proof.
  destruct delete_again_finds_nothing as (H1 & H2 & H3).
  split; [|split].
  - apply (H1 Scenario.db0 5 1 true). reflexivity.
  - apply (H2 Scenario.db0 1 1 true). reflexivity.
  - apply (H3 Scenario.db0 1 3 true). reflexivity.
Defined.

(** The logs of the example store have distinct ids. *)
Lemma db0_unique_ids :
  More.unique_ids (Db.personal_messages Scenario.db0) /\
  More.unique_ids (Db.chat_messages Scenario.db0) /\
  More.unique_ids (Db.channel_messages Scenario.db0).
Proof.
  unfold More.unique_ids. simpl.
  repeat split; repeat constructor; simpl; tauto.
Defined.

(** Witness of [created_id_is_fresh]. *)
Lemma created_id_is_fresh_witness :
  ~ In 6 (map Db.msg_id (Db.personal_messages Scenario.db0)) /\
  ~ In 2 (map Db.msg_id (Db.chat_messages Scenario.db0)) /\
  ~ In 2 (map Db.msg_id (Db.channel_messages Scenario.db0)).
Proof.
  destruct created_id_is_fresh as (H1 & H2 & H3).
  destruct db0_unique_ids as (U1 & U2 & U3).
  split; [|split].
  - apply (H1 Scenario.db0 (Some 1) 2 (Python.VStr "hi") 6 _ U1 eq_refl).
  - apply (H2 Scenario.db0 7 1 (Python.VStr "x") 2 _ U2 eq_refl).
  - apply (H3 Scenario.db0 9 3 (Python.VStr "news") 2 _ U3 eq_refl).
Defined.

(** Witness of [delete_removes_one_row]. *)
Lemma delete_removes_one_row_witness :
  S (length (Db.personal_messages (Db.set_personal_messages Scenario.db0 []))) =
    length (Db.personal_messages Scenario.db0) /\
  S (length (Db.chat_messages (Db.set_chat_messages Scenario.db0 []))) =
    length (Db.chat_messages Scenario.db0) /\
  S (length (Db.channel_messages (Db.set_channel_messages Scenario.db0 []))) =
    length (Db.channel_messages Scenario.db0).
Proof.
  destruct delete_removes_one_row as (H1 & H2 & H3).
  destruct db0_unique_ids as (U1 & U2 & U3).
  split; [|split].
  - apply (H1 Scenario.db0 5 1 true _ U1 eq_refl). reflexivity.
  - apply (H2 Scenario.db0 1 1 true _ U2 eq_refl). reflexivity.
  - apply (H3 Scenario.db0 1 3 true _ U3 eq_refl). reflexivity.
Defined.

(** ** Reading the logs back *)

Section Logs.
Import Python Db DbMore Main Spec More.

Lemma in_insert_by_timestamp x r l :
  In x (insert_by_timestamp r l) <-> x = r \/ In x l.
Proof.
  induction l as [|y l IH]; simpl; [intuition|].
  destruct (String.leb (msg_timestamp y) (msg_timestamp r)); simpl;
    [rewrite IH|]; intuition.
Qed.

Lemma in_order_by_timestamp x l : In x (order_by_timestamp l) <-> In x l.
Proof.
  unfold order_by_timestamp.
  assert (H : forall acc, In x (fold_left (fun acc r => insert_by_timestamp r acc) l acc)
                          <-> In x l \/ In x acc).
  { induction l as [|r l IH]; intros acc; simpl; [intuition|].
    rewrite IH, in_insert_by_timestamp. intuition. }
  rewrite H. simpl. intuition.
Qed.

Lemma length_insert_by_timestamp r l :
  length (insert_by_timestamp r l) = S (length l).
Proof.
  induction l as [|y l IH]; simpl; [reflexivity|].
  destruct (String.leb _ _); simpl; [now rewrite IH | reflexivity].
Qed.

Lemma length_order_by_timestamp l : length (order_by_timestamp l) = length l.
Proof.
  unfold order_by_timestamp.
  assert (H : forall acc,
            length (fold_left (fun acc r => insert_by_timestamp r acc) l acc)
            = (length l + length acc)%nat).
  { induction l as [|r l IH]; intros acc; simpl; [reflexivity|].
    rewrite IH, length_insert_by_timestamp. lia. }
  rewrite H. simpl. lia.
Qed.

Lemma insert_by_timestamp_sorted r l :
  Sorted by_timestamp l -> Sorted by_timestamp (insert_by_timestamp r l).
Proof.
  induction l as [|y l IH]; simpl; intros Hs; [repeat constructor|].
  apply Sorted_inv in Hs as [Hs Hhd].
  destruct (String.leb (msg_timestamp y) (msg_timestamp r)) eqn:Hle.
  - constructor; [now apply IH|].
    destruct l as [|z l]; simpl.
    + now constructor.
    + destruct (String.leb (msg_timestamp z) (msg_timestamp r));
        constructor; [now apply HdRel_inv in Hhd | exact Hle].
  - constructor; [now constructor|]. constructor. unfold by_timestamp.
    destruct (String.leb_total (msg_timestamp r) (msg_timestamp y)); congruence.
Qed.

Lemma order_by_timestamp_sorted l : Sorted by_timestamp (order_by_timestamp l).
Proof.
  unfold order_by_timestamp.
  assert (H : forall acc, Sorted by_timestamp acc ->
            Sorted by_timestamp (fold_left (fun acc r => insert_by_timestamp r acc) l acc)).
  { induction l as [|r l IH]; intros acc Hacc; simpl; [assumption|].
    now apply IH, insert_by_timestamp_sorted. }
  apply H. constructor.
Qed.

Lemma sql_eq_some col v : sql_eq col (Some v) = true <-> col = Some v.
Proof.
  destruct col as [c|]; simpl; [|split; discriminate].
  rewrite Z.eqb_eq. split; congruence.
Qed.

Lemma between_comm u1 u2 r : between u1 u2 r = between u2 u1 r.
Proof. unfold between. apply orb_comm. Qed.

Lemma between_iff a b r :
  between (Some a) (Some b) r = true <->
  (msg_sender r = Some a /\ msg_target r = b) \/
  (msg_sender r = Some b /\ msg_target r = a).
Proof.
  unfold between. rewrite orb_true_iff, !andb_true_iff, !sql_eq_some.
  intuition congruence.
Qed.

Lemma bind_opt_int_cases o :
  bind_opt_int o = Ok tt \/ bind_opt_int o = Exn OverflowError.
Proof. destruct o; simpl; [apply bind_int_ok | now left]. Qed.

End Logs.

(** X5. Both participants of a conversation read the same log:
    [get_personal_messages] gives the same answer whichever of the two ids
    comes first. *)
Theorem personal_log_symmetric (db : Db.Database) (user1_id user2_id : option Z) :
  DbMore.get_personal_messages db user1_id user2_id =
  DbMore.get_personal_messages db user2_id user1_id.
Proof.
  unfold DbMore.get_personal_messages.
  rewrite (filter_ext _ _ (between_comm user1_id user2_id)).
  destruct (bind_opt_int_cases user1_id) as [-> | ->],
           (bind_opt_int_cases user2_id) as [-> | ->]; reflexivity.
Qed.

(** X6. The log of two users lists the messages either sent to the other,
    each as often as it is stored, and nothing else, in ascending order of
    timestamp. *)
Theorem personal_log_exact (db : Db.Database) (a b : Z)
    (l : list (Z * option Z * Db.stored_text * string)) :
  DbMore.get_personal_messages db (Some a) (Some b) = Python.Ok l ->
  exists rows,
    l = map More.listed rows /\
    (forall r, In r rows <->
       In r (Db.personal_messages db) /\
       ((Db.msg_sender r = Some a /\ Db.msg_target r = b) \/
        (Db.msg_sender r = Some b /\ Db.msg_target r = a))) /\
    length rows =
      length (List.filter (DbMore.between (Some a) (Some b)) (Db.personal_messages db)) /\
    Sorted More.by_timestamp rows.
Proof.
  unfold DbMore.get_personal_messages.
  destruct (Db.bind_opt_int (Some a)), (Db.bind_opt_int (Some b)); try discriminate.
  intros [= <-]. eexists. split; [reflexivity|]. split; [|split].
  - intros r. rewrite in_order_by_timestamp, filter_In, between_iff. reflexivity.
  - apply length_order_by_timestamp.
  - apply order_by_timestamp_sorted.
Qed.

(** Witness of [personal_log_exact]: the log of Alice and Bob. *)
Lemma personal_log_exact_witness :
  exists rows,
    [(5, Some 1, Db.Text "hello", "2024-05-01 10:00:00")] = map More.listed rows /\
    (forall r, In r rows <->
       In r (Db.personal_messages Scenario.db0) /\
       ((Db.msg_sender r = Some 1 /\ Db.msg_target r = 2) \/
        (Db.msg_sender r = Some 2 /\ Db.msg_target r = 1))) /\
    length rows =
      length (List.filter (DbMore.between (Some 1) (Some 2))
                (Db.personal_messages Scenario.db0)) /\
    Sorted More.by_timestamp rows.
Proof. apply (personal_log_exact Scenario.db0 1 2). reflexivity. Defined.

Section LogsAfterEvents.
Import Python Db DbMore Main Spec More.

Lemma get_user_id_row db n u :
  get_user_id db (Some n) = Some u ->
  exists r, In r (users db) /\ user_name r = n /\ user_id r = u.
Proof.
  unfold get_user_id.
  destruct (List.find _ (users db)) as [r|] eqn:Hf; [|discriminate].
  intros [= <-]. apply find_some in Hf as [Hin Hn].
  apply String.eqb_eq in Hn. now exists r.
Qed.

Lemma get_user_id_session db o u :
  get_user_id db o = Some u -> exists n, o = Some n.
Proof. destruct o as [n|]; [now exists n | discriminate]. Qed.

(** A row of a known sender joins with the sender's row in [users]. *)
Lemma join_sender_lists db m u n :
  msg_sender m = Some u -> get_user_id db (Some n) = Some u ->
  In (msg_id m, u, msg_content m, msg_timestamp m, n) (join_sender db m).
Proof.
  intros Hs Hu. unfold join_sender. rewrite Hs.
  apply get_user_id_row in Hu as (r & Hin & <- & Hid).
  apply in_map_iff. exists r. split; [reflexivity|].
  apply filter_In. split; [assumption|]. now apply Z.eqb_eq.
Qed.

Lemma is_user_chat_member_bound db chat u b :
  is_user_chat_member db chat u = Ok b -> bind_int chat = Ok tt.
Proof.
  unfold is_user_chat_member.
  destruct (bind_int chat) as [[]|]; [reflexivity|].
  destruct (bind_int u); discriminate.
Qed.

Lemma is_user_channel_admin_bound db u channel b :
  is_user_channel_admin db u channel = Ok b -> bind_int channel = Ok tt.
Proof.
  unfold is_user_channel_admin.
  destruct (bind_int channel) as [[]|]; [reflexivity | discriminate].
Qed.

Lemma append_changes {A} (l : list A) x : l ++ [x] <> l.
Proof.
  intros H. apply (f_equal (@length A)) in H. rewrite length_app in H.
  simpl in H. lia.
Qed.

End LogsAfterEvents.

(** X7. An accepted personal message is listed when the log is read back by
    either side: after the handler has run, [get_personal_messages] for the
    sender and the user the row was stored for holds the new row, with the
    id and timestamp the store assigned and the text as the [content]
    column keeps it (a number as text), whichever id is given first.  The
    event is one the handler accepts: a text that is not empty and that
    the column takes, a room that parses as a pair, and ids of 64 bits. *)
Theorem sent_personal_message_is_listed (c : Main.ctx)
    (data : gmap string Python.pyval) (w : Main.world) (n r : string) (a b u : Z)
    (kept : Db.stored_text) :
  Main.session_username c = Some n -> n <> "" ->
  Python.truthy (Main.get data "text") = true ->
  Db.bind_content (Main.get data "text") = Python.Ok kept ->
  Main.get data "room" = Python.VStr r ->
  Spec.room_pair (Python.VStr r) = Some (a, b) ->
  Db.get_user_id (Main.store w) (Some n) = Some u -> Db.sqlite_int u = true ->
  Db.sqlite_int (if u =? a then b else a) = true ->
  let other := if u =? a then b else a in
  let db' := Main.store (Spec.after (Main.personal_message c data) w) in
  exists l,
    DbMore.get_personal_messages db' (Some u) (Some other) = Python.Ok l /\
    DbMore.get_personal_messages db' (Some other) (Some u) = Python.Ok l /\
    In (Db.next_rowid (Db.personal_messages (Main.store w)), Some u,
        kept, Db.CURRENT_TIMESTAMP (Main.store w)) l.
Proof.
  intros Hs Hn Ht Hb Hr Hp Hu Hsu Hso other db'. subst db'.
  unfold Spec.after.
  rewrite (personal_message_runs c data w n r a b u kept Hs Hn Ht Hb Hr Hp Hu Hsu Hso).
  cbn [snd Spec.emits Spec.with_store Main.store].
  unfold DbMore.get_personal_messages, Db.bind_opt_int.
  fold other. rewrite !bind_int_of_sqlite by assumption.
  rewrite (filter_ext _ _ (between_comm (Some other) (Some u))).
  eexists. split; [reflexivity|]. split; [reflexivity|].
  apply in_map_iff.
  exists (Spec.new_row (Db.personal_messages (Main.store w)) (Main.store w)
            (Some u) other kept).
  split; [reflexivity|].
  apply in_order_by_timestamp, filter_In. split.
  - cbn [Db.personal_messages Db.set_personal_messages]. apply in_or_app.
    right. now left.
  - apply between_iff. left. split; reflexivity.
Qed.

(** Witness of [sent_personal_message_is_listed]: Alice sends the number 5
    to Bob; the log lists it as the text [5]. *)
Lemma sent_personal_message_is_listed_witness :
  exists l,
    DbMore.get_personal_messages
      (Main.store (Spec.after (Main.personal_message Scenario.alice1
                                 More.number_message) Scenario.w0))
      (Some 1) (Some 2) = Python.Ok l /\
    DbMore.get_personal_messages
      (Main.store (Spec.after (Main.personal_message Scenario.alice1
                                 More.number_message) Scenario.w0))
      (Some 2) (Some 1) = Python.Ok l /\
    In (6, Some 1, Db.Text "5", "2024-05-01 12:00:00") l.
Proof.
  apply (sent_personal_message_is_listed Scenario.alice1 More.number_message
           Scenario.w0 "alice" "1:2" 1 2 1 (Db.Text "5"));
    first [reflexivity | discriminate].
Defined.

(** X8. A chat or channel message that is accepted (the event changes the
    world) is listed when the log of that chat or channel is read back,
    with the id and timestamp the store assigned, the text as the
    [content] column keeps it (a number as text) and under the sender's
    user name. *)
Theorem posted_message_is_listed :
  (forall c data w,
     Spec.after (Main.chat_message c data) w <> w ->
     exists n u chat kept l,
       Main.session_username c = Some n /\
       Db.get_user_id (Main.store w) (Some n) = Some u /\
       Python.int (Main.get data "chat_id") = Python.Ok chat /\
       Db.bind_content (Main.get data "text") = Python.Ok kept /\
       DbMore.get_chat_messages
         (Main.store (Spec.after (Main.chat_message c data) w)) chat = Python.Ok l /\
       In (Db.next_rowid (Db.chat_messages (Main.store w)), u,
           kept, Db.CURRENT_TIMESTAMP (Main.store w), n) l) /\
  (forall c data w,
     Spec.after (Main.channel_message c data) w <> w ->
     exists n u channel kept l,
       Main.session_username c = Some n /\
       Db.get_user_id (Main.store w) (Some n) = Some u /\
       Python.int (Main.get data "channel_id") = Python.Ok channel /\
       Db.bind_content (Main.get data "text") = Python.Ok kept /\
       DbMore.get_channel_messages
         (Main.store (Spec.after (Main.channel_message c data) w)) channel
         = Python.Ok l /\
       In (Db.next_rowid (Db.channel_messages (Main.store w)), u,
           kept, Db.CURRENT_TIMESTAMP (Main.store w), n) l).
Proof.
  split; intros c data w Hch.
  - destruct (chat_message_cases c data w)
      as [H | (u & chat & kept & Hu & Hc & Hm & Hk & Hrun)]; [contradiction|].
    destruct (get_user_id_session _ _ _ Hu) as [n Hn]. rewrite Hn in Hu.
    exists n, u, chat, kept. eexists. do 4 (split; [eassumption|]).
    cbv zeta in Hrun. unfold Spec.after. rewrite Hrun.
    cbn [snd Spec.emits Spec.with_store Main.store].
    unfold DbMore.get_chat_messages.
    rewrite (is_user_chat_member_bound _ _ _ _ Hm). split; [reflexivity|].
    apply in_flat_map.
    exists (Spec.new_row (Db.chat_messages (Main.store w)) (Main.store w)
              (Some u) chat kept).
    split.
    + apply in_order_by_timestamp, filter_In. split.
      * cbn [Db.chat_messages Db.set_chat_messages]. apply in_or_app. right. now left.
      * apply Z.eqb_refl.
    + now apply (join_sender_lists _ (Spec.new_row _ _ (Some u) chat _) u n).
  - destruct (channel_message_cases c data w)
      as [H | (u & channel & kept & Hu & Hc & Hm & Hk & Hrun)]; [contradiction|].
    destruct (get_user_id_session _ _ _ Hu) as [n Hn]. rewrite Hn in Hu.
    exists n, u, channel, kept. eexists. do 4 (split; [eassumption|]).
    cbv zeta in Hrun. unfold Spec.after. rewrite Hrun.
    cbn [snd Spec.emits Spec.with_store Main.store].
    unfold DbMore.get_channel_messages.
    rewrite (is_user_channel_admin_bound _ _ _ _ Hm). split; [reflexivity|].
    apply in_flat_map.
    exists (Spec.new_row (Db.channel_messages (Main.store w)) (Main.store w)
              (Some u) channel kept).
    split.
    + apply in_order_by_timestamp, filter_In. split.
      * cbn [Db.channel_messages Db.set_channel_messages]. apply in_or_app.
        right. now left.
      * apply Z.eqb_refl.
    + now apply (join_sender_lists _ (Spec.new_row _ _ (Some u) channel _) u n).
Qed.

(** Witness of [posted_message_is_listed]: Alice posts the number 5 to
    chat 7, Carol posts to channel 9. *)
Lemma posted_message_is_listed_witness :
  (exists n u chat kept l,
     Main.session_username Scenario.alice1 = Some n /\
     Db.get_user_id (Main.store Scenario.w0) (Some n) = Some u /\
     Python.int (Main.get More.number_post "chat_id") = Python.Ok chat /\
     Db.bind_content (Main.get More.number_post "text") = Python.Ok kept /\
     DbMore.get_chat_messages
       (Main.store (Spec.after (Main.chat_message Scenario.alice1 More.number_post)
                      Scenario.w0)) chat = Python.Ok l /\
     In (Db.next_rowid (Db.chat_messages (Main.store Scenario.w0)), u,
         kept, Db.CURRENT_TIMESTAMP (Main.store Scenario.w0), n) l) /\
  (exists n u channel kept l,
     Main.session_username Scenario.carol1 = Some n /\
     Db.get_user_id (Main.store Scenario.w0) (Some n) = Some u /\
     Python.int (Main.get More.channel_post "channel_id") = Python.Ok channel /\
     Db.bind_content (Main.get More.channel_post "text") = Python.Ok kept /\
     DbMore.get_channel_messages
       (Main.store (Spec.after (Main.channel_message Scenario.carol1 More.channel_post)
                      Scenario.w0)) channel = Python.Ok l /\
     In (Db.next_rowid (Db.channel_messages (Main.store Scenario.w0)), u,
         kept, Db.CURRENT_TIMESTAMP (Main.store Scenario.w0), n) l).
Proof.
  destruct posted_message_is_listed as [H1 H2].
  split; [apply H1 | apply H2];
    intros H; apply (f_equal Main.emitted) in H; vm_compute in H; discriminate H.
Defined.

Section Writers.
Import Python Db DbMore Main Spec More.

Lemma is_user_channel_admin_one db u v channel :
  is_user_channel_admin db u channel = Ok true ->
  is_user_channel_admin db v channel = Ok true -> u = v.
Proof.
  unfold is_user_channel_admin. destruct (bind_int channel) as [[]|]; [|discriminate].
  destruct (List.find _ _) as [r|]; [|discriminate].
  destruct (channel_admin r) as [adm|]; [|discriminate].
  intros [= Hu] [= Hv]. apply Z.eqb_eq in Hu, Hv. congruence.
Qed.

(** A delete that reports a row deleted has changed its table. *)
Lemma delete_owned_changes rows m o :
  (0 <? snd (delete_owned rows m o))%nat = true -> fst (delete_owned rows m o) <> rows.
Proof.
  intros Hpos Heq. apply Nat.ltb_lt in Hpos.
  pose proof (delete_owned_lengths rows m o) as Hl. rewrite Heq in Hl. lia.
Qed.

Lemma delete_personal_message_changes db m o db' :
  delete_personal_message db m o = Ok (true, db') -> db' <> db.
Proof.
  intros Hd Heq. apply delete_personal_message_inv in Hd as (_ & _ & Hok & ->).
  apply (f_equal personal_messages) in Heq. simpl in Heq.
  now apply (delete_owned_changes _ _ _ (eq_sym Hok)).
Qed.

Lemma delete_chat_message_changes db m o db' :
  delete_chat_message db m o = Ok (true, db') -> db' <> db.
Proof.
  intros Hd Heq. apply delete_chat_message_inv in Hd as (_ & _ & Hok & ->).
  apply (f_equal chat_messages) in Heq. simpl in Heq.
  now apply (delete_owned_changes _ _ _ (eq_sym Hok)).
Qed.

Lemma delete_channel_message_changes db m o db' :
  delete_channel_message db m o = Ok (true, db') -> db' <> db.
Proof.
  intros Hd Heq. apply delete_channel_message_inv in Hd as (_ & _ & Hok & ->).
  apply (f_equal channel_messages) in Heq. simpl in Heq.
  now apply (delete_owned_changes _ _ _ (eq_sym Hok)).
Qed.

End Writers.

(** X9. A channel has one writer: if two connections can both post to the
    same channel (each of the two events would change the world), they
    belong to the same user. *)
Theorem channel_has_one_writer (c1 c2 : Main.ctx)
    (data1 data2 : gmap string Python.pyval) (w : Main.world) :
  Spec.after (Main.channel_message c1 data1) w <> w ->
  Spec.after (Main.channel_message c2 data2) w <> w ->
  Python.int (Main.get data1 "channel_id") = Python.int (Main.get data2 "channel_id") ->
  exists u,
    Db.get_user_id (Main.store w) (Main.session_username c1) = Some u /\
    Db.get_user_id (Main.store w) (Main.session_username c2) = Some u.
Proof.
  intros H1 H2 Hsame.
  destruct (channel_message_cases c1 data1 w)
    as [H | (u & ch & k1 & Hu & Hc & Hm & _)]; [contradiction|].
  destruct (channel_message_cases c2 data2 w)
    as [H | (v & ch' & k2 & Hv & Hc' & Hm' & _)]; [contradiction|].
  rewrite Hc, Hc' in Hsame. injection Hsame as <-.
  exists u. split; [assumption|].
  now rewrite (is_user_channel_admin_one _ _ _ _ Hm Hm').
Qed.

(** Witness of [channel_has_one_writer]: two connections of Carol. *)
Lemma channel_has_one_writer_witness :
  exists u,
    Db.get_user_id (Main.store Scenario.w0) (Main.session_username Scenario.carol1)
      = Some u /\
    Db.get_user_id (Main.store Scenario.w0) (Main.session_username More.carol2)
      = Some u.
Proof.
  apply (channel_has_one_writer Scenario.carol1 More.carol2 More.channel_post
           More.channel_post Scenario.w0);
    [ intros H; apply (f_equal Main.emitted) in H; vm_compute in H; discriminate H
    | intros H; apply (f_equal Main.emitted) in H; vm_compute in H; discriminate H
    | reflexivity ].
Defined.

(** X10. Persisting and broadcasting go together: each of the handlers
    [personal_message], [chat_message], [channel_message] and
    [delete_message] changes the store exactly when it emits an event. *)
Theorem store_changes_iff_event_emitted (c : Main.ctx)
    (data : gmap string Python.pyval) (w : Main.world) :
  (Main.store (Spec.after (Main.personal_message c data) w) = Main.store w <->
   Main.emitted (Spec.after (Main.personal_message c data) w) = Main.emitted w) /\
  (Main.store (Spec.after (Main.chat_message c data) w) = Main.store w <->
   Main.emitted (Spec.after (Main.chat_message c data) w) = Main.emitted w) /\
  (Main.store (Spec.after (Main.channel_message c data) w) = Main.store w <->
   Main.emitted (Spec.after (Main.channel_message c data) w) = Main.emitted w) /\
  (Main.store (Spec.after (Main.delete_message c data) w) = Main.store w <->
   Main.emitted (Spec.after (Main.delete_message c data) w) = Main.emitted w).
Proof.
  assert (Hrows : forall (rows : list Db.message_row) x, rows ++ [x] = rows -> False)
    by (intros rows x H; exact (append_changes rows x H)).
  assert (Hlog : forall (l : list Main.emission) x, l ++ [x] = l -> False)
    by (intros l x H; exact (append_changes l x H)).
  split; [|split; [|split]].
  - destruct (personal_message_cases c data w)
      as [H | (n & r & ida & idb & kept & _ & _ & _ & _ & Hrun)].
    + unfold Spec.dropped in H. rewrite H. tauto.
    + cbv zeta in Hrun. unfold Spec.after. rewrite Hrun. simpl. split; intros H.
      * apply (f_equal Db.personal_messages) in H. simpl in H. now apply Hrows in H.
      * now apply Hlog in H.
  - destruct (chat_message_cases c data w) as [H | (u & ch & kept & _ & _ & _ & _ & Hrun)].
    + unfold Spec.dropped in H. rewrite H. tauto.
    + cbv zeta in Hrun. unfold Spec.after. rewrite Hrun. simpl. split; intros H.
      * apply (f_equal Db.chat_messages) in H. simpl in H. now apply Hrows in H.
      * now apply Hlog in H.
  - destruct (channel_message_cases c data w) as [H | (u & ch & kept & _ & _ & _ & _ & Hrun)].
    + unfold Spec.dropped in H. rewrite H. tauto.
    + cbv zeta in Hrun. unfold Spec.after. rewrite Hrun. simpl. split; intros H.
      * apply (f_equal Db.channel_messages) in H. simpl in H. now apply Hrows in H.
      * now apply Hlog in H.
  - destruct (delete_message_cases c data w)
      as [H | (n & u & mid & _ & _ & _ & _ &
               [[_ (db' & Hd & Hrun)]
               | [[_ (ch & db' & _ & Hd & Hrun)] | [_ (ch & db' & _ & Hd & Hrun)]]])].
    + unfold Spec.dropped in H. rewrite H. tauto.
    + unfold Spec.after. rewrite Hrun. simpl. split; intros H.
      * now apply delete_personal_message_changes in Hd.
      * now apply Hlog in H.
    + unfold Spec.after. rewrite Hrun. simpl. split; intros H.
      * now apply delete_chat_message_changes in Hd.
      * now apply Hlog in H.
    + unfold Spec.after. rewrite Hrun. simpl. split; intros H.
      * now apply delete_channel_message_changes in Hd.
      * now apply Hlog in H.
Qed.

Section Frames.
Import Python Db DbMore Main Http Spec More.

Lemma log_extended_refl w : log_extended w w.
Proof. exists []. now rewrite app_nil_r. Qed.

Lemma same_accounts_refl db : same_accounts db db.
Proof. repeat split. Qed.

Lemma same_presence_refl w : same_presence w w.
Proof. split; reflexivity. Qed.

(** The frame of a handler that only writes one message table and emits. *)
Lemma frame_of_run {A} (h : handler A) w (r : result A) db' es :
  h w = (r, emits (with_store w db') es) ->
  same_accounts (store w) db' ->
  same_accounts (store w) (store (after h w)) /\
  same_presence w (after h w) /\ log_extended w (after h w).
Proof.
  intros Hrun Hdb. unfold after. rewrite Hrun. simpl.
  split; [exact Hdb|]. split; [split; reflexivity | now exists es].
Qed.

Lemma frame_of_dropped {A} (h : handler A) w :
  dropped h w ->
  same_accounts (store w) (store (after h w)) /\
  same_presence w (after h w) /\ log_extended w (after h w).
Proof.
  unfold dropped. intros ->.
  auto using same_accounts_refl, same_presence_refl, log_extended_refl.
Qed.

(** [handle_connect] on any session. *)
Lemma handle_connect_frame c w :
  store (after (handle_connect c) w) = store w /\
  ONLINE_USER_IDS w ⊆ ONLINE_USER_IDS (after (handle_connect c) w) /\
  room_members w ⊆ room_members (after (handle_connect c) w) /\
  log_extended w (after (handle_connect c) w).
Proof.
  unfold handle_connect.
  destruct (negb (truthy (of_name (session_username c))));
    [unfold after; simpl; auto using log_extended_refl|].
  run. destruct (truthy_id _) as [u|]; simpl.
  - repeat split; [set_solver | set_solver |].
    eexists. now rewrite <- app_assoc.
  - repeat split; [set_solver | set_solver | now eexists].
Qed.

(** [handle_disconnect] on any session. *)
Lemma handle_disconnect_frame c w :
  store (after (handle_disconnect c) w) = store w /\
  ONLINE_USER_IDS (after (handle_disconnect c) w) ⊆ ONLINE_USER_IDS w /\
  room_members (after (handle_disconnect c) w) = room_members w /\
  log_extended w (after (handle_disconnect c) w).
Proof.
  unfold handle_disconnect.
  destruct (negb (truthy (of_name (session_username c))));
    [unfold after; simpl; auto using log_extended_refl|].
  run. destruct (truthy_id _) as [u|]; simpl;
    [|auto using log_extended_refl].
  destruct (bool_decide _); simpl; [|auto using log_extended_refl].
  repeat split; [set_solver | now eexists].
Qed.

End Frames.

(** X11. Each handler keeps to its own part of the state.  The message
    handlers and [delete_message] never change the users, channels or chat
    memberships of the store, the registry of online users or the room
    directory; [handle_connect] and [handle_disconnect] never change the
    store, the first only adding to registry and directory, the second only
    removing from the registry; and no handler retracts an event already
    emitted. *)
Theorem handlers_keep_to_their_state (c : Main.ctx)
    (data : gmap string Python.pyval) (w : Main.world) :
  (More.same_accounts (Main.store w)
     (Main.store (Spec.after (Main.personal_message c data) w)) /\
   More.same_presence w (Spec.after (Main.personal_message c data) w) /\
   More.log_extended w (Spec.after (Main.personal_message c data) w)) /\
  (More.same_accounts (Main.store w)
     (Main.store (Spec.after (Main.chat_message c data) w)) /\
   More.same_presence w (Spec.after (Main.chat_message c data) w) /\
   More.log_extended w (Spec.after (Main.chat_message c data) w)) /\
  (More.same_accounts (Main.store w)
     (Main.store (Spec.after (Main.channel_message c data) w)) /\
   More.same_presence w (Spec.after (Main.channel_message c data) w) /\
   More.log_extended w (Spec.after (Main.channel_message c data) w)) /\
  (More.same_accounts (Main.store w)
     (Main.store (Spec.after (Main.delete_message c data) w)) /\
   More.same_presence w (Spec.after (Main.delete_message c data) w) /\
   More.log_extended w (Spec.after (Main.delete_message c data) w)) /\
  (Main.store (Spec.after (Main.handle_connect c) w) = Main.store w /\
   Main.ONLINE_USER_IDS w ⊆ Main.ONLINE_USER_IDS (Spec.after (Main.handle_connect c) w) /\
   Main.room_members w ⊆ Main.room_members (Spec.after (Main.handle_connect c) w) /\
   More.log_extended w (Spec.after (Main.handle_connect c) w)) /\
  (Main.store (Spec.after (Main.handle_disconnect c) w) = Main.store w /\
   Main.ONLINE_USER_IDS (Spec.after (Main.handle_disconnect c) w)
     ⊆ Main.ONLINE_USER_IDS w /\
   Main.room_members (Spec.after (Main.handle_disconnect c) w) = Main.room_members w /\
   More.log_extended w (Spec.after (Main.handle_disconnect c) w)).
Proof.
  split; [|split; [|split; [|split; [|split]]]].
  - destruct (personal_message_cases c data w)
      as [H | (n & r & ida & idb & kept & _ & _ & _ & _ & Hrun)];
      [now apply frame_of_dropped|].
    cbv zeta in Hrun. eapply frame_of_run; [exact Hrun | repeat split].
  - destruct (chat_message_cases c data w) as [H | (u & ch & kept & _ & _ & _ & _ & Hrun)];
      [now apply frame_of_dropped|].
    cbv zeta in Hrun. eapply frame_of_run; [exact Hrun | repeat split].
  - destruct (channel_message_cases c data w) as [H | (u & ch & kept & _ & _ & _ & _ & Hrun)];
      [now apply frame_of_dropped|].
    cbv zeta in Hrun. eapply frame_of_run; [exact Hrun | repeat split].
  - destruct (delete_message_cases c data w)
      as [H | (n & u & mid & _ & _ & _ & _ &
               [[_ (db' & Hd & Hrun)]
               | [[_ (ch & db' & _ & Hd & Hrun)] | [_ (ch & db' & _ & Hd & Hrun)]]])];
      [now apply frame_of_dropped | | |];
      (eapply frame_of_run; [exact Hrun|]).
    + apply delete_personal_message_inv in Hd as (_ & _ & _ & ->). repeat split.
    + apply delete_chat_message_inv in Hd as (_ & _ & _ & ->). repeat split.
    + apply delete_channel_message_inv in Hd as (_ & _ & _ & ->). repeat split.
  - apply handle_connect_frame.
  - apply handle_disconnect_frame.
Qed.



(** ** The online count of a chat *)

Section OnlineCount.
Import Python Db DbMore Main Spec More.

Lemma get_chat_online_members_count_counted db chat online viewer :
  sqlite_int chat = true ->
  get_chat_online_members_count db chat online viewer
  = Ok (size (counted db chat online viewer)).
Proof.
  intros Hc. unfold get_chat_online_members_count, counted.
  rewrite (bind_int_of_sqlite _ Hc). f_equal. f_equal.
  destruct viewer as [x|].
  - destruct (bool_decide _) eqn:Hx; [reflexivity|].
    apply bool_decide_eq_false in Hx. set_solver.
  - set_solver.
Qed.

Lemma member_of_elem db chat u :
  member_of db chat u = true <->
  u ∈ (list_to_set (map member_user
                      (List.filter (fun r => member_chat r =? chat) (chat_members db)))
       : gset Z).
Proof.
  rewrite elem_of_list_to_set, list_elem_of_In, in_map_iff.
  unfold member_of. rewrite existsb_exists. split.
  - intros (m & Hin & Hm). apply andb_true_iff in Hm as [Hc Hu].
    apply Z.eqb_eq in Hu. exists m. split; [assumption|].
    apply filter_In. now split.
  - intros (m & Hu & Hin). apply filter_In in Hin as [Hin Hc].
    exists m. split; [assumption|]. rewrite Hc. simpl. now apply Z.eqb_eq.
Qed.

Lemma viewer_is u viewer :
  py_eq_id viewer (Some u) = true <->
  u ∈ (match viewer with Some x => {[ x ]} | None => ∅ end : gset Z).
Proof.
  destruct viewer as [x|]; simpl.
  - rewrite Z.eqb_eq. set_solver.
  - split; [discriminate | set_solver].
Qed.

(** Adding [u] to the online set adds [u] to the counted ids if [u] is a
    member and not the viewer, and nothing otherwise. *)
Lemma size_counted_add (M X online : gset Z) (u : Z) :
  size ((M ∩ ({[ u ]} ∪ online)) ∖ X) =
  (size ((M ∩ online) ∖ X) +
   (if bool_decide (u ∈ M) && negb (bool_decide (u ∈ online))
       && negb (bool_decide (u ∈ X)) then 1 else 0))%nat.
Proof.
  destruct (bool_decide (u ∈ M)) eqn:Em; simpl.
  - apply bool_decide_eq_true in Em.
    destruct (bool_decide (u ∈ online)) eqn:Eo; simpl.
    + apply bool_decide_eq_true in Eo.
      replace ((M ∩ ({[u]} ∪ online)) ∖ X) with ((M ∩ online) ∖ X) by set_solver. lia.
    + apply bool_decide_eq_false in Eo.
      destruct (bool_decide (u ∈ X)) eqn:Ev; simpl.
      * apply bool_decide_eq_true in Ev.
        replace ((M ∩ ({[u]} ∪ online)) ∖ X) with ((M ∩ online) ∖ X) by set_solver.
        lia.
      * apply bool_decide_eq_false in Ev.
        replace ((M ∩ ({[u]} ∪ online)) ∖ X)
          with (((M ∩ online) ∖ X) ∪ {[ u ]}) by set_solver.
        rewrite size_union by set_solver. now rewrite size_singleton.
  - apply bool_decide_eq_false in Em.
    replace ((M ∩ ({[u]} ∪ online)) ∖ X) with ((M ∩ online) ∖ X) by set_solver. lia.
Qed.

Lemma bool_decide_of (P : Prop) `{Decision P} (b : bool) :
  (b = true <-> P) -> bool_decide P = b.
Proof.
  intros Hb. destruct b.
  - apply bool_decide_eq_true. now apply Hb.
  - apply bool_decide_eq_false. intros HP. apply Hb in HP. discriminate.
Qed.

Lemma counted_add db chat online viewer u :
  size (counted db chat ({[ u ]} ∪ online) viewer) =
  (size (counted db chat online viewer) +
   (if member_of db chat u && negb (bool_decide (u ∈ online))
       && negb (py_eq_id viewer (Some u)) then 1 else 0))%nat.
Proof.
  unfold counted. rewrite size_counted_add.
  rewrite (bool_decide_of _ _ (member_of_elem db chat u)).
  now rewrite (bool_decide_of _ _ (viewer_is u viewer)).
Qed.

(** Removing [u] from the online set, the other way round. *)
Lemma counted_remove db chat online viewer u :
  size (counted db chat online viewer) =
  (size (counted db chat (online ∖ {[ u ]}) viewer) +
   (if member_of db chat u && bool_decide (u ∈ online)
       && negb (py_eq_id viewer (Some u)) then 1 else 0))%nat.
Proof.
  destruct (bool_decide (u ∈ online)) eqn:Eo.
  - apply bool_decide_eq_true in Eo.
    pose proof (counted_add db chat (online ∖ {[ u ]}) viewer u) as H.
    replace ({[u]} ∪ online ∖ {[u]}) with online in H.
    + rewrite H. rewrite bool_decide_eq_false_2 by set_solver. reflexivity.
    + apply set_eq. intros x. destruct (decide (x = u)); set_solver.
  - apply bool_decide_eq_false in Eo.
    replace (online ∖ {[ u ]}) with online by set_solver.
    rewrite andb_false_r. simpl. lia.
Qed.

End OnlineCount.

(** X13. When a user connects, the online count of a chat shown to a
    viewer goes up by one if the user is a member of the chat, was not
    online before and is not the viewer; otherwise it stays as it was. *)
Theorem connect_raises_online_count (w : Main.world) (c : Main.ctx) (n : string)
    (u chat : Z) (viewer : option Z) :
  Spec.logged_in w c n u ->
  Db.sqlite_int chat = true ->
  exists k,
    More.online_count w chat viewer = Python.Ok k /\
    More.online_count (Spec.after (Main.handle_connect c) w) chat viewer =
      Python.Ok (Nat.add k (if More.member_of (Main.store w) chat u
                         && negb (bool_decide (u ∈ Main.ONLINE_USER_IDS w))
                         && negb (DbMore.py_eq_id viewer (Some u))
                      then 1%nat else 0%nat)).
Proof.
  intros Hl Hc. unfold More.online_count, Spec.after.
  rewrite (handle_connect_user _ _ _ _ Hl). cbn [snd Main.store Main.ONLINE_USER_IDS].
  rewrite !get_chat_online_members_count_counted by assumption.
  eexists. split; [reflexivity|]. now rewrite counted_add.
Qed.

(** Witness of [connect_raises_online_count]: Alice, the member of chat 7,
    connects while Bob looks at the chats page: none online, then one. *)
Lemma connect_raises_online_count_witness :
  exists k,
    More.online_count Scenario.w0 7 (Some 2) = Python.Ok k /\
    More.online_count (Spec.after (Main.handle_connect Scenario.alice1) Scenario.w0)
      7 (Some 2) =
      Python.Ok (Nat.add k (if More.member_of (Main.store Scenario.w0) 7 1
                         && negb (bool_decide (1 ∈ Main.ONLINE_USER_IDS Scenario.w0))
                         && negb (DbMore.py_eq_id (Some 2) (Some 1))
                      then 1%nat else 0%nat)).
Proof.
  apply (connect_raises_online_count Scenario.w0 Scenario.alice1 "alice" 1 7 (Some 2));
    [repeat split; first [reflexivity | discriminate] | reflexivity].
Defined.

(** X14. When a connection of a user closes, the online count of a chat
    shown to a viewer goes down by one if the user is a member of the chat,
    was online and is not the viewer, even while another connection of
    that user stays open; otherwise it stays as it was. *)
Theorem disconnect_lowers_online_count (w : Main.world) (c : Main.ctx) (n : string)
    (u chat : Z) (viewer : option Z) :
  Spec.logged_in w c n u ->
  Db.sqlite_int chat = true ->
  exists k,
    More.online_count (Spec.after (Main.handle_disconnect c) w) chat viewer
      = Python.Ok k /\
    More.online_count w chat viewer =
      Python.Ok (Nat.add k (if More.member_of (Main.store w) chat u
                         && bool_decide (u ∈ Main.ONLINE_USER_IDS w)
                         && negb (DbMore.py_eq_id viewer (Some u))
                      then 1%nat else 0%nat)).
Proof.
  intros Hl Hc. unfold More.online_count, Spec.after.
  destruct (decide (u ∈ Main.ONLINE_USER_IDS w)) as [Hin | Hout].
  - rewrite (handle_disconnect_online _ _ _ _ Hl Hin).
    cbn [snd Main.store Main.ONLINE_USER_IDS].
    rewrite !get_chat_online_members_count_counted by assumption.
    eexists. split; [reflexivity|]. now rewrite <- counted_remove.
  - rewrite (handle_disconnect_offline _ _ _ _ Hl Hout). cbn [snd].
    rewrite !get_chat_online_members_count_counted by assumption.
    eexists. split; [reflexivity|].
    rewrite (bool_decide_eq_false_2 _ Hout), andb_false_r. simpl.
    now rewrite Nat.add_0_r.
Qed.

(** Witness of [disconnect_lowers_online_count]: Alice closes the first of
    her two connections. *)
Lemma disconnect_lowers_online_count_witness :
  exists k,
    More.online_count Scenario.one_closed 7 (Some 2) = Python.Ok k /\
    More.online_count Scenario.both_open 7 (Some 2) =
      Python.Ok (Nat.add k (if More.member_of (Main.store Scenario.both_open) 7 1
                         && bool_decide (1 ∈ Main.ONLINE_USER_IDS Scenario.both_open)
                         && negb (DbMore.py_eq_id (Some 2) (Some 1))
                      then 1%nat else 0%nat)).
Proof.
  apply (disconnect_lowers_online_count Scenario.both_open Scenario.alice1 "alice"
           1 7 (Some 2));
    [repeat split; first [reflexivity | discriminate] | reflexivity].
Defined.

(** ** Accounts *)

Section Accounts.
Import Python Db DbMore Spec More.

Lemma find_app_none {A} (p : A -> bool) l l' :
  List.find p l = None -> List.find p (l ++ l') = List.find p l'.
Proof.
  induction l as [|x l IH]; simpl; [reflexivity|].
  destruct (p x); [discriminate | exact IH].
Qed.

Lemma find_app_some {A} (p : A -> bool) l l' x :
  List.find p l = Some x -> List.find p (l ++ l') = Some x.
Proof.
  induction l as [|y l IH]; simpl; [discriminate|].
  destruct (p y); [trivial | exact IH].
Qed.

Lemma name_absent db name :
  existsb (String.eqb name) (get_all_usernames db) = false ->
  List.find (fun r => String.eqb (user_name r) name) (users db) = None.
Proof.
  unfold get_all_usernames. intros Hno.
  destruct (List.find _ (users db)) as [r|] eqn:Hf; [|reflexivity].
  apply find_some in Hf as [Hin Hn]. apply String.eqb_eq in Hn.
  assert (Hex : existsb (String.eqb name) (map user_name (users db)) = true).
  { apply existsb_exists. exists (user_name r). split; [now apply in_map|].
    rewrite Hn. apply String.eqb_refl. }
  congruence.
Qed.

(** Rows with the same key are the same row when keys are distinct. *)
Lemma unique_key {A B} (f : A -> B) l x y :
  List.NoDup (map f l) -> In x l -> In y l -> f x = f y -> x = y.
Proof.
  induction l as [|z l IH]; simpl; [tauto|].
  intros Hnd. apply List.NoDup_cons_iff in Hnd as [Hnot Hnd].
  intros [->|Hx] [->|Hy] Hf; [reflexivity | | | now apply IH].
  - exfalso. apply Hnot. rewrite Hf. now apply in_map.
  - exfalso. apply Hnot. rewrite <- Hf. now apply in_map.
Qed.

End Accounts.

(** X15. [signup] keeps user names unique.  It adds a row only when the
    name is not taken (and the password is long enough and repeated
    correctly), leaving the store untouched otherwise; after a successful
    signup the name resolves to the new id, which no user had, and every
    other name resolves as before. *)
Theorem signup_keeps_names_unique (db db' : Db.Database)
    (name password password2 : string) (res : Python.pyval) :
  DbMore.signup db name password password2 = (res, db') ->
  (List.NoDup (DbMore.get_all_usernames db) ->
   List.NoDup (DbMore.get_all_usernames db')) /\
  (res <> Python.VBool true -> db' = db) /\
  (res = Python.VBool true ->
   ~ In name (DbMore.get_all_usernames db) /\
   (4 <= String.length password)%nat /\ password = password2 /\
   Db.get_user_id db' (Some name) = Some (DbMore.next_user_id (Db.users db)) /\
   ~ In (DbMore.next_user_id (Db.users db)) (map Db.user_id (Db.users db))) /\
  (forall other, other <> name ->
     Db.get_user_id db' (Some other) = Db.get_user_id db (Some other)).
Proof.
  unfold DbMore.signup.
  destruct (existsb (String.eqb name) (DbMore.get_all_usernames db)) eqn:Hex;
    [intros [= <- <-]; repeat split; first [tauto | discriminate | congruence]|].
  destruct (String.length password <? 4)%nat eqn:Hlen;
    [intros [= <- <-]; repeat split; first [tauto | discriminate | congruence]|].
  destruct (String.eqb password password2) eqn:Hpw; simpl;
    [|intros [= <- <-]; repeat split; first [tauto | discriminate | congruence]].
  intros [= <- <-].
  assert (Hnot : ~ In name (DbMore.get_all_usernames db)).
  { intros Hin. assert (existsb (String.eqb name) (DbMore.get_all_usernames db) = true).
    { apply existsb_exists. exists name. split; [assumption | apply String.eqb_refl]. }
    congruence. }
  split; [|split; [congruence|split]].
  - intros Hnd. unfold DbMore.get_all_usernames in *. simpl. rewrite map_app. simpl.
    apply List.NoDup_app; [assumption | repeat constructor; intros [] |].
    intros x Hx [<-|[]]. contradiction.
  - intros _. split; [assumption|]. split; [now apply Nat.ltb_ge in Hlen|].
    split; [now apply String.eqb_eq|]. split.
    + unfold Db.get_user_id. simpl.
      rewrite (find_app_none _ _ _ (name_absent _ _ Hex)). simpl.
      now rewrite String.eqb_refl.
    + intros Hin. apply in_map_iff in Hin as (r & Hid & Hr).
      assert (Db.user_id r < DbMore.next_user_id (Db.users db)); [|lia].
      unfold DbMore.next_user_id. clear -Hr.
      induction (Db.users db) as [|x l IH]; simpl; [destruct Hr|].
      destruct Hr as [->|Hr]; [lia|]. specialize (IH Hr). lia.
  - intros other Hne. unfold Db.get_user_id. simpl.
    destruct (List.find (fun r => String.eqb (Db.user_name r) other) (Db.users db))
      as [r|] eqn:Hf.
    + now rewrite (find_app_some _ _ _ _ Hf).
    + rewrite (find_app_none _ _ _ Hf). simpl.
      destruct (String.eqb_spec name other); [congruence | reflexivity].
Qed.

(** Witness of [signup_keeps_names_unique]: Dave signs up. *)
Lemma signup_keeps_names_unique_witness :
  Db.get_user_id
    (DbMore.set_users Scenario.db0
       (Db.users Scenario.db0 ++ [ {| Db.user_id := 4; Db.user_name := "dave" |} ]))
    (Some "dave") = Some (DbMore.next_user_id (Db.users Scenario.db0)).
Proof.
  destruct (signup_keeps_names_unique Scenario.db0 _ "dave" "secret" "secret" _ eq_refl)
    as (_ & _ & H & _).
  apply H. reflexivity.
Defined.

(** X16. Looking a user up by name and then by id gives the name back, as
    the users page does for the signed-in user, provided the ids of
    [users] are distinct. *)
Theorem username_of_user_id (db : Db.Database) (n : string) (u : Z) :
  List.NoDup (map Db.user_id (Db.users db)) ->
  Db.sqlite_int u = true ->
  Db.get_user_id db (Some n) = Some u ->
  DbMore.get_username db (Some u) = Python.Ok (Some n).
Proof.
  intros Hnd Hs Hu. apply get_user_id_row in Hu as (r & Hin & <- & <-).
  unfold DbMore.get_username, Db.bind_opt_int.
  rewrite (bind_int_of_sqlite _ Hs).
  destruct (List.find _ (Db.users db)) as [r'|] eqn:Hf.
  - apply find_some in Hf as [Hin' Hid]. apply sql_eq_some in Hid.
    injection Hid as Hid. simpl.
    now rewrite (unique_key Db.user_id _ r' r Hnd Hin' Hin Hid).
  - apply (find_none _ _ Hf) in Hin. simpl in Hin. now rewrite Z.eqb_refl in Hin.
Qed.

(** Witness of [username_of_user_id]: Bob. *)
Lemma username_of_user_id_witness :
  DbMore.get_username Scenario.db0 (Some 2) = Python.Ok (Some "bob").
Proof.
  apply (username_of_user_id Scenario.db0 "bob" 2);
    [simpl; repeat constructor; simpl; intuition discriminate
    | reflexivity | reflexivity].
Defined.

(** ** Deleting a channel or a chat *)

Section Cascades.
Import Python Db DbMore Chats Main Http Spec More.

Lemma is_user_channel_admin_of_row db owner cid :
  is_user_channel_admin_of db owner cid = Ok true ->
  exists r, In r (channels db) /\ Db.channel_id r = cid.
Proof.
  unfold is_user_channel_admin_of, is_user_channel_admin.
  destruct owner as [u|]; destruct (bind_int cid) as [[]|]; try discriminate;
    (destruct (List.find _ (channels db)) as [r|] eqn:Hf; [|discriminate];
     intros _; apply find_some in Hf as [Hin Hid]; apply Z.eqb_eq in Hid;
     now exists r).
Qed.

Lemma filter_positive {A} (p : A -> bool) l x :
  In x l -> p x = true -> (0 <? length (List.filter p l))%nat = true.
Proof.
  intros Hin Hp. apply Nat.ltb_lt.
  assert (Hf : In x (List.filter p l)) by (apply filter_In; now split).
  destruct (List.filter p l); [destruct Hf | simpl; lia].
Qed.

Lemma in_filter_negb_eqb {A} (key : A -> Z) l k x :
  In x (List.filter (fun r => negb (key r =? k)) l) <-> In x l /\ key x <> k.
Proof.
  rewrite filter_In, negb_true_iff, Z.eqb_neq. reflexivity.
Qed.

(** Once the channel row is gone nobody passes the admin check. *)
Lemma is_user_channel_admin_gone db u cid :
  (forall r, In r (channels db) -> Db.channel_id r <> cid) ->
  is_user_channel_admin db u cid <> Ok true.
Proof.
  intros Hgone Hadm.
  destruct (is_user_channel_admin_of_row db (Some u) cid Hadm) as (r & Hin & Hid).
  exact (Hgone r Hin Hid).
Qed.

(** What [delete_channel] computes, when it returns. *)
Lemma delete_channel_inv db db' cid owner ok :
  DbMore.delete_channel db cid owner = Ok (ok, db') ->
  is_user_channel_admin_of db owner cid = Ok ok /\
  (ok = false -> db' = db) /\
  (ok = true ->
   (forall r, In r (channels db') <-> In r (channels db) /\ Db.channel_id r <> cid) /\
   (forall m, In m (channel_messages db') <->
              In m (channel_messages db) /\ msg_target m <> cid) /\
   users db' = users db /\ chat_members db' = chat_members db /\
   personal_messages db' = personal_messages db /\
   chat_messages db' = chat_messages db).
Proof.
  unfold DbMore.delete_channel.
  destruct (is_user_channel_admin_of db owner cid) as [[|]|e] eqn:Hadm;
    [| intros [= <- <-]; repeat split; congruence | discriminate].
  destruct (is_user_channel_admin_of_row _ _ _ Hadm) as (r & Hin & Hid).
  rewrite (filter_positive (fun r => Db.channel_id r =? cid) _ r Hin)
    by now apply Z.eqb_eq.
  intros [= <- <-]. split; [reflexivity|]. split; [discriminate|]. intros _.
  simpl. split; [|split; [|repeat split]].
  - intros r0. apply (in_filter_negb_eqb Db.channel_id).
  - intros m. apply (in_filter_negb_eqb msg_target).
Qed.

Lemma is_user_chat_admin_row s owner cid :
  is_user_chat_admin s owner cid = Ok true ->
  exists r, In r (chats s) /\ chat_id r = cid.
Proof.
  unfold is_user_chat_admin. destruct (bind_int cid) as [[]|]; [|discriminate].
  destruct (List.find _ (chats s)) as [r|] eqn:Hf; [|discriminate].
  intros _. apply find_some in Hf as [Hin Hid]. apply Z.eqb_eq in Hid. now exists r.
Qed.

(** What [delete_chat] computes, when it returns. *)
Lemma delete_chat_inv s s' cid owner ok :
  Chats.delete_chat s cid owner = Ok (ok, s') ->
  is_user_chat_admin s owner cid = Ok ok /\
  (ok = false -> s' = s) /\
  (ok = true ->
   (forall r, In r (chats s') <-> In r (chats s) /\ chat_id r <> cid) /\
   (forall m, In m (chat_messages (base s')) <->
              In m (chat_messages (base s)) /\ msg_target m <> cid) /\
   (forall m, In m (chat_members (base s')) <->
              In m (chat_members (base s)) /\ member_chat m <> cid) /\
   users (base s') = users (base s) /\ channels (base s') = channels (base s) /\
   personal_messages (base s') = personal_messages (base s) /\
   channel_messages (base s') = channel_messages (base s)).
Proof.
  unfold Chats.delete_chat.
  destruct (is_user_chat_admin s owner cid) as [[|]|e] eqn:Hadm;
    [| intros [= <- <-]; repeat split; congruence | discriminate].
  destruct (is_user_chat_admin_row _ _ _ Hadm) as (r & Hin & Hid).
  rewrite (filter_positive (fun r => chat_id r =? cid) _ r Hin)
    by now apply Z.eqb_eq.
  intros [= <- <-]. split; [reflexivity|]. split; [discriminate|]. intros _.
  simpl. split; [|split; [|split; [|repeat split]]].
  - intros r0. apply (in_filter_negb_eqb chat_id).
  - intros m. apply (in_filter_negb_eqb msg_target).
  - intros m. apply (in_filter_negb_eqb member_chat).
Qed.

(** Once the membership rows of a chat are gone nobody is a member. *)
Lemma is_user_chat_member_gone db chat u :
  (forall m, In m (chat_members db) -> member_chat m <> chat) ->
  is_user_chat_member db chat u <> Ok true.
Proof.
  intros Hgone Hm. apply is_user_chat_member_true in Hm.
  apply existsb_exists in Hm as (m & Hin & Hm).
  apply andb_true_iff in Hm as [Hc _]. apply Z.eqb_eq in Hc.
  exact (Hgone m Hin Hc).
Qed.

End Cascades.

(** X17. [delete_channel] succeeds exactly when the admin check passes,
    although what it returns is the row count of its last statement.  A
    refused call leaves the store as it was; a successful one removes the
    channel and every message of that channel, and nothing else: other
    channels, their messages and all other tables are kept. *)
Theorem delete_channel_cascades (db db' : Db.Database) (cid : Z)
    (owner : option Z) (ok : bool) :
  DbMore.delete_channel db cid owner = Python.Ok (ok, db') ->
  DbMore.is_user_channel_admin_of db owner cid = Python.Ok ok /\
  (ok = false -> db' = db) /\
  (ok = true ->
   (forall r, In r (Db.channels db') <-> In r (Db.channels db) /\ Db.channel_id r <> cid) /\
   (forall m, In m (Db.channel_messages db') <->
              In m (Db.channel_messages db) /\ Db.msg_target m <> cid) /\
   Db.users db' = Db.users db /\ Db.chat_members db' = Db.chat_members db /\
   Db.personal_messages db' = Db.personal_messages db /\
   Db.chat_messages db' = Db.chat_messages db).
Proof. apply delete_channel_inv. Qed.

(** Witness of [delete_channel_cascades]: Carol deletes her channel 9. *)
Lemma delete_channel_cascades_witness :
  DbMore.is_user_channel_admin_of Scenario.db0 (Some 3) 9 = Python.Ok true /\
  Db.channels
    (Db.set_channel_messages
       {| Db.users := Db.users Scenario.db0; Db.channels := [];
          Db.chat_members := Db.chat_members Scenario.db0;
          Db.personal_messages := Db.personal_messages Scenario.db0;
          Db.chat_messages := Db.chat_messages Scenario.db0;
          Db.channel_messages := Db.channel_messages Scenario.db0;
          Db.CURRENT_TIMESTAMP := Db.CURRENT_TIMESTAMP Scenario.db0 |} []) = [].
Proof.
  destruct (delete_channel_cascades Scenario.db0
              (Db.set_channel_messages
                 {| Db.users := Db.users Scenario.db0; Db.channels := [];
                    Db.chat_members := Db.chat_members Scenario.db0;
                    Db.personal_messages := Db.personal_messages Scenario.db0;
                    Db.chat_messages := Db.chat_messages Scenario.db0;
                    Db.channel_messages := Db.channel_messages Scenario.db0;
                    Db.CURRENT_TIMESTAMP := Db.CURRENT_TIMESTAMP Scenario.db0 |} [])
              9 (Some 3) true eq_refl) as (H & _).
  split; [exact H | reflexivity].
Defined.

(** X18. [delete_chat] succeeds exactly when the admin check passes.  A
    refused call leaves the store as it was; a successful one removes the
    chat together with all its messages and all its membership rows, so no
    row is left pointing at the deleted chat, and keeps everything else. *)
Theorem delete_chat_cascades (s s' : Chats.Store) (cid : Z) (owner : option Z)
    (ok : bool) :
  Chats.delete_chat s cid owner = Python.Ok (ok, s') ->
  Chats.is_user_chat_admin s owner cid = Python.Ok ok /\
  (ok = false -> s' = s) /\
  (ok = true ->
   (forall r, In r (Chats.chats s') <-> In r (Chats.chats s) /\ Chats.chat_id r <> cid) /\
   (forall m, In m (Db.chat_messages (Chats.base s')) <->
              In m (Db.chat_messages (Chats.base s)) /\ Db.msg_target m <> cid) /\
   (forall m, In m (Db.chat_members (Chats.base s')) <->
              In m (Db.chat_members (Chats.base s)) /\ Db.member_chat m <> cid) /\
   Db.users (Chats.base s') = Db.users (Chats.base s) /\
   Db.channels (Chats.base s') = Db.channels (Chats.base s) /\
   Db.personal_messages (Chats.base s') = Db.personal_messages (Chats.base s) /\
   Db.channel_messages (Chats.base s') = Db.channel_messages (Chats.base s)).
Proof. apply delete_chat_inv. Qed.

(** Witness of [delete_chat_cascades]: Alice deletes her chat 7. *)
Lemma delete_chat_cascades_witness :
  Chats.is_user_chat_admin (Http.store_of More.site0) (Some 1) 7 = Python.Ok true.
Proof.
  destruct (delete_chat_cascades (Http.store_of More.site0) _ 7 (Some 1) _ eq_refl)
    as (H & _).
  exact H.
Defined.

Section DeletionRoutes.
Import Python Db DbMore Chats Main Http Spec More.

Lemma update_site_same s : update_site s (store_of s) [] = s.
Proof.
  destruct s as [[db on rm em] ct]. unfold update_site, store_of. simpl.
  now rewrite app_nil_r.
Qed.

Lemma parse_id_some v z : parse_id v = Ok (Some z) -> int v = Ok z.
Proof.
  unfold parse_id. destruct (int v) as [x|[]]; try discriminate. now intros [= <-].
Qed.

Lemma try_int_some v w z w' : try_int v w = (Ok (Some z), w') -> int v = Ok z /\ w' = w.
Proof.
  unfold try_int. destruct (int v) as [x|[]]; try discriminate;
    intros [= <- <-]; now split.
Qed.

Lemma try_int_none v w w' : try_int v w = (Ok None, w') -> w' = w.
Proof.
  unfold try_int. destruct (int v) as [x|[]]; try discriminate; now intros [= <-].
Qed.

End DeletionRoutes.

(** X19. The route [/delete_channel] either changes nothing or deletes:
    then the signed-in user is the admin of the channel the form names,
    the channel and its messages are gone, the room [channel:<id>] is told
    so, and in the state the deletion leaves every [channel_message]
    naming that channel is dropped. *)
Theorem deleted_channel_is_closed (rq : Http.request) (w w' : Main.world)
    (resp : Http.response) :
  Http.delete_channel rq w = (Python.Ok resp, w') ->
  w' = w \/
  exists cid,
    Python.int (Http.form_get rq "channel_id") = Python.Ok cid /\
    DbMore.is_user_channel_admin_of (Main.store w)
      (Db.get_user_id (Main.store w) (Http.username rq)) cid = Python.Ok true /\
    Main.emitted w' = Main.emitted w ++ [More.channel_deleted_notice cid] /\
    (forall r, In r (Db.channels (Main.store w')) -> Db.channel_id r <> cid) /\
    (forall m, In m (Db.channel_messages (Main.store w')) -> Db.msg_target m <> cid) /\
    (forall c data,
       Python.int (Main.get data "channel_id") = Python.Ok cid ->
       Spec.dropped (Main.channel_message c data) w').
Proof.
  unfold Http.delete_channel.
  destruct (negb (Python.truthy (Main.of_name (Http.username rq))));
    [intros [= _ <-]; now left|].
  unfold mbind, Main.handler_bind, Main.db_get_user_id, Main.query. cbn [fst snd].
  destruct (Main.try_int (Http.form_get rq "channel_id") w) as [[[cid|]|e] w1] eqn:Hp;
    [| apply try_int_none in Hp as ->; intros [= _ <-]; now left | discriminate].
  apply try_int_some in Hp as [Hcid ->].
  unfold Main.execute.
  destruct (DbMore.delete_channel (Main.store w) cid _) as [[ok db']|e] eqn:Hd;
    [|discriminate].
  apply delete_channel_inv in Hd as (Hadm & Hfalse & Htrue).
  destruct ok; simpl.
  - intros [= _ <-]. right. exists cid.
    destruct (Htrue eq_refl) as (Hch & Hms & _). simpl.
    split; [assumption|]. split; [exact Hadm|]. split; [reflexivity|].
    split; [intros r Hr; now apply Hch in Hr|].
    split; [intros m Hm; now apply Hms in Hm|].
    intros c data Hdata.
    destruct (channel_message_cases c data
                {| Main.store := db'; Main.ONLINE_USER_IDS := Main.ONLINE_USER_IDS w;
                   Main.room_members := Main.room_members w;
                   Main.emitted := Main.emitted w ++ [More.channel_deleted_notice cid] |})
      as [H | (u & ch & kept & _ & Hc & Hm & _)]; [exact H|].
    exfalso. rewrite Hdata in Hc. injection Hc as <-.
    apply (is_user_channel_admin_gone db' u cid); [|exact Hm].
    intros r Hr. now apply Hch in Hr.
  - intros [= _ <-]. left. rewrite (Hfalse eq_refl). now destruct w.
Qed.

(** Witness of [deleted_channel_is_closed]: Carol deletes channel 9; her
    next post there is dropped. *)
Lemma deleted_channel_is_closed_witness :
  Spec.dropped (Main.channel_message Scenario.carol1 More.channel_post)
    (Spec.after (Http.delete_channel (More.request_of "carol" [("channel_id", "9")]))
       Scenario.w0).
Proof.
  destruct (deleted_channel_is_closed (More.request_of "carol" [("channel_id", "9")])
              Scenario.w0 _ (Http.Redirect "home_channels" []) eq_refl)
    as [H | (cid & Hcid & _ & _ & _ & _ & Hclosed)].
  - apply (f_equal Main.emitted) in H. vm_compute in H. discriminate H.
  - apply Hclosed. rewrite <- Hcid. reflexivity.
Defined.

(** X20. The route [/delete_chat] either changes nothing or deletes: then
    the signed-in user is the admin of the chat the form names, the chat,
    its messages and its memberships are gone, the room [chat:<id>] is
    told so, and in the state the deletion leaves every [chat_message]
    naming that chat is dropped, whoever sends it. *)
Theorem deleted_chat_is_closed (rq : Http.request) (s s' : Http.site)
    (resp : Http.response) :
  Http.delete_chat rq s = (Python.Ok resp, s') ->
  s' = s \/
  exists cid,
    Python.int (Http.form_get rq "chat_id") = Python.Ok cid /\
    Chats.is_user_chat_admin (Http.store_of s)
      (Db.get_user_id (Main.store (Http.io s)) (Http.username rq)) cid
      = Python.Ok true /\
    Main.emitted (Http.io s') = Main.emitted (Http.io s) ++ [More.chat_deleted_notice cid] /\
    (forall r, In r (Http.chat_table s') -> Chats.chat_id r <> cid) /\
    (forall m, In m (Db.chat_messages (Main.store (Http.io s'))) ->
               Db.msg_target m <> cid) /\
    (forall m, In m (Db.chat_members (Main.store (Http.io s'))) ->
               Db.member_chat m <> cid) /\
    (forall c data,
       Python.int (Main.get data "chat_id") = Python.Ok cid ->
       Spec.dropped (Main.chat_message c data) (Http.io s')).
Proof.
  unfold Http.delete_chat.
  destruct (negb (Python.truthy (Main.of_name (Http.username rq))));
    [intros [= _ <-]; now left|].
  destruct (Http.parse_id (Http.form_get rq "chat_id")) as [[cid|]|e] eqn:Hp;
    [| intros [= _ <-]; now left | discriminate].
  apply parse_id_some in Hp.
  destruct (Chats.delete_chat (Http.store_of s) cid _) as [[ok st]|e] eqn:Hd;
    [|discriminate].
  apply delete_chat_inv in Hd as (Hadm & Hfalse & Htrue).
  destruct ok.
  - intros [= _ <-]. right. exists cid.
    destruct (Htrue eq_refl) as (Hch & Hms & Hmb & _). simpl.
    split; [assumption|]. split; [exact Hadm|]. split; [reflexivity|].
    split; [intros r Hr; now apply Hch in Hr|].
    split; [intros m Hm; now apply Hms in Hm|].
    split; [intros m Hm; now apply Hmb in Hm|].
    intros c data Hdata.
    match goal with |- Spec.dropped _ ?x => set (w1 := x) end.
    destruct (chat_message_cases c data w1) as [H | (u & ch & kept & _ & Hc & Hm & _)];
      [exact H|].
    exfalso. rewrite Hdata in Hc. injection Hc as <-.
    apply (is_user_chat_member_gone (Main.store w1) cid u); [|exact Hm].
    intros m Hin. now apply Hmb in Hin.
  - intros [= _ <-]. left. rewrite (Hfalse eq_refl). apply update_site_same.
Qed.

(** Witness of [deleted_chat_is_closed]: Alice deletes chat 7; her next
    post there is dropped. *)
Lemma deleted_chat_is_closed_witness :
  Spec.dropped (Main.chat_message Scenario.alice1 More.chat_post)
    (Http.io (snd (Http.delete_chat (More.request_of "alice" [("chat_id", "7")])
                     More.site0))).
Proof.
  destruct (deleted_chat_is_closed (More.request_of "alice" [("chat_id", "7")])
              More.site0 _ (Http.Redirect "home_chats" []) eq_refl)
    as [H | (cid & Hcid & _ & _ & _ & _ & _ & Hclosed)].
  - apply (f_equal (fun s => Main.emitted (Http.io s))) in H. vm_compute in H.
    discriminate H.
  - apply Hclosed. rewrite <- Hcid. reflexivity.
Defined.

(** ** Deleting a message over HTTP *)

Section DeleteMsg.
Import Python Db DbMore Main Http Spec More.

Lemma delete_as_false delete db m o db' :
  (forall db m o db', delete db m o = Ok (false, db') -> db' = db) ->
  delete_as delete db m o = Ok (false, db') -> db' = db.
Proof.
  intros Hdel. unfold delete_as. destruct o as [u|]; [apply Hdel|].
  destruct (bind_int m); [now intros [= <-] | discriminate].
Qed.

(** The personal branch of [delete_msg], run. *)
Lemma delete_msg_personal_run rq id w n ok db' :
  username rq = Some n -> n <> "" ->
  eq_str (scope_of rq) "personal" = true ->
  delete_as delete_personal_message (store w) id (get_user_id (store w) (Some n))
    = Ok (ok, db') ->
  exists resp,
    delete_msg rq id w =
      (Ok resp,
       emits (with_store w db')
         match form rq !! "room" with
         | Some r => if ok && truthy (VStr r)
                     then [message_deleted_in "personal" id r] else []
         | None => []
         end).
Proof.
  intros Hu Hn Hscope Hd. unfold delete_msg. rewrite Hu, (truthy_name _ Hn).
  unfold scope_of in Hscope.
  unfold mbind, handler_bind, db_get_user_id, query. cbn [fst snd negb].
  destruct (truthy (form_get rq "scope")); cbn [negb]; rewrite Hscope;
    unfold execute; rewrite Hd;
    (destruct (form rq !! "room") as [r|]; cbn [fst snd];
     [destruct (ok && truthy (VStr r)) | ];
     destruct (truthy_id _);
     unfold sio_emit, send, mret, handler_ret, emits, with_store;
     cbn [store ONLINE_USER_IDS room_members emitted];
     rewrite ?app_nil_r; eexists; reflexivity).
Qed.

End DeleteMsg.

Section DeleteMsgMore.
Import Python Db DbMore Main Http Spec More.

(** A store method that raises aborts the personal branch of [delete_msg]
    with nothing done. *)
Lemma delete_msg_personal_raises rq id w n e :
  username rq = Some n -> n <> "" ->
  eq_str (scope_of rq) "personal" = true ->
  delete_as delete_personal_message (store w) id (get_user_id (store w) (Some n))
    = Exn e ->
  delete_msg rq id w = (Exn e, w).
Proof.
  intros Hu Hn Hscope Hd. unfold delete_msg. rewrite Hu, (truthy_name _ Hn).
  unfold scope_of in Hscope.
  unfold mbind, handler_bind, db_get_user_id, query. cbn [fst snd negb].
  destruct (truthy (form_get rq "scope")); cbn [negb]; rewrite Hscope;
    unfold execute; now rewrite Hd.
Qed.

End DeleteMsgMore.

(** X21. Over HTTP a personal message is deleted whether or not a room is
    named: the store is the one the delete method leaves.  The notice goes
    to the room string of the form, as given, and only when the deletion
    succeeded and the room is not empty; without a room a message is
    deleted with no notice at all, and a failed deletion leaves the world
    as it was. *)
Theorem delete_msg_notifies_named_room (rq : Http.request) (id : Z)
    (w : Main.world) (n : string) (ok : bool) (db' : Db.Database) :
  Http.username rq = Some n -> n <> "" ->
  Python.eq_str (More.scope_of rq) "personal" = true ->
  DbMore.delete_as Db.delete_personal_message (Main.store w) id
    (Db.get_user_id (Main.store w) (Some n)) = Python.Ok (ok, db') ->
  Main.store (Spec.after (Http.delete_msg rq id) w) = db' /\
  (ok = false -> Spec.after (Http.delete_msg rq id) w = w) /\
  (forall r, Http.form rq !! "room" = Some r -> r <> "" -> ok = true ->
     Main.emitted (Spec.after (Http.delete_msg rq id) w) =
       Main.emitted w ++ [More.message_deleted_in "personal" id r]) /\
  (Http.form rq !! "room" = None \/ Http.form rq !! "room" = Some "" ->
   Main.emitted (Spec.after (Http.delete_msg rq id) w) = Main.emitted w).
Proof.
  intros Hu Hn Hscope Hd.
  destruct (delete_msg_personal_run rq id w n ok db' Hu Hn Hscope Hd) as [resp Hrun].
  unfold Spec.after. rewrite Hrun. cbn [snd].
  split; [reflexivity|]. split; [|split].
  - intros ->. apply (delete_as_false _ _ _ _ _ delete_personal_message_false) in Hd.
    subst db'. destruct (Http.form rq !! "room"); unfold Spec.emits; simpl;
      rewrite app_nil_r; now destruct w.
  - intros r -> Hr ->. simpl.
    destruct (String.eqb_spec r ""); [contradiction | reflexivity].
  - intros [-> | ->]; simpl; [|rewrite andb_false_r]; apply app_nil_r.
Qed.

(** Witness of [delete_msg_notifies_named_room]: Alice deletes message 5
    naming the room [2:1]. *)
Lemma delete_msg_notifies_named_room_witness :
  Main.emitted (Spec.after (Http.delete_msg (More.request_of "alice" [("room", "2:1")]) 5)
                  Scenario.w0) =
    Main.emitted Scenario.w0 ++ [More.message_deleted_in "personal" 5 "2:1"].
Proof.
  destruct (delete_msg_notifies_named_room (More.request_of "alice" [("room", "2:1")])
              5 Scenario.w0 "alice" true _ eq_refl
              ltac:(discriminate) eq_refl eq_refl) as (_ & _ & H & _).
  apply H; [reflexivity | discriminate | reflexivity].
Defined.

(** X22. The HTTP route and the Socket.IO handler delete the same rows: for
    the same signed-in user, the personal scope and a message id of the
    event that parses to the id of the route (the peer id of the event not
    being one on which [int] overflows), [delete_msg] and [delete_message]
    leave the same store. *)
Theorem delete_msg_deletes_like_delete_message (c : Main.ctx)
    (data : gmap string Python.pyval) (rq : Http.request) (w : Main.world)
    (n : string) (u id : Z) :
  Spec.logged_in w c n u ->
  Http.username rq = Some n ->
  Python.eq_str (More.scope_of rq) "personal" = true ->
  Python.eq_str (Main.get data "scope") "personal" = true ->
  Python.int (Python.py_or (Main.get data "id") (Main.get data "message_id"))
    = Python.Ok id ->
  Python.int (Main.get data "peer_id") <> Python.Exn Python.OverflowError ->
  Main.store (Spec.after (Http.delete_msg rq id) w) =
  Main.store (Spec.after (Main.delete_message c data) w).
Proof.
  intros Hl Hrq Hsc Hsd Hid Hpeer.
  pose proof Hl as (Hs & Hn & Hu & Hz).
  destruct (Db.delete_personal_message (Main.store w) id u) as [[ok db']|e] eqn:Hd.
  - assert (Hd' : DbMore.delete_as Db.delete_personal_message (Main.store w) id
                    (Db.get_user_id (Main.store w) (Some n)) = Python.Ok (ok, db'))
      by (rewrite Hu; exact Hd).
    destruct (delete_msg_personal_run rq id w n ok db' Hrq Hn Hsc Hd') as [resp Hrun].
    unfold Spec.after.
    rewrite Hrun, (delete_message_personal c data w n u id ok db' Hl Hid Hsd Hpeer Hd).
    destruct ok; [reflexivity|]. simpl.
    now apply delete_personal_message_false in Hd.
  - assert (Hd' : DbMore.delete_as Db.delete_personal_message (Main.store w) id
                    (Db.get_user_id (Main.store w) (Some n)) = Python.Exn e)
      by (rewrite Hu; exact Hd).
    unfold Spec.after at 1.
    rewrite (delete_msg_personal_raises rq id w n e Hrq Hn Hsc Hd'). cbn [snd].
    destruct (delete_message_cases c data w)
      as [H | (n' & u' & mid & Hs' & Hu' & _ & Hm &
               [[_ (db' & Hd2 & _)] | [[Hc _] | [Hc _]]])].
    + unfold Spec.dropped in H. now rewrite H.
    + rewrite Hs in Hs'. injection Hs' as <-. rewrite Hu in Hu'. injection Hu' as <-.
      rewrite Hid in Hm. injection Hm as <-. congruence.
    + discriminate (eq_str_unique _ _ _ Hsd Hc).
    + discriminate (eq_str_unique _ _ _ Hsd Hc).
Qed.

(** Witness of [delete_msg_deletes_like_delete_message]: Alice deletes
    message 5 either way. *)
Lemma delete_msg_deletes_like_delete_message_witness :
  Main.store (Spec.after (Http.delete_msg (More.request_of "alice" [("room", "2:1")]) 5)
                Scenario.w0) =
  Main.store (Spec.after (Main.delete_message Scenario.alice1 Scenario.delete_no_peer)
                Scenario.w0).
Proof.
  apply (delete_msg_deletes_like_delete_message Scenario.alice1 Scenario.delete_no_peer
           (More.request_of "alice" [("room", "2:1")]) Scenario.w0 "alice" 1 5);
    first [ reflexivity | discriminate
          | repeat split; first [reflexivity | discriminate] ].
Defined.

(** X23. A deleted message is gone from every log: while the ids of
    [personal_messages] are distinct, after [delete_personal_message] has
    succeeded no call of [get_personal_messages] lists that id. *)
Theorem deleted_message_is_not_listed (db db' : Db.Database) (m o : Z)
    (a b : option Z) (l : list (Z * option Z * Db.stored_text * string)) :
  More.unique_ids (Db.personal_messages db) ->
  Db.delete_personal_message db m o = Python.Ok (true, db') ->
  DbMore.get_personal_messages db' a b = Python.Ok l ->
  ~ In m (map More.listed_id l).
Proof.
  intros Hu Hd Hl Hin.
  apply delete_personal_message_inv in Hd as (_ & _ & Hok & ->).
  symmetry in Hok. apply rowcount_positive in Hok as (r0 & Hin0 & Hr0).
  unfold DbMore.get_personal_messages in Hl.
  destruct (Db.bind_opt_int a), (Db.bind_opt_int b); try discriminate.
  injection Hl as <-. rewrite map_map in Hin.
  apply in_map_iff in Hin as (r & Hid & Hr). unfold More.listed_id in Hid.
  simpl in Hid. apply in_order_by_timestamp, filter_In in Hr as [Hr _].
  cbn [Db.personal_messages Db.set_personal_messages] in Hr.
  apply delete_owned_rows in Hr as [Hr Hnot].
  destruct Hr0 as [Hid0 Hs0].
  assert (r = r0) by (apply (unique_key Db.msg_id _ r r0 Hu Hr Hin0); congruence).
  subst r0. apply Hnot. now split.
Qed.

(** Witness of [deleted_message_is_not_listed]: message 5. *)
Lemma deleted_message_is_not_listed_witness :
  ~ In 5 (map More.listed_id []).
Proof.
  destruct db0_unique_ids as (U & _).
  apply (deleted_message_is_not_listed Scenario.db0
           (Db.set_personal_messages Scenario.db0 []) 5 1 (Some 1) (Some 2) [] U);
    reflexivity.
Defined.

(** ** Renaming a chat *)

Section Renaming.
Import Python Db DbMore Chats Main Http Spec More.

Lemma renamed_id cid name r : chat_id (renamed cid name r) = chat_id r.
Proof. unfold renamed. now destruct (chat_id r =? cid). Qed.

Lemma renamed_admin cid name r : chat_admin (renamed cid name r) = chat_admin r.
Proof. unfold renamed. now destruct (chat_id r =? cid). Qed.

Lemma find_renamed cid name k l :
  List.find (fun r => chat_id r =? k) (map (renamed cid name) l) =
  renamed cid name <$> List.find (fun r => chat_id r =? k) l.
Proof.
  induction l as [|r l IH]; simpl; [reflexivity|].
  rewrite renamed_id. destruct (chat_id r =? k); [reflexivity | exact IH].
Qed.

(** What [update_chat_name] computes, when it returns. *)
Lemma update_chat_name_inv s s' cid name admin ok :
  update_chat_name s cid name admin = Ok (ok, s') ->
  is_user_chat_admin s admin cid = Ok ok /\
  (ok = false -> s' = s) /\
  (ok = true ->
   s' = {| base := base s; chats := map (renamed cid name) (chats s) |}).
Proof.
  unfold update_chat_name.
  destruct (is_user_chat_admin s admin cid) as [[|]|e] eqn:Hadm;
    [| intros [= <- <-]; repeat split; congruence | discriminate].
  destruct (is_user_chat_admin_row _ _ _ Hadm) as (r & Hin & Hid).
  rewrite (filter_positive (fun r => chat_id r =? cid) _ r Hin)
    by now apply Z.eqb_eq.
  intros [= <- <-]. split; [reflexivity|]. split; [discriminate | reflexivity].
Qed.

Lemma get_chat_name_renamed s cid name :
  (exists r, In r (chats s) /\ chat_id r = cid) -> sqlite_int cid = true ->
  get_chat_name {| base := base s; chats := map (renamed cid name) (chats s) |} cid
  = Ok (Some name).
Proof.
  intros (r & Hin & Hid) Hc. unfold get_chat_name.
  rewrite (bind_int_of_sqlite _ Hc). simpl. rewrite find_renamed.
  destruct (List.find _ (chats s)) as [r'|] eqn:Hf.
  - apply find_some in Hf as [_ Hid']. simpl. unfold renamed. now rewrite Hid'.
  - apply (find_none _ _ Hf) in Hin. rewrite Hid, Z.eqb_refl in Hin. discriminate.
Qed.

Lemma get_chat_name_other s cid name other :
  other <> cid ->
  get_chat_name {| base := base s; chats := map (renamed cid name) (chats s) |} other
  = get_chat_name s other.
Proof.
  intros Hne. unfold get_chat_name. destruct (bind_int other); [|reflexivity].
  simpl. rewrite find_renamed.
  destruct (List.find _ (chats s)) as [r'|] eqn:Hf; [|reflexivity].
  apply find_some in Hf as [_ Hid']. apply Z.eqb_eq in Hid'. simpl. unfold renamed.
  destruct (Z.eqb_spec (chat_id r') cid); [congruence | reflexivity].
Qed.

Lemma is_user_chat_admin_renamed s cid name x k :
  is_user_chat_admin {| base := base s; chats := map (renamed cid name) (chats s) |} x k
  = is_user_chat_admin s x k.
Proof.
  unfold is_user_chat_admin. destruct (bind_int k); [|reflexivity].
  simpl. rewrite find_renamed.
  destruct (List.find _ (chats s)) as [r'|]; simpl; [|reflexivity].
  now rewrite renamed_admin.
Qed.

Lemma is_user_chat_admin_bound s x k b :
  is_user_chat_admin s x k = Ok b -> sqlite_int k = true.
Proof.
  unfold is_user_chat_admin. destruct (bind_int k) eqn:E; [|discriminate].
  intros _. eapply bind_int_sqlite, E.
Qed.

End Renaming.

(** X24. The route [/edit_chat] either changes nothing (no or unparseable
    chat id, a name that is missing or blank once stripped, or a user who
    is not the admin of the chat) or renames: then the signed-in user is
    the admin, the chat reads back under the new name with surrounding
    blanks stripped, the room [chat:<id>] is told that name, and nothing
    else changes: the other chats keep their names, every chat keeps its
    admin, and the rest of the store is as it was. *)
Theorem edit_chat_renames (rq : Http.request) (s s' : Http.site)
    (resp : Http.response) :
  Http.edit_chat rq s = (Python.Ok resp, s') ->
  s' = s \/
  exists cid name,
    Python.int (Http.form_get rq "chat_id") = Python.Ok cid /\
    Http.form rq !! "new_name" = Some name /\
    Http.str_strip name <> "" /\
    Chats.is_user_chat_admin (Http.store_of s)
      (Db.get_user_id (Main.store (Http.io s)) (Http.username rq)) cid
      = Python.Ok true /\
    Main.emitted (Http.io s') =
      Main.emitted (Http.io s) ++ [More.chat_updated_notice cid (Http.str_strip name)] /\
    Main.store (Http.io s') = Main.store (Http.io s) /\
    Chats.get_chat_name (Http.store_of s') cid = Python.Ok (Some (Http.str_strip name)) /\
    (forall other, other <> cid ->
       Chats.get_chat_name (Http.store_of s') other =
       Chats.get_chat_name (Http.store_of s) other) /\
    (forall x k,
       Chats.is_user_chat_admin (Http.store_of s') x k =
       Chats.is_user_chat_admin (Http.store_of s) x k).
Proof.
  unfold Http.edit_chat.
  destruct (negb (Python.truthy (Main.of_name (Http.username rq))));
    [intros [= _ <-]; now left|].
  destruct (Http.parse_id (Http.form_get rq "chat_id")) as [[cid|]|e] eqn:Hp;
    [| intros [= _ <-]; now left | discriminate].
  apply parse_id_some in Hp.
  destruct (Http.form rq !! "new_name") as [name|] eqn:Hname;
    [|intros [= _ <-]; now left].
  destruct (negb (Python.truthy (Python.VStr name))
            || (String.length (Http.str_strip name) =? 0)%nat) eqn:Hblank;
    [intros [= _ <-]; now left|].
  apply orb_false_iff in Hblank as [_ Hlen]. apply Nat.eqb_neq in Hlen.
  destruct (Chats.update_chat_name (Http.store_of s) cid _ _) as [[ok st]|e] eqn:Hup;
    [|discriminate].
  apply update_chat_name_inv in Hup as (Hadm & Hfalse & Htrue).
  destruct ok.
  - intros [= _ <-]. right. exists cid, name. rewrite (Htrue eq_refl).
    unfold Http.update_site, Http.store_of. cbn [Http.io Http.chat_table Main.store
      Main.emitted Chats.base Chats.chats].
    split; [assumption|]. split; [reflexivity|].
    split; [intros E; rewrite E in Hlen; now apply Hlen|].
    split; [exact Hadm|]. split; [reflexivity|]. split; [reflexivity|].
    split; [|split].
    + apply (get_chat_name_renamed (Http.store_of s)).
      * now apply is_user_chat_admin_row in Hadm.
      * now apply is_user_chat_admin_bound in Hadm.
    + intros other Hne. now apply (get_chat_name_other (Http.store_of s)).
    + intros x k. apply (is_user_chat_admin_renamed (Http.store_of s)).
  - intros [= _ <-]. left. rewrite (Hfalse eq_refl). apply update_site_same.
Qed.

(** Witness of [edit_chat_renames]: Alice renames chat 7. *)
Lemma edit_chat_renames_witness :
  Chats.get_chat_name
    (Http.store_of
       (snd (Http.edit_chat
               (More.request_of "alice" [("chat_id", "7"); ("new_name", "  crew ")])
               More.site0))) 7 = Python.Ok (Some "crew").
Proof.
  destruct (edit_chat_renames
              (More.request_of "alice" [("chat_id", "7"); ("new_name", "  crew ")])
              More.site0 _ (Http.Redirect "home_chats" []) eq_refl)
    as [H | (cid & name & Hcid & Hname & _ & _ & _ & _ & Hget & _)].
  - apply (f_equal (fun s => Main.emitted (Http.io s))) in H. vm_compute in H.
    discriminate H.
  - injection Hcid as <-. injection Hname as <-. exact Hget.
Defined.

(** ** Ownership *)

Section Ownership.
Import Python Db DbMore Chats Main Http Spec More.

(** A row selected by [WHERE admin_id = ?] is the one [WHERE id = ?]
    fetches, when the ids are a primary key. *)
Lemma owned_iff {A} (key : A -> Z) (adm : A -> option Z) (l : list A) (u k : Z) :
  List.NoDup (map key l) ->
  k ∈ (list_to_set
         (map key (List.filter (fun r => sql_eq (adm r) (Some u)) l)) : gset Z) <->
  match List.find (fun r => key r =? k) l with
  | Some r => py_eq_id (adm r) (Some u)
  | None => false
  end = true.
Proof.
  intros Hnd. rewrite elem_of_list_to_set, list_elem_of_In, in_map_iff. split.
  - intros (r & Hk & Hr). apply filter_In in Hr as [Hin Hadm].
    destruct (List.find _ l) as [r'|] eqn:Hf.
    + apply find_some in Hf as [Hin' Hid]. apply Z.eqb_eq in Hid.
      assert (r' = r) as -> by (apply (unique_key key l); congruence).
      destruct (adm r); [exact Hadm | discriminate].
    + apply (find_none _ _ Hf) in Hin. simpl in Hin.
      rewrite Hk, Z.eqb_refl in Hin. discriminate.
  - destruct (List.find _ l) as [r|] eqn:Hf; [|discriminate].
    apply find_some in Hf as [Hin Hid]. apply Z.eqb_eq in Hid.
    intros Hadm. exists r. split; [exact Hid|]. apply filter_In. split; [exact Hin|].
    destruct (adm r); [exact Hadm | discriminate].
Qed.

Lemma chats0_unique_ids : List.NoDup (map chat_id chats0).
Proof. simpl. repeat constructor. simpl. tauto. Defined.

End Ownership.

(** X25. The ids [get_owned_chat_ids] and [get_owned_channel_ids] return
    for a user are exactly the chats and channels of which
    [is_user_chat_admin] and [is_user_channel_admin] call that user the
    admin, the ids of each table being a primary key. *)
Theorem owned_ids_are_administered :
  (forall (s : Chats.Store) (u k : Z) (ids : gset Z),
     List.NoDup (map Chats.chat_id (Chats.chats s)) ->
     Chats.get_owned_chat_ids s (Some u) = Python.Ok ids ->
     Db.sqlite_int k = true ->
     (k ∈ ids <-> Chats.is_user_chat_admin s (Some u) k = Python.Ok true)) /\
  (forall (db : Db.Database) (u k : Z) (ids : gset Z),
     List.NoDup (map Db.channel_id (Db.channels db)) ->
     DbMore.get_owned_channel_ids db (Some u) = Python.Ok ids ->
     Db.sqlite_int k = true ->
     (k ∈ ids <-> Db.is_user_channel_admin db u k = Python.Ok true)).
Proof.
  split.
  - intros s u k ids Hnd Hget Hk. unfold Chats.get_owned_chat_ids in Hget.
    destruct (Db.bind_opt_int (Some u)); [|discriminate]. injection Hget as <-.
    unfold Chats.is_user_chat_admin. rewrite (bind_int_of_sqlite _ Hk).
    rewrite (owned_iff Chats.chat_id Chats.chat_admin _ u k Hnd).
    split; [now intros -> | now intros [= ->]].
  - intros db u k ids Hnd Hget Hk. unfold DbMore.get_owned_channel_ids in Hget.
    destruct (Db.bind_opt_int (Some u)); [|discriminate]. injection Hget as <-.
    unfold Db.is_user_channel_admin. rewrite (bind_int_of_sqlite _ Hk).
    rewrite (owned_iff Db.channel_id Db.channel_admin _ u k Hnd).
    destruct (List.find _ (Db.channels db)) as [r|]; [|split; discriminate].
    unfold DbMore.py_eq_id. destruct (Db.channel_admin r);
      (split; [now intros -> | now intros [= ->]]).
Qed.

(** Witness of [owned_ids_are_administered]: chat 7 is among Alice's. *)
Lemma owned_ids_are_administered_witness :
  7 ∈ ({[ 7 ]} : gset Z).
Proof.
  destruct owned_ids_are_administered as (H & _).
  apply (H (Http.store_of More.site0) 1 7 {[ 7 ]} chats0_unique_ids).
  - vm_compute. reflexivity.
  - reflexivity.
  - reflexivity.
Defined.

(** ** Corner cases of the builtins and of the [content] column, run *)

Section CornerCases.
Import Python Db DbMore Chats Main Http Spec Scenario More.

(** [int] does not skip the separator [0x1c], which [str.strip] removes. *)
Example int_rejects_separator :
  int (VStr (String "028" "7")) = Exn ValueError /\
  int (VStr (String "009" "7 ")) = Ok 7 /\
  str_strip (String "028" "a ") = "a".
Proof. repeat split. Qed.

(** A chat id behind a separator is no chat id: nothing is renamed. *)
Example edit_chat_rejects_separator :
  edit_chat (request_of "alice" [("chat_id", String "028" "7"); ("new_name", "crew")])
    site0 = (Ok (Redirect "home_chats" []), site0).
Proof. reflexivity. Qed.

(** A message id behind a separator is no message id: the event is dropped
    and Alice's message 5 stays. *)
Example delete_message_rejects_separator :
  delete_message alice1
    (dict [("scope", VStr "personal"); ("id", VStr (String "028" "5"))]) w0 = (Ok tt, w0).
Proof. reflexivity. Qed.

(** A NaN as text is refused by the [content] column: the handler raises
    with nothing persisted and nothing emitted. *)
Example nan_text_is_refused :
  chat_message alice1 (dict [("chat_id", VInt 7); ("text", VFloat NaN)]) w0 =
    (Exn SqliteIntegrityError, w0).
Proof. reflexivity. Qed.

(** A room with an id of more than 64 bits: the handler raises on the
    binding, with nothing persisted and nothing emitted. *)
Example long_room_id_raises :
  personal_message carol1
    (dict [("room", VStr "100000000000000000000:2"); ("text", VStr "hi")]) w0 =
    (Exn OverflowError, w0).
Proof. reflexivity. Qed.

End CornerCases.
